(** * LogiERP: the in-memory store and its REST handlers

    A shallow embedding of [MemStorage] (the storage class behind the
    [IStorage] interface) and of the route handlers of [server/routes.ts],
    followed by the properties of the stock bookkeeping, of validation
    failures, of identifier allocation, of the dashboard counters and of
    partial updates, and by further properties of the create and delete
    methods, of the status codes, of the two logs (activities and
    movements) and of the completion of an output.

    Conventions of the embedding
    - identifiers, foreign keys and timestamps (milliseconds) are [Z];
    - every other JavaScript number is the IEEE 754 binary64 value it is
      at run time, a [float]; [+] on numbers is [PrimFloat.add], which
      rounds to nearest, ties to even, as JavaScript does;
    - a [Map<number, T>] is an association list in insertion order;
    - [async] methods run to completion one after the other, so a handler
      is a computation in the state monad over the store;
    - [new Date()] is the [now] argument of the operation that reads it. *)

From Stdlib Require Import PrimFloat ZArith List Sorted Permutation String
  Ascii Bool Lia.
From ExtLib Require Import Structures.Monad Structures.MonadState
  Data.Monads.StateMonad.
Import ListNotations MonadNotation.
Local Open Scope monad_scope.
#[local] Set Warnings "-inexact-float".
Open Scope string_scope.
Open Scope Z_scope.

(** ** JavaScript [Map<number, T>] *)

Section JsMap.
Context {A : Type}.

Definition JsMap := list (Z * A).

(** [m.get(k)] *)
Fixpoint map_get (k : Z) (m : JsMap) : option A :=
  match m with
  | [] => None
  | (k', v) :: m' => if k =? k' then Some v else map_get k m'
  end.

(** [m.set(k, v)]: an existing key keeps its position, a new key goes
    last. *)
Fixpoint map_set (k : Z) (v : A) (m : JsMap) : JsMap :=
  match m with
  | [] => [(k, v)]
  | (k', v') :: m' =>
      if k =? k' then (k, v) :: m' else (k', v') :: map_set k v m'
  end.

(** [m.has(k)], which is also what [m.delete(k)] returns. *)
Definition map_has (k : Z) (m : JsMap) : bool :=
  match map_get k m with Some _ => true | None => false end.

(** the map left by [m.delete(k)] *)
Fixpoint map_delete (k : Z) (m : JsMap) : JsMap :=
  match m with
  | [] => []
  | (k', v') :: m' =>
      if k =? k' then m' else (k', v') :: map_delete k m'
  end.

(** [Array.from(m.values())] *)
Definition map_values (m : JsMap) : list A := List.map snd m.

Definition map_keys (m : JsMap) : list Z := List.map fst m.
End JsMap.
Arguments JsMap A : clear implicits.

(** ** Values of the record fields *)

(** A nullable numeric property as the store can hold it: the key may be
    missing ([Undefined]), hold [null], or hold a number, which may be the
    [nan] that an addition on a missing key leaves behind. *)
Inductive Numeric := Undefined | Null | Num (q : float).

(** [ToNumber] of a value that holds a number: [null] counts as [0];
    [None] is the [undefined] of a missing key, which converts to [nan]. *)
Definition toNumber (v : Numeric) : option float :=
  match v with
  | Undefined => None
  | Null => Some 0%float
  | Num q => Some q
  end.

(** [v + q]: the binary64 sum of [ToNumber v] and [q]. *)
Definition js_add (v : Numeric) (q : float) : Numeric :=
  match toNumber v with
  | Some c => Num (c + q)%float
  | None => Num nan
  end.

(** [a <= b] *)
Definition js_le (a b : Numeric) : bool :=
  match toNumber a, toNumber b with
  | Some x, Some y => (x <=? y)%float
  | _, _ => false
  end.

(** An optional nullable number of a request body: key missing, [null],
    or a number. *)
Definition numericOfBody (v : option (option float)) : Numeric :=
  match v with
  | None => Undefined
  | Some None => Null
  | Some (Some q) => Num q
  end.

(** [z.string().or(z.date())] *)
Inductive DateValue := DateOf (t : Z) | DateString (s : string).

(** One property of [{ ...existing, ...patch }]: a key of the patch
    replaces the existing value, a missing key keeps it. *)
Definition spread {A : Type} (existing : A) (patch : option A) : A :=
  match patch with
  | Some v => v
  | None => existing
  end.

(** ** Entities ([shared/schema.ts])

    For each table, [X.t] is the select type [X], [InsertX.t] the type
    inferred from the insert schema, and [PartialX.t] is
    [Partial<InsertX>], where [None] is a missing key.  In the stored
    records an optional text, foreign key or timestamp is an [option]:
    [None] is [null] or a missing key, which no handler tells apart. *)

Module User.
Record t := mk {
  id : Z; username : string; password : string; fullName : string;
  role : string; department : option string; email : option string }.
End User.

Module InsertUser.
Record t := mk {
  username : string; password : string; fullName : string;
  role : string; department : option string; email : option string }.
End InsertUser.

Module Supplier.
Record t := mk {
  id : Z; name : string; contact : option string; email : option string;
  phone : option string; address : option string; taxId : option string;
  notes : option string; status : string; createdAt : Z }.
End Supplier.

Module InsertSupplier.
Record t := mk {
  name : string; contact : option string; email : option string;
  phone : option string; address : option string; taxId : option string;
  notes : option string; status : string }.
End InsertSupplier.

Module PartialSupplier.
Record t := mk {
  name : option string; contact : option (option string);
  email : option (option string); phone : option (option string);
  address : option (option string); taxId : option (option string);
  notes : option (option string); status : option string }.
End PartialSupplier.

Module Product.
Record t := mk {
  id : Z; code : string; name : string; description : option string;
  category : string; unit : string; minStock : Numeric;
  currentStock : Numeric; location : option string; cost : option float;
  supplierId : option Z; createdAt : Z }.
End Product.

Module InsertProduct.
Record t := mk {
  code : string; name : string; description : option string;
  category : string; unit : string; minStock : option (option float);
  currentStock : option (option float); location : option string;
  cost : option float; supplierId : option Z }.
End InsertProduct.

Module PartialProduct.
Record t := mk {
  code : option string; name : option string;
  description : option (option string); category : option string;
  unit : option string; minStock : option (option float);
  currentStock : option (option float); location : option (option string);
  cost : option (option float); supplierId : option (option Z) }.
End PartialProduct.

Module Requirement.
Record t := mk {
  id : Z; code : string; title : string; requestorId : option Z;
  departmentId : option string; status : string; priority : string;
  notes : option string; dueDate : option DateValue; createdAt : Z }.
End Requirement.

Module InsertRequirement.
Record t := mk {
  code : string; title : string; requestorId : Z; departmentId : string;
  status : string; priority : string; notes : option string;
  dueDate : option DateValue }.
End InsertRequirement.

Module PartialRequirement.
Record t := mk {
  code : option string; title : option string; requestorId : option Z;
  departmentId : option string; status : option string;
  priority : option string; notes : option string;
  dueDate : option DateValue }.
End PartialRequirement.

Module RequirementDetail.
Record t := mk {
  id : Z; requirementId : Z; productId : Z; quantity : float; unit : string;
  notes : option string; status : string }.
End RequirementDetail.

Module InsertRequirementDetail.
Record t := mk {
  requirementId : Z; productId : Z; quantity : float; unit : string;
  notes : option string; status : string }.
End InsertRequirementDetail.

Module PartialRequirementDetail.
Record t := mk {
  requirementId : option Z; productId : option Z; quantity : option float;
  unit : option string; notes : option (option string);
  status : option string }.
End PartialRequirementDetail.

Module PurchaseOrder.
Record t := mk {
  id : Z; code : string; title : string; supplierId : Z;
  requirementId : option Z; status : string; totalAmount : option float;
  currency : option string; notes : option string;
  expectedDeliveryDate : option Z; createdBy : option Z; createdAt : Z }.
End PurchaseOrder.

Module InsertPurchaseOrder.
Record t := mk {
  code : string; title : string; supplierId : Z;
  requirementId : option Z; status : string; totalAmount : option float;
  currency : option string; notes : option string;
  expectedDeliveryDate : option Z; createdBy : option Z }.
End InsertPurchaseOrder.

Module PartialPurchaseOrder.
Record t := mk {
  code : option string; title : option string; supplierId : option Z;
  requirementId : option (option Z); status : option string;
  totalAmount : option (option float); currency : option (option string);
  notes : option (option string);
  expectedDeliveryDate : option (option Z);
  createdBy : option (option Z) }.
End PartialPurchaseOrder.

Module PurchaseOrderDetail.
Record t := mk {
  id : Z; purchaseOrderId : Z; productId : Z; quantity : float;
  unit : string; unitPrice : float; totalPrice : float; notes : option string }.
End PurchaseOrderDetail.

Module InsertPurchaseOrderDetail.
Record t := mk {
  purchaseOrderId : Z; productId : Z; quantity : float; unit : string;
  unitPrice : float; totalPrice : float; notes : option string }.
End InsertPurchaseOrderDetail.

Module PartialPurchaseOrderDetail.
Record t := mk {
  purchaseOrderId : option Z; productId : option Z; quantity : option float;
  unit : option string; unitPrice : option float; totalPrice : option float;
  notes : option (option string) }.
End PartialPurchaseOrderDetail.

Module Reception.
Record t := mk {
  id : Z; code : string; purchaseOrderId : option Z; supplierId : Z;
  status : string; notes : option string; receivedBy : option Z;
  receivedAt : option Z; createdAt : Z }.
End Reception.

Module InsertReception.
Record t := mk {
  code : string; purchaseOrderId : option Z; supplierId : Z;
  status : string; notes : option string; receivedBy : option Z;
  receivedAt : option Z }.
End InsertReception.

Module PartialReception.
Record t := mk {
  code : option string; purchaseOrderId : option (option Z);
  supplierId : option Z; status : option string;
  notes : option (option string); receivedBy : option (option Z);
  receivedAt : option Z }.
End PartialReception.

Module ReceptionDetail.
Record t := mk {
  id : Z; receptionId : Z; purchaseOrderDetailId : option Z;
  productId : Z; quantityExpected : float; quantityReceived : float;
  unit : string; notes : option string; status : string }.
End ReceptionDetail.

Module InsertReceptionDetail.
Record t := mk {
  receptionId : Z; purchaseOrderDetailId : option Z; productId : Z;
  quantityExpected : float; quantityReceived : float; unit : string;
  notes : option string; status : string }.
End InsertReceptionDetail.

Module PartialReceptionDetail.
Record t := mk {
  receptionId : option Z; purchaseOrderDetailId : option (option Z);
  productId : option Z; quantityExpected : option float;
  quantityReceived : option float; unit : option string;
  notes : option (option string); status : option string }.
End PartialReceptionDetail.

Module InventoryMovement.
Record t := mk {
  id : Z; productId : Z; quantity : float; unit : string;
  movementType : string; referenceId : option Z;
  referenceType : option string; notes : option string;
  createdBy : option Z; createdAt : Z }.
End InventoryMovement.

Module InsertInventoryMovement.
Record t := mk {
  productId : Z; quantity : float; unit : string; movementType : string;
  referenceId : option Z; referenceType : option string;
  notes : option string; createdBy : option Z }.
End InsertInventoryMovement.

Module Output.
Record t := mk {
  id : Z; code : string; destination : string; destinationType : string;
  status : string; notes : option string; requestedBy : option Z;
  approvedBy : option Z; createdAt : Z }.
End Output.

Module InsertOutput.
Record t := mk {
  code : string; destination : string; destinationType : string;
  status : string; notes : option string; requestedBy : option Z;
  approvedBy : option Z }.
End InsertOutput.

Module PartialOutput.
Record t := mk {
  code : option string; destination : option string;
  destinationType : option string; status : option string;
  notes : option (option string); requestedBy : option (option Z);
  approvedBy : option (option Z) }.
End PartialOutput.

Module OutputDetail.
Record t := mk {
  id : Z; outputId : Z; productId : Z; quantity : float; unit : string;
  notes : option string; status : string }.
End OutputDetail.

Module InsertOutputDetail.
Record t := mk {
  outputId : Z; productId : Z; quantity : float; unit : string;
  notes : option string; status : string }.
End InsertOutputDetail.

Module PartialOutputDetail.
Record t := mk {
  outputId : option Z; productId : option Z; quantity : option float;
  unit : option string; notes : option (option string);
  status : option string }.
End PartialOutputDetail.

Module Invoice.
Record t := mk {
  id : Z; code : string; supplierInvoiceNumber : option string;
  supplierId : Z; purchaseOrderId : option Z; amount : float;
  currency : option string; status : string; issueDate : Z; dueDate : Z;
  notes : option string; createdAt : Z }.
End Invoice.

Module InsertInvoice.
Record t := mk {
  code : string; supplierInvoiceNumber : option string; supplierId : Z;
  purchaseOrderId : option Z; amount : float; currency : option string;
  status : string; issueDate : Z; dueDate : Z; notes : option string }.
End InsertInvoice.

Module PartialInvoice.
Record t := mk {
  code : option string; supplierInvoiceNumber : option (option string);
  supplierId : option Z; purchaseOrderId : option (option Z);
  amount : option float; currency : option (option string);
  status : option string; issueDate : option Z; dueDate : option Z;
  notes : option (option string) }.
End PartialInvoice.

Module SystemActivity.
Record t := mk {
  id : Z; userId : option Z; activityType : string; description : string;
  entityType : string; entityId : option Z; createdAt : Z }.
End SystemActivity.

Module InsertSystemActivity.
Record t := mk {
  userId : option Z; activityType : string; description : string;
  entityType : string; entityId : option Z }.
End InsertSystemActivity.

(** ** The store ([class MemStorage])

    Each private [Map] and the id counter that goes with it are kept
    together: [entries (suppliers s)] is [this.suppliers] and
    [nextId (suppliers s)] is [this.supplierId]. *)

Record Table (A : Type) := mkTable { entries : JsMap A; nextId : Z }.
Arguments mkTable {A} _ _.
Arguments entries {A} _.
Arguments nextId {A} _.

(** [const id = this.xId++; this.xs.set(id, mk id); return mk id] *)
Definition alloc {A : Type} (t : Table A) (mk : Z -> A) : Table A * A :=
  let id := nextId t in
  let r := mk id in
  (mkTable (map_set id r (entries t)) (id + 1), r).

(** [const existing = this.xs.get(id); if (!existing) return undefined;
    this.xs.set(id, f existing); return f existing] *)
Definition amend {A : Type} (t : Table A) (id : Z) (f : A -> A)
  : Table A * option A :=
  match map_get id (entries t) with
  | None => (t, None)
  | Some existing =>
      let r := f existing in
      (mkTable (map_set id r (entries t)) (nextId t), Some r)
  end.

(** [return this.xs.delete(id)] *)
Definition remove {A : Type} (t : Table A) (id : Z) : Table A * bool :=
  (mkTable (map_delete id (entries t)) (nextId t), map_has id (entries t)).

Record MemStorage := mkStore {
  users : Table User.t;
  suppliers : Table Supplier.t;
  products : Table Product.t;
  requirements : Table Requirement.t;
  requirementDetails : Table RequirementDetail.t;
  purchaseOrders : Table PurchaseOrder.t;
  purchaseOrderDetails : Table PurchaseOrderDetail.t;
  receptions : Table Reception.t;
  receptionDetails : Table ReceptionDetail.t;
  inventoryMovements : Table InventoryMovement.t;
  outputs : Table Output.t;
  outputDetails : Table OutputDetail.t;
  invoices : Table Invoice.t;
  systemActivities : Table SystemActivity.t }.

Definition set_users (t : Table User.t) (s : MemStorage) : MemStorage :=
  mkStore t (suppliers s) (products s) (requirements s)
    (requirementDetails s) (purchaseOrders s) (purchaseOrderDetails s)
    (receptions s) (receptionDetails s) (inventoryMovements s) (outputs s)
    (outputDetails s) (invoices s) (systemActivities s).

Definition set_suppliers (t : Table Supplier.t) (s : MemStorage)
  : MemStorage :=
  mkStore (users s) t (products s) (requirements s)
    (requirementDetails s) (purchaseOrders s) (purchaseOrderDetails s)
    (receptions s) (receptionDetails s) (inventoryMovements s) (outputs s)
    (outputDetails s) (invoices s) (systemActivities s).

Definition set_products (t : Table Product.t) (s : MemStorage)
  : MemStorage :=
  mkStore (users s) (suppliers s) t (requirements s)
    (requirementDetails s) (purchaseOrders s) (purchaseOrderDetails s)
    (receptions s) (receptionDetails s) (inventoryMovements s) (outputs s)
    (outputDetails s) (invoices s) (systemActivities s).

Definition set_requirements (t : Table Requirement.t) (s : MemStorage)
  : MemStorage :=
  mkStore (users s) (suppliers s) (products s) t
    (requirementDetails s) (purchaseOrders s) (purchaseOrderDetails s)
    (receptions s) (receptionDetails s) (inventoryMovements s) (outputs s)
    (outputDetails s) (invoices s) (systemActivities s).

Definition set_requirementDetails (t : Table RequirementDetail.t)
  (s : MemStorage) : MemStorage :=
  mkStore (users s) (suppliers s) (products s) (requirements s)
    t (purchaseOrders s) (purchaseOrderDetails s)
    (receptions s) (receptionDetails s) (inventoryMovements s) (outputs s)
    (outputDetails s) (invoices s) (systemActivities s).

Definition set_purchaseOrders (t : Table PurchaseOrder.t) (s : MemStorage)
  : MemStorage :=
  mkStore (users s) (suppliers s) (products s) (requirements s)
    (requirementDetails s) t (purchaseOrderDetails s)
    (receptions s) (receptionDetails s) (inventoryMovements s) (outputs s)
    (outputDetails s) (invoices s) (systemActivities s).

Definition set_purchaseOrderDetails (t : Table PurchaseOrderDetail.t)
  (s : MemStorage) : MemStorage :=
  mkStore (users s) (suppliers s) (products s) (requirements s)
    (requirementDetails s) (purchaseOrders s) t
    (receptions s) (receptionDetails s) (inventoryMovements s) (outputs s)
    (outputDetails s) (invoices s) (systemActivities s).

Definition set_receptions (t : Table Reception.t) (s : MemStorage)
  : MemStorage :=
  mkStore (users s) (suppliers s) (products s) (requirements s)
    (requirementDetails s) (purchaseOrders s) (purchaseOrderDetails s)
    t (receptionDetails s) (inventoryMovements s) (outputs s)
    (outputDetails s) (invoices s) (systemActivities s).

Definition set_receptionDetails (t : Table ReceptionDetail.t)
  (s : MemStorage) : MemStorage :=
  mkStore (users s) (suppliers s) (products s) (requirements s)
    (requirementDetails s) (purchaseOrders s) (purchaseOrderDetails s)
    (receptions s) t (inventoryMovements s) (outputs s)
    (outputDetails s) (invoices s) (systemActivities s).

Definition set_inventoryMovements (t : Table InventoryMovement.t)
  (s : MemStorage) : MemStorage :=
  mkStore (users s) (suppliers s) (products s) (requirements s)
    (requirementDetails s) (purchaseOrders s) (purchaseOrderDetails s)
    (receptions s) (receptionDetails s) t (outputs s)
    (outputDetails s) (invoices s) (systemActivities s).

Definition set_outputs (t : Table Output.t) (s : MemStorage) : MemStorage :=
  mkStore (users s) (suppliers s) (products s) (requirements s)
    (requirementDetails s) (purchaseOrders s) (purchaseOrderDetails s)
    (receptions s) (receptionDetails s) (inventoryMovements s) t
    (outputDetails s) (invoices s) (systemActivities s).

Definition set_outputDetails (t : Table OutputDetail.t) (s : MemStorage)
  : MemStorage :=
  mkStore (users s) (suppliers s) (products s) (requirements s)
    (requirementDetails s) (purchaseOrders s) (purchaseOrderDetails s)
    (receptions s) (receptionDetails s) (inventoryMovements s) (outputs s)
    t (invoices s) (systemActivities s).

Definition set_invoices (t : Table Invoice.t) (s : MemStorage)
  : MemStorage :=
  mkStore (users s) (suppliers s) (products s) (requirements s)
    (requirementDetails s) (purchaseOrders s) (purchaseOrderDetails s)
    (receptions s) (receptionDetails s) (inventoryMovements s) (outputs s)
    (outputDetails s) t (systemActivities s).

Definition set_systemActivities (t : Table SystemActivity.t)
  (s : MemStorage) : MemStorage :=
  mkStore (users s) (suppliers s) (products s) (requirements s)
    (requirementDetails s) (purchaseOrders s) (purchaseOrderDetails s)
    (receptions s) (receptionDetails s) (inventoryMovements s) (outputs s)
    (outputDetails s) (invoices s) t.

(** Storage methods are computations over the store. *)
Definition M := state MemStorage.

(** A method that only reads. *)
Definition reads {A : Type} (f : MemStorage -> A) : M A :=
  s <- get ;; ret (f s).

(** A method that rewrites one table and returns a result. *)
Definition on_table {T A : Type} (view : MemStorage -> Table T)
  (set : Table T -> MemStorage -> MemStorage)
  (f : Table T -> Table T * A) : M A :=
  s <- get ;;
  let (t, r) := f (view s) in
  put (set t s) ;;
  ret r.

(** *** User operations *)

Definition getUser (id : Z) : M (option User.t) :=
  reads (fun s => map_get id (entries (users s))).

Definition getUserByUsername (username : string) : M (option User.t) :=
  reads (fun s =>
    find (fun user => String.eqb (User.username user) username)
      (map_values (entries (users s)))).

Definition createUser (user : InsertUser.t) : M User.t :=
  on_table users set_users (fun t => alloc t (fun id =>
    {| User.id := id;
       User.username := InsertUser.username user;
       User.password := InsertUser.password user;
       User.fullName := InsertUser.fullName user;
       User.role := InsertUser.role user;
       User.department := InsertUser.department user;
       User.email := InsertUser.email user |})).

Definition getUsers : M (list User.t) :=
  reads (fun s => map_values (entries (users s))).

(** *** Supplier operations *)

Definition getSupplier (id : Z) : M (option Supplier.t) :=
  reads (fun s => map_get id (entries (suppliers s))).

Definition getSuppliers : M (list Supplier.t) :=
  reads (fun s => map_values (entries (suppliers s))).

Definition createSupplier (supplier : InsertSupplier.t) (now : Z)
  : M Supplier.t :=
  on_table suppliers set_suppliers (fun t => alloc t (fun id =>
    {| Supplier.id := id;
       Supplier.name := InsertSupplier.name supplier;
       Supplier.contact := InsertSupplier.contact supplier;
       Supplier.email := InsertSupplier.email supplier;
       Supplier.phone := InsertSupplier.phone supplier;
       Supplier.address := InsertSupplier.address supplier;
       Supplier.taxId := InsertSupplier.taxId supplier;
       Supplier.notes := InsertSupplier.notes supplier;
       Supplier.status := InsertSupplier.status supplier;
       Supplier.createdAt := now |})).

(** [{ ...existingSupplier, ...supplier }] *)
Definition mergeSupplier (supplier : PartialSupplier.t)
  (existingSupplier : Supplier.t) : Supplier.t :=
  {| Supplier.id := Supplier.id existingSupplier;
     Supplier.name :=
       spread (Supplier.name existingSupplier) (PartialSupplier.name supplier);
     Supplier.contact :=
       spread (Supplier.contact existingSupplier)
         (PartialSupplier.contact supplier);
     Supplier.email :=
       spread (Supplier.email existingSupplier)
         (PartialSupplier.email supplier);
     Supplier.phone :=
       spread (Supplier.phone existingSupplier)
         (PartialSupplier.phone supplier);
     Supplier.address :=
       spread (Supplier.address existingSupplier)
         (PartialSupplier.address supplier);
     Supplier.taxId :=
       spread (Supplier.taxId existingSupplier)
         (PartialSupplier.taxId supplier);
     Supplier.notes :=
       spread (Supplier.notes existingSupplier)
         (PartialSupplier.notes supplier);
     Supplier.status :=
       spread (Supplier.status existingSupplier)
         (PartialSupplier.status supplier);
     Supplier.createdAt := Supplier.createdAt existingSupplier |}.

Definition updateSupplier (id : Z) (supplier : PartialSupplier.t)
  : M (option Supplier.t) :=
  on_table suppliers set_suppliers (fun t =>
    amend t id (mergeSupplier supplier)).

Definition deleteSupplier (id : Z) : M bool :=
  on_table suppliers set_suppliers (fun t => remove t id).

(** *** Product operations *)

(** A nullable number that is present in a body. *)
Definition nullableNumber (v : option float) : Numeric :=
  match v with
  | None => Null
  | Some q => Num q
  end.

Definition getProduct (id : Z) : M (option Product.t) :=
  reads (fun s => map_get id (entries (products s))).

Definition getProductByCode (code : string) : M (option Product.t) :=
  reads (fun s =>
    find (fun product => String.eqb (Product.code product) code)
      (map_values (entries (products s)))).

Definition getProducts : M (list Product.t) :=
  reads (fun s => map_values (entries (products s))).

Definition getProductsWithLowStock : M (list Product.t) :=
  reads (fun s =>
    filter (fun product =>
              js_le (Product.currentStock product) (Product.minStock product))
      (map_values (entries (products s)))).

Definition createProduct (product : InsertProduct.t) (now : Z)
  : M Product.t :=
  on_table products set_products (fun t => alloc t (fun id =>
    {| Product.id := id;
       Product.code := InsertProduct.code product;
       Product.name := InsertProduct.name product;
       Product.description := InsertProduct.description product;
       Product.category := InsertProduct.category product;
       Product.unit := InsertProduct.unit product;
       Product.minStock := numericOfBody (InsertProduct.minStock product);
       Product.currentStock :=
         numericOfBody (InsertProduct.currentStock product);
       Product.location := InsertProduct.location product;
       Product.cost := InsertProduct.cost product;
       Product.supplierId := InsertProduct.supplierId product;
       Product.createdAt := now |})).

(** [{ ...existingProduct, ...product }] *)
Definition mergeProduct (product : PartialProduct.t)
  (existingProduct : Product.t) : Product.t :=
  {| Product.id := Product.id existingProduct;
     Product.code :=
       spread (Product.code existingProduct) (PartialProduct.code product);
     Product.name :=
       spread (Product.name existingProduct) (PartialProduct.name product);
     Product.description :=
       spread (Product.description existingProduct)
         (PartialProduct.description product);
     Product.category :=
       spread (Product.category existingProduct)
         (PartialProduct.category product);
     Product.unit :=
       spread (Product.unit existingProduct) (PartialProduct.unit product);
     Product.minStock :=
       spread (Product.minStock existingProduct)
         (option_map nullableNumber (PartialProduct.minStock product));
     Product.currentStock :=
       spread (Product.currentStock existingProduct)
         (option_map nullableNumber (PartialProduct.currentStock product));
     Product.location :=
       spread (Product.location existingProduct)
         (PartialProduct.location product);
     Product.cost :=
       spread (Product.cost existingProduct) (PartialProduct.cost product);
     Product.supplierId :=
       spread (Product.supplierId existingProduct)
         (PartialProduct.supplierId product);
     Product.createdAt := Product.createdAt existingProduct |}.

Definition updateProduct (id : Z) (product : PartialProduct.t)
  : M (option Product.t) :=
  on_table products set_products (fun t =>
    amend t id (mergeProduct product)).

(** [{ ...existingProduct,
       currentStock: existingProduct.currentStock + quantity }] *)
Definition addStock (quantity : float) (existingProduct : Product.t)
  : Product.t :=
  {| Product.id := Product.id existingProduct;
     Product.code := Product.code existingProduct;
     Product.name := Product.name existingProduct;
     Product.description := Product.description existingProduct;
     Product.category := Product.category existingProduct;
     Product.unit := Product.unit existingProduct;
     Product.minStock := Product.minStock existingProduct;
     Product.currentStock :=
       js_add (Product.currentStock existingProduct) quantity;
     Product.location := Product.location existingProduct;
     Product.cost := Product.cost existingProduct;
     Product.supplierId := Product.supplierId existingProduct;
     Product.createdAt := Product.createdAt existingProduct |}.

Definition updateProductStock (id : Z) (quantity : float)
  : M (option Product.t) :=
  on_table products set_products (fun t =>
    amend t id (addStock quantity)).

Definition deleteProduct (id : Z) : M bool :=
  on_table products set_products (fun t => remove t id).

(** *** Requirement operations *)

Definition getRequirement (id : Z) : M (option Requirement.t) :=
  reads (fun s => map_get id (entries (requirements s))).

Definition getRequirementByCode (code : string)
  : M (option Requirement.t) :=
  reads (fun s =>
    find (fun requirement => String.eqb (Requirement.code requirement) code)
      (map_values (entries (requirements s)))).

Definition getRequirements : M (list Requirement.t) :=
  reads (fun s => map_values (entries (requirements s))).

Definition getPendingRequirements : M (list Requirement.t) :=
  reads (fun s =>
    filter (fun requirement =>
              String.eqb (Requirement.status requirement) "pending")
      (map_values (entries (requirements s)))).

Definition createRequirement (requirement : InsertRequirement.t) (now : Z)
  : M Requirement.t :=
  on_table requirements set_requirements (fun t => alloc t (fun id =>
    {| Requirement.id := id;
       Requirement.code := InsertRequirement.code requirement;
       Requirement.title := InsertRequirement.title requirement;
       Requirement.requestorId :=
         Some (InsertRequirement.requestorId requirement);
       Requirement.departmentId :=
         Some (InsertRequirement.departmentId requirement);
       Requirement.status := InsertRequirement.status requirement;
       Requirement.priority := InsertRequirement.priority requirement;
       Requirement.notes := InsertRequirement.notes requirement;
       Requirement.dueDate := InsertRequirement.dueDate requirement;
       Requirement.createdAt := now |})).

(** [{ ...existingRequirement, ...requirement }] *)
Definition mergeRequirement (requirement : PartialRequirement.t)
  (existingRequirement : Requirement.t) : Requirement.t :=
  {| Requirement.id := Requirement.id existingRequirement;
     Requirement.code :=
       spread (Requirement.code existingRequirement)
         (PartialRequirement.code requirement);
     Requirement.title :=
       spread (Requirement.title existingRequirement)
         (PartialRequirement.title requirement);
     Requirement.requestorId :=
       spread (Requirement.requestorId existingRequirement)
         (option_map Some (PartialRequirement.requestorId requirement));
     Requirement.departmentId :=
       spread (Requirement.departmentId existingRequirement)
         (option_map Some (PartialRequirement.departmentId requirement));
     Requirement.status :=
       spread (Requirement.status existingRequirement)
         (PartialRequirement.status requirement);
     Requirement.priority :=
       spread (Requirement.priority existingRequirement)
         (PartialRequirement.priority requirement);
     Requirement.notes :=
       spread (Requirement.notes existingRequirement)
         (option_map Some (PartialRequirement.notes requirement));
     Requirement.dueDate :=
       spread (Requirement.dueDate existingRequirement)
         (option_map Some (PartialRequirement.dueDate requirement));
     Requirement.createdAt := Requirement.createdAt existingRequirement |}.

Definition updateRequirement (id : Z) (requirement : PartialRequirement.t)
  : M (option Requirement.t) :=
  on_table requirements set_requirements (fun t =>
    amend t id (mergeRequirement requirement)).

Definition deleteRequirement (id : Z) : M bool :=
  on_table requirements set_requirements (fun t => remove t id).

(** *** Requirement detail operations *)

Definition getRequirementDetails (requirementId : Z)
  : M (list RequirementDetail.t) :=
  reads (fun s =>
    filter (fun detail =>
              RequirementDetail.requirementId detail =? requirementId)
      (map_values (entries (requirementDetails s)))).

Definition createRequirementDetail (detail : InsertRequirementDetail.t)
  : M RequirementDetail.t :=
  on_table requirementDetails set_requirementDetails (fun t =>
    alloc t (fun id =>
    {| RequirementDetail.id := id;
       RequirementDetail.requirementId :=
         InsertRequirementDetail.requirementId detail;
       RequirementDetail.productId :=
         InsertRequirementDetail.productId detail;
       RequirementDetail.quantity := InsertRequirementDetail.quantity detail;
       RequirementDetail.unit := InsertRequirementDetail.unit detail;
       RequirementDetail.notes := InsertRequirementDetail.notes detail;
       RequirementDetail.status := InsertRequirementDetail.status detail |})).

(** [{ ...existingDetail, ...detail }] *)
Definition mergeRequirementDetail (detail : PartialRequirementDetail.t)
  (existingDetail : RequirementDetail.t) : RequirementDetail.t :=
  {| RequirementDetail.id := RequirementDetail.id existingDetail;
     RequirementDetail.requirementId :=
       spread (RequirementDetail.requirementId existingDetail)
         (PartialRequirementDetail.requirementId detail);
     RequirementDetail.productId :=
       spread (RequirementDetail.productId existingDetail)
         (PartialRequirementDetail.productId detail);
     RequirementDetail.quantity :=
       spread (RequirementDetail.quantity existingDetail)
         (PartialRequirementDetail.quantity detail);
     RequirementDetail.unit :=
       spread (RequirementDetail.unit existingDetail)
         (PartialRequirementDetail.unit detail);
     RequirementDetail.notes :=
       spread (RequirementDetail.notes existingDetail)
         (PartialRequirementDetail.notes detail);
     RequirementDetail.status :=
       spread (RequirementDetail.status existingDetail)
         (PartialRequirementDetail.status detail) |}.

Definition updateRequirementDetail (id : Z)
  (detail : PartialRequirementDetail.t) : M (option RequirementDetail.t) :=
  on_table requirementDetails set_requirementDetails (fun t =>
    amend t id (mergeRequirementDetail detail)).

Definition deleteRequirementDetail (id : Z) : M bool :=
  on_table requirementDetails set_requirementDetails (fun t => remove t id).

(** *** Purchase order operations *)

(** [['pending', 'confirmed'].includes(status)] *)
Definition isActiveStatus (status : string) : bool :=
  existsb (String.eqb status) ["pending"; "confirmed"].

Definition getPurchaseOrder (id : Z) : M (option PurchaseOrder.t) :=
  reads (fun s => map_get id (entries (purchaseOrders s))).

Definition getPurchaseOrderByCode (code : string)
  : M (option PurchaseOrder.t) :=
  reads (fun s =>
    find (fun order => String.eqb (PurchaseOrder.code order) code)
      (map_values (entries (purchaseOrders s)))).

Definition getPurchaseOrders : M (list PurchaseOrder.t) :=
  reads (fun s => map_values (entries (purchaseOrders s))).

Definition getActivePurchaseOrders : M (list PurchaseOrder.t) :=
  reads (fun s =>
    filter (fun order => isActiveStatus (PurchaseOrder.status order))
      (map_values (entries (purchaseOrders s)))).

Definition getDelayedPurchaseOrders (now : Z) : M (list PurchaseOrder.t) :=
  reads (fun s =>
    filter (fun order =>
              isActiveStatus (PurchaseOrder.status order) &&
              match PurchaseOrder.expectedDeliveryDate order with
              | Some expectedDeliveryDate => expectedDeliveryDate <? now
              | None => false
              end)
      (map_values (entries (purchaseOrders s)))).

Definition createPurchaseOrder (order : InsertPurchaseOrder.t) (now : Z)
  : M PurchaseOrder.t :=
  on_table purchaseOrders set_purchaseOrders (fun t => alloc t (fun id =>
    {| PurchaseOrder.id := id;
       PurchaseOrder.code := InsertPurchaseOrder.code order;
       PurchaseOrder.title := InsertPurchaseOrder.title order;
       PurchaseOrder.supplierId := InsertPurchaseOrder.supplierId order;
       PurchaseOrder.requirementId := InsertPurchaseOrder.requirementId order;
       PurchaseOrder.status := InsertPurchaseOrder.status order;
       PurchaseOrder.totalAmount := InsertPurchaseOrder.totalAmount order;
       PurchaseOrder.currency := InsertPurchaseOrder.currency order;
       PurchaseOrder.notes := InsertPurchaseOrder.notes order;
       PurchaseOrder.expectedDeliveryDate :=
         InsertPurchaseOrder.expectedDeliveryDate order;
       PurchaseOrder.createdBy := InsertPurchaseOrder.createdBy order;
       PurchaseOrder.createdAt := now |})).

(** [{ ...existingOrder, ...order }] *)
Definition mergePurchaseOrder (order : PartialPurchaseOrder.t)
  (existingOrder : PurchaseOrder.t) : PurchaseOrder.t :=
  {| PurchaseOrder.id := PurchaseOrder.id existingOrder;
     PurchaseOrder.code :=
       spread (PurchaseOrder.code existingOrder)
         (PartialPurchaseOrder.code order);
     PurchaseOrder.title :=
       spread (PurchaseOrder.title existingOrder)
         (PartialPurchaseOrder.title order);
     PurchaseOrder.supplierId :=
       spread (PurchaseOrder.supplierId existingOrder)
         (PartialPurchaseOrder.supplierId order);
     PurchaseOrder.requirementId :=
       spread (PurchaseOrder.requirementId existingOrder)
         (PartialPurchaseOrder.requirementId order);
     PurchaseOrder.status :=
       spread (PurchaseOrder.status existingOrder)
         (PartialPurchaseOrder.status order);
     PurchaseOrder.totalAmount :=
       spread (PurchaseOrder.totalAmount existingOrder)
         (PartialPurchaseOrder.totalAmount order);
     PurchaseOrder.currency :=
       spread (PurchaseOrder.currency existingOrder)
         (PartialPurchaseOrder.currency order);
     PurchaseOrder.notes :=
       spread (PurchaseOrder.notes existingOrder)
         (PartialPurchaseOrder.notes order);
     PurchaseOrder.expectedDeliveryDate :=
       spread (PurchaseOrder.expectedDeliveryDate existingOrder)
         (PartialPurchaseOrder.expectedDeliveryDate order);
     PurchaseOrder.createdBy :=
       spread (PurchaseOrder.createdBy existingOrder)
         (PartialPurchaseOrder.createdBy order);
     PurchaseOrder.createdAt := PurchaseOrder.createdAt existingOrder |}.

Definition updatePurchaseOrder (id : Z) (order : PartialPurchaseOrder.t)
  : M (option PurchaseOrder.t) :=
  on_table purchaseOrders set_purchaseOrders (fun t =>
    amend t id (mergePurchaseOrder order)).

Definition deletePurchaseOrder (id : Z) : M bool :=
  on_table purchaseOrders set_purchaseOrders (fun t => remove t id).

(** *** Purchase order detail operations *)

Definition getPurchaseOrderDetails (purchaseOrderId : Z)
  : M (list PurchaseOrderDetail.t) :=
  reads (fun s =>
    filter (fun detail =>
              PurchaseOrderDetail.purchaseOrderId detail =? purchaseOrderId)
      (map_values (entries (purchaseOrderDetails s)))).

Definition createPurchaseOrderDetail (detail : InsertPurchaseOrderDetail.t)
  : M PurchaseOrderDetail.t :=
  on_table purchaseOrderDetails set_purchaseOrderDetails (fun t =>
    alloc t (fun id =>
    {| PurchaseOrderDetail.id := id;
       PurchaseOrderDetail.purchaseOrderId :=
         InsertPurchaseOrderDetail.purchaseOrderId detail;
       PurchaseOrderDetail.productId :=
         InsertPurchaseOrderDetail.productId detail;
       PurchaseOrderDetail.quantity :=
         InsertPurchaseOrderDetail.quantity detail;
       PurchaseOrderDetail.unit := InsertPurchaseOrderDetail.unit detail;
       PurchaseOrderDetail.unitPrice :=
         InsertPurchaseOrderDetail.unitPrice detail;
       PurchaseOrderDetail.totalPrice :=
         InsertPurchaseOrderDetail.totalPrice detail;
       PurchaseOrderDetail.notes :=
         InsertPurchaseOrderDetail.notes detail |})).

(** [{ ...existingDetail, ...detail }] *)
Definition mergePurchaseOrderDetail (detail : PartialPurchaseOrderDetail.t)
  (existingDetail : PurchaseOrderDetail.t) : PurchaseOrderDetail.t :=
  {| PurchaseOrderDetail.id := PurchaseOrderDetail.id existingDetail;
     PurchaseOrderDetail.purchaseOrderId :=
       spread (PurchaseOrderDetail.purchaseOrderId existingDetail)
         (PartialPurchaseOrderDetail.purchaseOrderId detail);
     PurchaseOrderDetail.productId :=
       spread (PurchaseOrderDetail.productId existingDetail)
         (PartialPurchaseOrderDetail.productId detail);
     PurchaseOrderDetail.quantity :=
       spread (PurchaseOrderDetail.quantity existingDetail)
         (PartialPurchaseOrderDetail.quantity detail);
     PurchaseOrderDetail.unit :=
       spread (PurchaseOrderDetail.unit existingDetail)
         (PartialPurchaseOrderDetail.unit detail);
     PurchaseOrderDetail.unitPrice :=
       spread (PurchaseOrderDetail.unitPrice existingDetail)
         (PartialPurchaseOrderDetail.unitPrice detail);
     PurchaseOrderDetail.totalPrice :=
       spread (PurchaseOrderDetail.totalPrice existingDetail)
         (PartialPurchaseOrderDetail.totalPrice detail);
     PurchaseOrderDetail.notes :=
       spread (PurchaseOrderDetail.notes existingDetail)
         (PartialPurchaseOrderDetail.notes detail) |}.

Definition updatePurchaseOrderDetail (id : Z)
  (detail : PartialPurchaseOrderDetail.t)
  : M (option PurchaseOrderDetail.t) :=
  on_table purchaseOrderDetails set_purchaseOrderDetails (fun t =>
    amend t id (mergePurchaseOrderDetail detail)).

Definition deletePurchaseOrderDetail (id : Z) : M bool :=
  on_table purchaseOrderDetails set_purchaseOrderDetails (fun t =>
    remove t id).

(** *** Reception operations *)

Definition getReception (id : Z) : M (option Reception.t) :=
  reads (fun s => map_get id (entries (receptions s))).

Definition getReceptionByCode (code : string) : M (option Reception.t) :=
  reads (fun s =>
    find (fun reception => String.eqb (Reception.code reception) code)
      (map_values (entries (receptions s)))).

Definition getReceptions : M (list Reception.t) :=
  reads (fun s => map_values (entries (receptions s))).

Definition getScheduledReceptions (now : Z) : M (list Reception.t) :=
  let nextWeek := now + 7 * 24 * 60 * 60 * 1000 in
  reads (fun s =>
    filter (fun reception =>
              String.eqb (Reception.status reception) "scheduled" &&
              match Reception.receivedAt reception with
              | Some receivedAt =>
                  (now <? receivedAt) && (receivedAt <? nextWeek)
              | None => false
              end)
      (map_values (entries (receptions s)))).

Definition createReception (reception : InsertReception.t) (now : Z)
  : M Reception.t :=
  on_table receptions set_receptions (fun t => alloc t (fun id =>
    {| Reception.id := id;
       Reception.code := InsertReception.code reception;
       Reception.purchaseOrderId := InsertReception.purchaseOrderId reception;
       Reception.supplierId := InsertReception.supplierId reception;
       Reception.status := InsertReception.status reception;
       Reception.notes := InsertReception.notes reception;
       Reception.receivedBy := InsertReception.receivedBy reception;
       Reception.receivedAt := InsertReception.receivedAt reception;
       Reception.createdAt := now |})).

(** [{ ...existingReception, ...reception }] *)
Definition mergeReception (reception : PartialReception.t)
  (existingReception : Reception.t) : Reception.t :=
  {| Reception.id := Reception.id existingReception;
     Reception.code :=
       spread (Reception.code existingReception)
         (PartialReception.code reception);
     Reception.purchaseOrderId :=
       spread (Reception.purchaseOrderId existingReception)
         (PartialReception.purchaseOrderId reception);
     Reception.supplierId :=
       spread (Reception.supplierId existingReception)
         (PartialReception.supplierId reception);
     Reception.status :=
       spread (Reception.status existingReception)
         (PartialReception.status reception);
     Reception.notes :=
       spread (Reception.notes existingReception)
         (PartialReception.notes reception);
     Reception.receivedBy :=
       spread (Reception.receivedBy existingReception)
         (PartialReception.receivedBy reception);
     Reception.receivedAt :=
       spread (Reception.receivedAt existingReception)
         (option_map Some (PartialReception.receivedAt reception));
     Reception.createdAt := Reception.createdAt existingReception |}.

Definition updateReception (id : Z) (reception : PartialReception.t)
  : M (option Reception.t) :=
  on_table receptions set_receptions (fun t =>
    amend t id (mergeReception reception)).

Definition deleteReception (id : Z) : M bool :=
  on_table receptions set_receptions (fun t => remove t id).

(** *** Reception detail operations *)

Definition getReceptionDetails (receptionId : Z)
  : M (list ReceptionDetail.t) :=
  reads (fun s =>
    filter (fun detail => ReceptionDetail.receptionId detail =? receptionId)
      (map_values (entries (receptionDetails s)))).

Definition createReceptionDetail (detail : InsertReceptionDetail.t)
  : M ReceptionDetail.t :=
  on_table receptionDetails set_receptionDetails (fun t =>
    alloc t (fun id =>
    {| ReceptionDetail.id := id;
       ReceptionDetail.receptionId :=
         InsertReceptionDetail.receptionId detail;
       ReceptionDetail.purchaseOrderDetailId :=
         InsertReceptionDetail.purchaseOrderDetailId detail;
       ReceptionDetail.productId := InsertReceptionDetail.productId detail;
       ReceptionDetail.quantityExpected :=
         InsertReceptionDetail.quantityExpected detail;
       ReceptionDetail.quantityReceived :=
         InsertReceptionDetail.quantityReceived detail;
       ReceptionDetail.unit := InsertReceptionDetail.unit detail;
       ReceptionDetail.notes := InsertReceptionDetail.notes detail;
       ReceptionDetail.status := InsertReceptionDetail.status detail |})).

(** [{ ...existingDetail, ...detail }] *)
Definition mergeReceptionDetail (detail : PartialReceptionDetail.t)
  (existingDetail : ReceptionDetail.t) : ReceptionDetail.t :=
  {| ReceptionDetail.id := ReceptionDetail.id existingDetail;
     ReceptionDetail.receptionId :=
       spread (ReceptionDetail.receptionId existingDetail)
         (PartialReceptionDetail.receptionId detail);
     ReceptionDetail.purchaseOrderDetailId :=
       spread (ReceptionDetail.purchaseOrderDetailId existingDetail)
         (PartialReceptionDetail.purchaseOrderDetailId detail);
     ReceptionDetail.productId :=
       spread (ReceptionDetail.productId existingDetail)
         (PartialReceptionDetail.productId detail);
     ReceptionDetail.quantityExpected :=
       spread (ReceptionDetail.quantityExpected existingDetail)
         (PartialReceptionDetail.quantityExpected detail);
     ReceptionDetail.quantityReceived :=
       spread (ReceptionDetail.quantityReceived existingDetail)
         (PartialReceptionDetail.quantityReceived detail);
     ReceptionDetail.unit :=
       spread (ReceptionDetail.unit existingDetail)
         (PartialReceptionDetail.unit detail);
     ReceptionDetail.notes :=
       spread (ReceptionDetail.notes existingDetail)
         (PartialReceptionDetail.notes detail);
     ReceptionDetail.status :=
       spread (ReceptionDetail.status existingDetail)
         (PartialReceptionDetail.status detail) |}.

Definition updateReceptionDetail (id : Z)
  (detail : PartialReceptionDetail.t) : M (option ReceptionDetail.t) :=
  on_table receptionDetails set_receptionDetails (fun t =>
    amend t id (mergeReceptionDetail detail)).

Definition deleteReceptionDetail (id : Z) : M bool :=
  on_table receptionDetails set_receptionDetails (fun t => remove t id).

(** *** Inventory movement operations *)

(** [if (productId)]: a missing argument and [0] are both falsy. *)
Definition getInventoryMovements (productId : option Z)
  : M (list InventoryMovement.t) :=
  reads (fun s =>
    let movements := map_values (entries (inventoryMovements s)) in
    match productId with
    | Some p =>
        if p =? 0 then movements
        else filter (fun movement =>
                       InventoryMovement.productId movement =? p) movements
    | None => movements
    end).

Definition getRecentInventoryMovements (days : Z) (now : Z)
  : M (list InventoryMovement.t) :=
  let pastDate := now - days * 24 * 60 * 60 * 1000 in
  reads (fun s =>
    filter (fun movement => pastDate <? InventoryMovement.createdAt movement)
      (map_values (entries (inventoryMovements s)))).

Definition createInventoryMovement (movement : InsertInventoryMovement.t)
  (now : Z) : M InventoryMovement.t :=
  on_table inventoryMovements set_inventoryMovements (fun t =>
    alloc t (fun id =>
    {| InventoryMovement.id := id;
       InventoryMovement.productId :=
         InsertInventoryMovement.productId movement;
       InventoryMovement.quantity :=
         InsertInventoryMovement.quantity movement;
       InventoryMovement.unit := InsertInventoryMovement.unit movement;
       InventoryMovement.movementType :=
         InsertInventoryMovement.movementType movement;
       InventoryMovement.referenceId :=
         InsertInventoryMovement.referenceId movement;
       InventoryMovement.referenceType :=
         InsertInventoryMovement.referenceType movement;
       InventoryMovement.notes := InsertInventoryMovement.notes movement;
       InventoryMovement.createdBy :=
         InsertInventoryMovement.createdBy movement;
       InventoryMovement.createdAt := now |})).

(** *** Output operations *)

Definition getOutput (id : Z) : M (option Output.t) :=
  reads (fun s => map_get id (entries (outputs s))).

Definition getOutputByCode (code : string) : M (option Output.t) :=
  reads (fun s =>
    find (fun output => String.eqb (Output.code output) code)
      (map_values (entries (outputs s)))).

Definition getOutputs : M (list Output.t) :=
  reads (fun s => map_values (entries (outputs s))).

Definition getPendingOutputs : M (list Output.t) :=
  reads (fun s =>
    filter (fun output => String.eqb (Output.status output) "pending")
      (map_values (entries (outputs s)))).

Definition createOutput (output : InsertOutput.t) (now : Z) : M Output.t :=
  on_table outputs set_outputs (fun t => alloc t (fun id =>
    {| Output.id := id;
       Output.code := InsertOutput.code output;
       Output.destination := InsertOutput.destination output;
       Output.destinationType := InsertOutput.destinationType output;
       Output.status := InsertOutput.status output;
       Output.notes := InsertOutput.notes output;
       Output.requestedBy := InsertOutput.requestedBy output;
       Output.approvedBy := InsertOutput.approvedBy output;
       Output.createdAt := now |})).

(** [{ ...existingOutput, ...output }] *)
Definition mergeOutput (output : PartialOutput.t)
  (existingOutput : Output.t) : Output.t :=
  {| Output.id := Output.id existingOutput;
     Output.code :=
       spread (Output.code existingOutput) (PartialOutput.code output);
     Output.destination :=
       spread (Output.destination existingOutput)
         (PartialOutput.destination output);
     Output.destinationType :=
       spread (Output.destinationType existingOutput)
         (PartialOutput.destinationType output);
     Output.status :=
       spread (Output.status existingOutput) (PartialOutput.status output);
     Output.notes :=
       spread (Output.notes existingOutput) (PartialOutput.notes output);
     Output.requestedBy :=
       spread (Output.requestedBy existingOutput)
         (PartialOutput.requestedBy output);
     Output.approvedBy :=
       spread (Output.approvedBy existingOutput)
         (PartialOutput.approvedBy output);
     Output.createdAt := Output.createdAt existingOutput |}.

Definition updateOutput (id : Z) (output : PartialOutput.t)
  : M (option Output.t) :=
  on_table outputs set_outputs (fun t => amend t id (mergeOutput output)).

Definition deleteOutput (id : Z) : M bool :=
  on_table outputs set_outputs (fun t => remove t id).

(** *** Output detail operations *)

Definition getOutputDetails (outputId : Z) : M (list OutputDetail.t) :=
  reads (fun s =>
    filter (fun detail => OutputDetail.outputId detail =? outputId)
      (map_values (entries (outputDetails s)))).

Definition createOutputDetail (detail : InsertOutputDetail.t)
  : M OutputDetail.t :=
  on_table outputDetails set_outputDetails (fun t => alloc t (fun id =>
    {| OutputDetail.id := id;
       OutputDetail.outputId := InsertOutputDetail.outputId detail;
       OutputDetail.productId := InsertOutputDetail.productId detail;
       OutputDetail.quantity := InsertOutputDetail.quantity detail;
       OutputDetail.unit := InsertOutputDetail.unit detail;
       OutputDetail.notes := InsertOutputDetail.notes detail;
       OutputDetail.status := InsertOutputDetail.status detail |})).

(** [{ ...existingDetail, ...detail }] *)
Definition mergeOutputDetail (detail : PartialOutputDetail.t)
  (existingDetail : OutputDetail.t) : OutputDetail.t :=
  {| OutputDetail.id := OutputDetail.id existingDetail;
     OutputDetail.outputId :=
       spread (OutputDetail.outputId existingDetail)
         (PartialOutputDetail.outputId detail);
     OutputDetail.productId :=
       spread (OutputDetail.productId existingDetail)
         (PartialOutputDetail.productId detail);
     OutputDetail.quantity :=
       spread (OutputDetail.quantity existingDetail)
         (PartialOutputDetail.quantity detail);
     OutputDetail.unit :=
       spread (OutputDetail.unit existingDetail)
         (PartialOutputDetail.unit detail);
     OutputDetail.notes :=
       spread (OutputDetail.notes existingDetail)
         (PartialOutputDetail.notes detail);
     OutputDetail.status :=
       spread (OutputDetail.status existingDetail)
         (PartialOutputDetail.status detail) |}.

Definition updateOutputDetail (id : Z) (detail : PartialOutputDetail.t)
  : M (option OutputDetail.t) :=
  on_table outputDetails set_outputDetails (fun t =>
    amend t id (mergeOutputDetail detail)).

Definition deleteOutputDetail (id : Z) : M bool :=
  on_table outputDetails set_outputDetails (fun t => remove t id).

(** *** Invoice operations *)

Definition getInvoice (id : Z) : M (option Invoice.t) :=
  reads (fun s => map_get id (entries (invoices s))).

Definition getInvoiceByCode (code : string) : M (option Invoice.t) :=
  reads (fun s =>
    find (fun invoice => String.eqb (Invoice.code invoice) code)
      (map_values (entries (invoices s)))).

Definition getInvoices : M (list Invoice.t) :=
  reads (fun s => map_values (entries (invoices s))).

Definition getDueInvoices (now : Z) : M (list Invoice.t) :=
  reads (fun s =>
    filter (fun invoice =>
              String.eqb (Invoice.status invoice) "pending" &&
              (now <? Invoice.dueDate invoice) &&
              (Invoice.dueDate invoice <? now + 7 * 24 * 60 * 60 * 1000))
      (map_values (entries (invoices s)))).

Definition createInvoice (invoice : InsertInvoice.t) (now : Z)
  : M Invoice.t :=
  on_table invoices set_invoices (fun t => alloc t (fun id =>
    {| Invoice.id := id;
       Invoice.code := InsertInvoice.code invoice;
       Invoice.supplierInvoiceNumber :=
         InsertInvoice.supplierInvoiceNumber invoice;
       Invoice.supplierId := InsertInvoice.supplierId invoice;
       Invoice.purchaseOrderId := InsertInvoice.purchaseOrderId invoice;
       Invoice.amount := InsertInvoice.amount invoice;
       Invoice.currency := InsertInvoice.currency invoice;
       Invoice.status := InsertInvoice.status invoice;
       Invoice.issueDate := InsertInvoice.issueDate invoice;
       Invoice.dueDate := InsertInvoice.dueDate invoice;
       Invoice.notes := InsertInvoice.notes invoice;
       Invoice.createdAt := now |})).

(** [{ ...existingInvoice, ...invoice }] *)
Definition mergeInvoice (invoice : PartialInvoice.t)
  (existingInvoice : Invoice.t) : Invoice.t :=
  {| Invoice.id := Invoice.id existingInvoice;
     Invoice.code :=
       spread (Invoice.code existingInvoice) (PartialInvoice.code invoice);
     Invoice.supplierInvoiceNumber :=
       spread (Invoice.supplierInvoiceNumber existingInvoice)
         (PartialInvoice.supplierInvoiceNumber invoice);
     Invoice.supplierId :=
       spread (Invoice.supplierId existingInvoice)
         (PartialInvoice.supplierId invoice);
     Invoice.purchaseOrderId :=
       spread (Invoice.purchaseOrderId existingInvoice)
         (PartialInvoice.purchaseOrderId invoice);
     Invoice.amount :=
       spread (Invoice.amount existingInvoice)
         (PartialInvoice.amount invoice);
     Invoice.currency :=
       spread (Invoice.currency existingInvoice)
         (PartialInvoice.currency invoice);
     Invoice.status :=
       spread (Invoice.status existingInvoice)
         (PartialInvoice.status invoice);
     Invoice.issueDate :=
       spread (Invoice.issueDate existingInvoice)
         (PartialInvoice.issueDate invoice);
     Invoice.dueDate :=
       spread (Invoice.dueDate existingInvoice)
         (PartialInvoice.dueDate invoice);
     Invoice.notes :=
       spread (Invoice.notes existingInvoice) (PartialInvoice.notes invoice);
     Invoice.createdAt := Invoice.createdAt existingInvoice |}.

Definition updateInvoice (id : Z) (invoice : PartialInvoice.t)
  : M (option Invoice.t) :=
  on_table invoices set_invoices (fun t =>
    amend t id (mergeInvoice invoice)).

Definition deleteInvoice (id : Z) : M bool :=
  on_table invoices set_invoices (fun t => remove t id).

(** *** System activity operations *)

(** Insertion into a list already ordered by descending [createdAt];
    among equal dates the earlier element stays first. *)
Fixpoint insertByDate (a : SystemActivity.t) (l : list SystemActivity.t)
  : list SystemActivity.t :=
  match l with
  | [] => [a]
  | b :: l' =>
      if SystemActivity.createdAt a <? SystemActivity.createdAt b
      then b :: insertByDate a l'
      else a :: b :: l'
  end.

(** [.sort((a, b) => b.createdAt.getTime() - a.createdAt.getTime())],
    a stable sort. *)
Definition sortByDateDesc (l : list SystemActivity.t)
  : list SystemActivity.t :=
  fold_right insertByDate [] l.

(** [l.slice(0, n)] *)
Definition slice0 {A : Type} (l : list A) (n : Z) : list A :=
  if 0 <=? n then firstn (Z.to_nat n) l
  else firstn (List.length l - Z.to_nat (- n))%nat l.

(** [if (limit)]: a missing argument and [0] are both falsy. *)
Definition getSystemActivities (limit : option Z)
  : M (list SystemActivity.t) :=
  reads (fun s =>
    let activities :=
      sortByDateDesc (map_values (entries (systemActivities s))) in
    match limit with
    | Some n => if n =? 0 then activities else slice0 activities n
    | None => activities
    end).

Definition createSystemActivity (activity : InsertSystemActivity.t)
  (now : Z) : M SystemActivity.t :=
  on_table systemActivities set_systemActivities (fun t =>
    alloc t (fun id =>
    {| SystemActivity.id := id;
       SystemActivity.userId := InsertSystemActivity.userId activity;
       SystemActivity.activityType :=
         InsertSystemActivity.activityType activity;
       SystemActivity.description :=
         InsertSystemActivity.description activity;
       SystemActivity.entityType := InsertSystemActivity.entityType activity;
       SystemActivity.entityId := InsertSystemActivity.entityId activity;
       SystemActivity.createdAt := now |})).

(** ** Construction and seed data *)

(** [l.forEach(f)] and [for (const x of l)], with effects on the store. *)
Fixpoint forEach {A : Type} (l : list A) (f : A -> M unit) : M unit :=
  match l with
  | [] => ret tt
  | x :: l' => f x ;; forEach l' f
  end.

(** [l.forEach((x, index) => ...)], counting from [index]. *)
Fixpoint forEachFrom {A : Type} (index : Z) (l : list A)
  (f : A -> Z -> M unit) : M unit :=
  match l with
  | [] => ret tt
  | x :: l' => f x index ;; forEachFrom (index + 1) l' f
  end.

(** [this.inventoryMovements.set(this.inventoryMovementId++,
      { ...movement, id: this.inventoryMovementId - 1 })]: the key is the
    counter before the increment, the [id] is read after it. *)
Definition seedInventoryMovement (im : InsertInventoryMovement.t)
  (createdAt : Z) : M unit :=
  on_table inventoryMovements set_inventoryMovements (fun t =>
    let key := nextId t in
    let counter := key + 1 in
    let movement :=
      {| InventoryMovement.id := counter - 1;
         InventoryMovement.productId := InsertInventoryMovement.productId im;
         InventoryMovement.quantity := InsertInventoryMovement.quantity im;
         InventoryMovement.unit := InsertInventoryMovement.unit im;
         InventoryMovement.movementType :=
           InsertInventoryMovement.movementType im;
         InventoryMovement.referenceId :=
           InsertInventoryMovement.referenceId im;
         InventoryMovement.referenceType :=
           InsertInventoryMovement.referenceType im;
         InventoryMovement.notes := InsertInventoryMovement.notes im;
         InventoryMovement.createdBy := InsertInventoryMovement.createdBy im;
         InventoryMovement.createdAt := createdAt |} in
    (mkTable (map_set key movement (entries t)) counter, tt)).

(** The same idiom for the seeded activities. *)
Definition seedSystemActivity (a : InsertSystemActivity.t) (createdAt : Z)
  : M unit :=
  on_table systemActivities set_systemActivities (fun t =>
    let key := nextId t in
    let counter := key + 1 in
    let activity :=
      {| SystemActivity.id := counter - 1;
         SystemActivity.userId := InsertSystemActivity.userId a;
         SystemActivity.activityType := InsertSystemActivity.activityType a;
         SystemActivity.description := InsertSystemActivity.description a;
         SystemActivity.entityType := InsertSystemActivity.entityType a;
         SystemActivity.entityId := InsertSystemActivity.entityId a;
         SystemActivity.createdAt := createdAt |} in
    (mkTable (map_set key activity (entries t)) counter, tt)).

Definition doubleQuote : string := String "034"%char EmptyString.

Definition seedSuppliers : list InsertSupplier.t :=
  [ InsertSupplier.mk "Aceros Industriales" (Some "Juan Pérez")
      (Some "juan@aceros.com") (Some "555-1234")
      (Some "Calle Industrial 123") (Some "AI12345")
      (Some "Proveedor principal de materiales metálicos") "active";
    InsertSupplier.mk "Electrónicos SA" (Some "María López")
      (Some "maria@electronicos.com") (Some "555-5678")
      (Some "Av. Tecnología 456") (Some "ES67890")
      (Some "Componentes electrónicos") "active";
    InsertSupplier.mk "Químicos Unidos" (Some "Pedro Ramírez")
      (Some "pedro@quimicos.com") (Some "555-9012")
      (Some "Blvd. Ciencia 789") (Some "QU34567")
      (Some "Productos químicos industriales") "active" ].

Definition seedProducts : list InsertProduct.t :=
  [ InsertProduct.mk "TH-5-16" "Tornillos hexagonales 5/16"
      (Some "Tornillos hexagonales de acero inoxidable") "Ferretería"
      "unidad" (Some (Some 25%float)) (Some (Some 8%float)) (Some "A-101")
      (Some 0.5%float) (Some 1);
    InsertProduct.mk "CE-12AWG" "Cables eléctricos 12AWG"
      (Some "Cable eléctrico flexible") "Eléctricos"
      "metro" (Some (Some 50%float)) (Some (Some 15%float)) (Some "B-202")
      (Some 1.2%float) (Some 2);
    InsertProduct.mk "LI-TIPO-A" "Lubricante industrial tipo A"
      (Some "Lubricante para maquinaria pesada") "Químicos"
      "litro" (Some (Some 5%float)) (Some (Some 2%float)) (Some "C-303")
      (Some 25.0%float) (Some 3);
    InsertProduct.mk "TU-PVC-2" ("Tubería PVC 2" ++ doubleQuote)
      (Some "Tubería de PVC para instalaciones hidráulicas") "Plomería"
      "metro" (Some (Some 30%float)) (Some (Some 45%float)) (Some "D-404")
      (Some 3.75%float) (Some 1);
    InsertProduct.mk "FO-LED-20W" "Focos LED 20W"
      (Some "Focos LED de alta eficiencia") "Eléctricos"
      "unidad" (Some (Some 15%float)) (Some (Some 28%float)) (Some "B-205")
      (Some 8.5%float) (Some 2) ].

Definition seedRequirements (now : Z) : list InsertRequirement.t :=
  [ InsertRequirement.mk "REQ-2023-001" "Materiales para mantenimiento" 1
      "Mantenimiento" "pending" "high"
      (Some "Urgente para reparación de maquinaria")
      (Some (DateOf (now + 86400000 * 3)));
    InsertRequirement.mk "REQ-2023-002" "Insumos eléctricos" 1
      "Producción" "approved" "medium"
      (Some "Para actualización de panel eléctrico")
      (Some (DateOf (now + 86400000 * 5)));
    InsertRequirement.mk "REQ-2023-003" "Materiales de oficina" 1
      "Administración" "completed" "low"
      (Some "Reposición de inventario de oficina")
      (Some (DateOf (now + 86400000 * 10))) ].

Definition seedRequirementDetails : list InsertRequirementDetail.t :=
  [ InsertRequirementDetail.mk 1 1 50 "unidad"
      (Some "Para reparación de estanterías") "pending";
    InsertRequirementDetail.mk 1 3 10 "litro"
      (Some "Para mantenimiento de montacargas") "pending";
    InsertRequirementDetail.mk 2 2 100 "metro"
      (Some "Para renovación de cableado") "approved";
    InsertRequirementDetail.mk 2 5 30 "unidad"
      (Some "Para reemplazo de iluminación") "approved";
    InsertRequirementDetail.mk 3 4 20 "metro"
      (Some "Para reparación de baños") "completed" ].

Definition seedPurchaseOrders (now : Z) : list InsertPurchaseOrder.t :=
  [ InsertPurchaseOrder.mk "OC-2023-001" "Compra de tornillos y lubricantes"
      1 (Some 1) "pending" (Some 150.0%float) (Some "USD")
      (Some "Entrega urgente") (Some (now + 86400000 * 2)) (Some 1);
    InsertPurchaseOrder.mk "OC-2023-002" "Compra de materiales eléctricos"
      2 (Some 2) "confirmed" (Some 375.0%float) (Some "USD")
      (Some "Entrega parcial aceptada") (Some (now + 86400000 * 7)) (Some 1);
    InsertPurchaseOrder.mk "OC-2023-003" "Compra de tuberías"
      1 (Some 3) "completed" (Some 75.0%float) (Some "USD")
      (Some "Entrega completada") (Some (now - 86400000 * 3)) (Some 1) ].

Definition seedPurchaseOrderDetails : list InsertPurchaseOrderDetail.t :=
  [ InsertPurchaseOrderDetail.mk 1 1 50 "unidad" 0.5 25.0
      (Some "Según especificaciones");
    InsertPurchaseOrderDetail.mk 1 3 5 "litro" 25.0 125.0
      (Some "Marca específica requerida");
    InsertPurchaseOrderDetail.mk 2 2 100 "metro" 1.2 120.0
      (Some "Color azul preferido");
    InsertPurchaseOrderDetail.mk 2 5 30 "unidad" 8.5 255.0
      (Some "Luz cálida");
    InsertPurchaseOrderDetail.mk 3 4 20 "metro" 3.75 75.0
      (Some "Enviar en cortes de 2m") ].

Definition seedReceptions (now : Z) : list InsertReception.t :=
  [ InsertReception.mk "REC-2023-001" (Some 3) 1 "completed"
      (Some "Recepción completa y en buenas condiciones") (Some 1)
      (Some (now - 86400000 * 2));
    InsertReception.mk "REC-2023-002" (Some 2) 2 "partial"
      (Some "Recepción parcial, pendiente el resto") (Some 1)
      (Some (now - 86400000 * 1));
    InsertReception.mk "REC-2023-003" (Some 1) 1 "scheduled"
      (Some "Programada para mañana") (Some 1)
      (Some (now + 86400000 * 1)) ].

Definition seedReceptionDetails : list InsertReceptionDetail.t :=
  [ InsertReceptionDetail.mk 1 (Some 5) 4 20 20 "metro"
      (Some "Verificado por control de calidad") "completed";
    InsertReceptionDetail.mk 2 (Some 3) 2 100 75 "metro"
      (Some "Pendiente 25 metros") "partial";
    InsertReceptionDetail.mk 2 (Some 4) 5 30 30 "unidad"
      (Some "Completo") "completed" ].

Definition seedDates (now : Z) : list Z :=
  [ now - 86400000 * 6; now - 86400000 * 5; now - 86400000 * 4;
    now - 86400000 * 3; now - 86400000 * 2; now - 86400000 * 1; now ].

Definition seedInventoryMovements : list InsertInventoryMovement.t :=
  [ InsertInventoryMovement.mk 4 20 "metro" "reception" (Some 1)
      (Some "reception") (Some "Recepción OC-2023-003") (Some 1);
    InsertInventoryMovement.mk 2 75 "metro" "reception" (Some 2)
      (Some "reception") (Some "Recepción parcial OC-2023-002") (Some 1);
    InsertInventoryMovement.mk 5 30 "unidad" "reception" (Some 2)
      (Some "reception") (Some "Recepción OC-2023-002") (Some 1);
    InsertInventoryMovement.mk 4 (-5) "metro" "output" (Some 1)
      (Some "output") (Some "Salida para reparación") (Some 1);
    InsertInventoryMovement.mk 5 (-10) "unidad" "output" (Some 2)
      (Some "output") (Some "Salida para instalación") (Some 1);
    InsertInventoryMovement.mk 1 (-2) "unidad" "output" (Some 3)
      (Some "output") (Some "Salida para mantenimiento") (Some 1);
    InsertInventoryMovement.mk 3 (-1) "litro" "output" (Some 3)
      (Some "output") (Some "Salida para mantenimiento") (Some 1) ].

Definition seedOutputs : list InsertOutput.t :=
  [ InsertOutput.mk "SAL-2023-001" "Planta de Producción" "department"
      "completed" (Some "Para reparación de tuberías") (Some 1) (Some 1);
    InsertOutput.mk "SAL-2023-002" "Área de Oficinas" "department"
      "completed" (Some "Para renovación de iluminación") (Some 1) (Some 1);
    InsertOutput.mk "SAL-2023-003" "Departamento de Mantenimiento"
      "department" "pending" (Some "Para reparaciones generales") (Some 1)
      None ].

Definition seedOutputDetails : list InsertOutputDetail.t :=
  [ InsertOutputDetail.mk 1 4 5 "metro"
      (Some "Para reparación en zona A") "completed";
    InsertOutputDetail.mk 2 5 10 "unidad"
      (Some "Para oficinas administrativas") "completed";
    InsertOutputDetail.mk 3 1 2 "unidad"
      (Some "Para reparación de estanterías") "pending";
    InsertOutputDetail.mk 3 3 1 "litro"
      (Some "Para mantenimiento preventivo") "pending" ].

Definition seedInvoices (now : Z) : list InsertInvoice.t :=
  [ InsertInvoice.mk "INV-2023-001" (Some "F-12345") 1 (Some 3) 75.0
      (Some "USD") "paid" (now - 86400000 * 5) (now - 86400000 * 1)
      (Some "Pagado por transferencia");
    InsertInvoice.mk "INV-2023-002" (Some "F-23456") 2 (Some 2) 375.0
      (Some "USD") "pending" (now - 86400000 * 2) (now + 86400000 * 3)
      (Some "Pendiente de pago");
    InsertInvoice.mk "INV-2023-003" (Some "F-34567") 3 None 150.0
      (Some "USD") "pending" (now - 86400000 * 1) (now + 86400000 * 7)
      (Some "Compra fuera de sistema") ].

Definition seedActivities : list InsertSystemActivity.t :=
  [ InsertSystemActivity.mk (Some 1) "create"
      "Creó la orden de compra OC-2023-001" "purchase_order" (Some 1);
    InsertSystemActivity.mk (Some 1) "update"
      "Actualizó el estado de la orden OC-2023-002 a confirmada"
      "purchase_order" (Some 2);
    InsertSystemActivity.mk (Some 1) "create"
      "Creó la recepción REC-2023-001" "reception" (Some 1);
    InsertSystemActivity.mk (Some 1) "create"
      "Creó la salida SAL-2023-001" "output" (Some 1);
    InsertSystemActivity.mk (Some 1) "create"
      "Registró la factura INV-2023-001" "invoice" (Some 1);
    InsertSystemActivity.mk (Some 1) "update"
      "Actualizó el stock del producto TU-PVC-2" "product" (Some 4);
    InsertSystemActivity.mk (Some 1) "create"
      "Creó la salida SAL-2023-002" "output" (Some 2);
    InsertSystemActivity.mk (Some 1) "create"
      "Creó el requerimiento REQ-2023-001" "requirement" (Some 1) ].

Definition seedInitialData (now : Z) : M unit :=
  forEach seedSuppliers (fun s => createSupplier s now ;; ret tt) ;;
  forEach seedProducts (fun p => createProduct p now ;; ret tt) ;;
  forEach (seedRequirements now)
    (fun r => createRequirement r now ;; ret tt) ;;
  forEach seedRequirementDetails
    (fun rd => createRequirementDetail rd ;; ret tt) ;;
  forEach (seedPurchaseOrders now)
    (fun po => createPurchaseOrder po now ;; ret tt) ;;
  forEach seedPurchaseOrderDetails
    (fun pod => createPurchaseOrderDetail pod ;; ret tt) ;;
  forEach (seedReceptions now) (fun r => createReception r now ;; ret tt) ;;
  forEach seedReceptionDetails
    (fun rd => createReceptionDetail rd ;; ret tt) ;;
  (* Update stock based on receptions *)
  updateProductStock 4 20 ;;
  updateProductStock 2 75 ;;
  updateProductStock 5 30 ;;
  forEachFrom 0 seedInventoryMovements (fun im index =>
    seedInventoryMovement im (nth (Z.to_nat index) (seedDates now) 0)) ;;
  forEach seedOutputs (fun o => createOutput o now ;; ret tt) ;;
  forEach seedOutputDetails (fun od => createOutputDetail od ;; ret tt) ;;
  (* Update stock based on outputs *)
  updateProductStock 4 (-5) ;;
  updateProductStock 5 (-10) ;;
  updateProductStock 1 (-2) ;;
  updateProductStock 3 (-1) ;;
  forEach (seedInvoices now) (fun i => createInvoice i now ;; ret tt) ;;
  forEachFrom 0 seedActivities (fun a index =>
    seedSystemActivity a (now - (8 - index) * 3600000)).

(** The fields as the constructor leaves them before seeding: empty maps
    and counters at 1. *)
Definition emptyStorage : MemStorage :=
  mkStore (mkTable [] 1) (mkTable [] 1) (mkTable [] 1) (mkTable [] 1)
    (mkTable [] 1) (mkTable [] 1) (mkTable [] 1) (mkTable [] 1)
    (mkTable [] 1) (mkTable [] 1) (mkTable [] 1) (mkTable [] 1)
    (mkTable [] 1) (mkTable [] 1).

Definition constructor (now : Z) : M unit :=
  createUser (InsertUser.mk "admin" "admin123" "Administrator" "admin"
                (Some "IT") (Some "admin@logierp.com")) ;;
  seedInitialData now.

(** [export const storage = new MemStorage()] *)
Definition storage (now : Z) : MemStorage :=
  snd (runState (constructor now) emptyStorage).

(** ** Route handlers ([registerRoutes])

    A request body reaches a handler through [schema.parse], which either
    returns the validated data or throws a [ZodError]; the schemas are
    generated by a library, so a body is represented by that outcome.
    A path parameter is the integer [parseInt] read (a parameter that is
    not a number behaves like an id that no map holds).  Of the routes
    that only read, GET /api/dashboard is modelled; the others return what
    the storage getters above return. *)

Inductive Parsed (A : Type) :=
| Valid (validatedData : A)
| ZodError.
Arguments Valid {A} _.
Arguments ZodError {A}.

Inductive Response (A : Type) :=
| Json (status : Z) (body : A)          (* res.status(n).json(x) *)
| Message (status : Z) (message : string) (* res.status(n).json({ message }) *)
| ZodErrors (status : Z)   (* res.status(n).json({ errors: error.errors }) *)
| Send (status : Z).                    (* res.status(n).send() *)
Arguments Json {A} _ _.
Arguments Message {A} _ _.
Arguments ZodErrors {A} _.
Arguments Send {A} _.

Definition statusCode {A : Type} (r : Response A) : Z :=
  match r with
  | Json status _ => status
  | Message status _ => status
  | ZodErrors status => status
  | Send status => status
  end.

(** The activity log entry every mutating handler writes, as user 1. *)
Definition logActivity (activityType description entityType : string)
  (entityId : Z) (now : Z) : M unit :=
  createSystemActivity
    {| InsertSystemActivity.userId := Some 1;
       InsertSystemActivity.activityType := activityType;
       InsertSystemActivity.description := description;
       InsertSystemActivity.entityType := entityType;
       InsertSystemActivity.entityId := Some entityId |} now ;;
  ret tt.

(** *** GET /api/dashboard *)

Module Dashboard.
Record t := mk {
  pendingRequirementsCount : nat;
  activeOrdersCount : nat;
  scheduledReceptionsCount : nat;
  pendingOutputsCount : nat;
  lowStockProducts : list Product.t;
  delayedOrders : list PurchaseOrder.t;
  dueInvoices : list Invoice.t;
  recentActivities : list SystemActivity.t;
  inventoryMovements : list InventoryMovement.t }.
End Dashboard.

Definition get_dashboard (now : Z) : M (Response Dashboard.t) :=
  pendingRequirements <- getPendingRequirements ;;
  activeOrders <- getActivePurchaseOrders ;;
  scheduledReceptions <- getScheduledReceptions now ;;
  pendingOutputs <- getPendingOutputs ;;
  lowStockProducts <- getProductsWithLowStock ;;
  delayedOrders <- getDelayedPurchaseOrders now ;;
  dueInvoices <- getDueInvoices now ;;
  recentActivities <- getSystemActivities (Some 8) ;;
  inventoryMovements <- getRecentInventoryMovements 7 now ;;
  ret (Json 200
    {| Dashboard.pendingRequirementsCount := List.length pendingRequirements;
       Dashboard.activeOrdersCount := List.length activeOrders;
       Dashboard.scheduledReceptionsCount := List.length scheduledReceptions;
       Dashboard.pendingOutputsCount := List.length pendingOutputs;
       Dashboard.lowStockProducts := lowStockProducts;
       Dashboard.delayedOrders := delayedOrders;
       Dashboard.dueInvoices := dueInvoices;
       Dashboard.recentActivities := recentActivities;
       Dashboard.inventoryMovements := inventoryMovements |}).

(** *** Supplier routes *)

Definition post_suppliers (body : Parsed InsertSupplier.t) (now : Z)
  : M (Response Supplier.t) :=
  match body with
  | ZodError => ret (ZodErrors 400)
  | Valid validatedData =>
      supplier <- createSupplier validatedData now ;;
      logActivity "create" ("Creó proveedor " ++ Supplier.name supplier)
        "supplier" (Supplier.id supplier) now ;;
      ret (Json 201 supplier)
  end.

Definition put_suppliers (id : Z) (body : Parsed PartialSupplier.t)
  (now : Z) : M (Response Supplier.t) :=
  match body with
  | ZodError => ret (ZodErrors 400)
  | Valid validatedData =>
      supplier <- updateSupplier id validatedData ;;
      match supplier with
      | None => ret (Message 404 "Supplier not found")
      | Some supplier =>
          logActivity "update"
            ("Actualizó proveedor " ++ Supplier.name supplier)
            "supplier" (Supplier.id supplier) now ;;
          ret (Json 200 supplier)
      end
  end.

Definition delete_suppliers (id : Z) (now : Z) : M (Response unit) :=
  supplier <- getSupplier id ;;
  match supplier with
  | None => ret (Message 404 "Supplier not found")
  | Some supplier =>
      result <- deleteSupplier id ;;
      if (result : bool) then
        logActivity "delete" ("Eliminó proveedor " ++ Supplier.name supplier)
          "supplier" id now ;;
        ret (Send 204)
      else ret (Message 500 "Error deleting supplier")
  end.

(** *** Product routes *)

Definition post_products (body : Parsed InsertProduct.t) (now : Z)
  : M (Response Product.t) :=
  match body with
  | ZodError => ret (ZodErrors 400)
  | Valid validatedData =>
      product <- createProduct validatedData now ;;
      logActivity "create" ("Creó producto " ++ Product.name product)
        "product" (Product.id product) now ;;
      ret (Json 201 product)
  end.

Definition put_products (id : Z) (body : Parsed PartialProduct.t) (now : Z)
  : M (Response Product.t) :=
  match body with
  | ZodError => ret (ZodErrors 400)
  | Valid validatedData =>
      product <- updateProduct id validatedData ;;
      match product with
      | None => ret (Message 404 "Product not found")
      | Some product =>
          logActivity "update" ("Actualizó producto " ++ Product.name product)
            "product" (Product.id product) now ;;
          ret (Json 200 product)
      end
  end.

Definition delete_products (id : Z) (now : Z) : M (Response unit) :=
  product <- getProduct id ;;
  match product with
  | None => ret (Message 404 "Product not found")
  | Some product =>
      result <- deleteProduct id ;;
      if (result : bool) then
        logActivity "delete" ("Eliminó producto " ++ Product.name product)
          "product" id now ;;
        ret (Send 204)
      else ret (Message 500 "Error deleting product")
  end.

(** *** Requirement routes *)

Definition post_requirements (body : Parsed InsertRequirement.t) (now : Z)
  : M (Response Requirement.t) :=
  match body with
  | ZodError => ret (ZodErrors 400)
  | Valid validatedData =>
      requirement <- createRequirement validatedData now ;;
      logActivity "create"
        ("Creó requerimiento " ++ Requirement.code requirement)
        "requirement" (Requirement.id requirement) now ;;
      ret (Json 201 requirement)
  end.

(** In the four detail routes the schema parses
    [{ ...req.body, parentId }]: [body] is the outcome on that object, whose
    parent key is the path parameter. *)
Definition post_requirement_details (requirementId : Z)
  (body : Parsed InsertRequirementDetail.t)
  : M (Response RequirementDetail.t) :=
  requirement <- getRequirement requirementId ;;
  match requirement with
  | None => ret (Message 404 "Requirement not found")
  | Some requirement =>
      match body with
      | ZodError => ret (ZodErrors 400)
      | Valid data =>
          let validatedData :=
            {| InsertRequirementDetail.requirementId := requirementId;
               InsertRequirementDetail.productId :=
                 InsertRequirementDetail.productId data;
               InsertRequirementDetail.quantity :=
                 InsertRequirementDetail.quantity data;
               InsertRequirementDetail.unit :=
                 InsertRequirementDetail.unit data;
               InsertRequirementDetail.notes :=
                 InsertRequirementDetail.notes data;
               InsertRequirementDetail.status :=
                 InsertRequirementDetail.status data |} in
          detail <- createRequirementDetail validatedData ;;
          ret (Json 201 detail)
      end
  end.

Definition put_requirements (id : Z) (body : Parsed PartialRequirement.t)
  (now : Z) : M (Response Requirement.t) :=
  match body with
  | ZodError => ret (ZodErrors 400)
  | Valid validatedData =>
      requirement <- updateRequirement id validatedData ;;
      match requirement with
      | None => ret (Message 404 "Requirement not found")
      | Some requirement =>
          logActivity "update"
            ("Actualizó requerimiento " ++ Requirement.code requirement)
            "requirement" (Requirement.id requirement) now ;;
          ret (Json 200 requirement)
      end
  end.

(** *** Purchase order routes *)

Definition post_purchase_orders (body : Parsed InsertPurchaseOrder.t)
  (now : Z) : M (Response PurchaseOrder.t) :=
  match body with
  | ZodError => ret (ZodErrors 400)
  | Valid validatedData =>
      order <- createPurchaseOrder validatedData now ;;
      logActivity "create"
        ("Creó orden de compra " ++ PurchaseOrder.code order)
        "purchase_order" (PurchaseOrder.id order) now ;;
      ret (Json 201 order)
  end.

Definition post_purchase_order_details (purchaseOrderId : Z)
  (body : Parsed InsertPurchaseOrderDetail.t)
  : M (Response PurchaseOrderDetail.t) :=
  order <- getPurchaseOrder purchaseOrderId ;;
  match order with
  | None => ret (Message 404 "Purchase order not found")
  | Some order =>
      match body with
      | ZodError => ret (ZodErrors 400)
      | Valid data =>
          let validatedData :=
            {| InsertPurchaseOrderDetail.purchaseOrderId := purchaseOrderId;
               InsertPurchaseOrderDetail.productId :=
                 InsertPurchaseOrderDetail.productId data;
               InsertPurchaseOrderDetail.quantity :=
                 InsertPurchaseOrderDetail.quantity data;
               InsertPurchaseOrderDetail.unit :=
                 InsertPurchaseOrderDetail.unit data;
               InsertPurchaseOrderDetail.unitPrice :=
                 InsertPurchaseOrderDetail.unitPrice data;
               InsertPurchaseOrderDetail.totalPrice :=
                 InsertPurchaseOrderDetail.totalPrice data;
               InsertPurchaseOrderDetail.notes :=
                 InsertPurchaseOrderDetail.notes data |} in
          detail <- createPurchaseOrderDetail validatedData ;;
          ret (Json 201 detail)
      end
  end.

Definition put_purchase_orders (id : Z)
  (body : Parsed PartialPurchaseOrder.t) (now : Z)
  : M (Response PurchaseOrder.t) :=
  match body with
  | ZodError => ret (ZodErrors 400)
  | Valid validatedData =>
      order <- updatePurchaseOrder id validatedData ;;
      match order with
      | None => ret (Message 404 "Purchase order not found")
      | Some order =>
          logActivity "update"
            ("Actualizó orden de compra " ++ PurchaseOrder.code order)
            "purchase_order" (PurchaseOrder.id order) now ;;
          ret (Json 200 order)
      end
  end.

(** *** Reception routes *)

Definition post_receptions (body : Parsed InsertReception.t) (now : Z)
  : M (Response Reception.t) :=
  match body with
  | ZodError => ret (ZodErrors 400)
  | Valid validatedData =>
      reception <- createReception validatedData now ;;
      logActivity "create" ("Creó recepción " ++ Reception.code reception)
        "reception" (Reception.id reception) now ;;
      ret (Json 201 reception)
  end.

Definition post_reception_details (receptionId : Z)
  (body : Parsed InsertReceptionDetail.t) (now : Z)
  : M (Response ReceptionDetail.t) :=
  reception <- getReception receptionId ;;
  match reception with
  | None => ret (Message 404 "Reception not found")
  | Some reception =>
      match body with
      | ZodError => ret (ZodErrors 400)
      | Valid data =>
          let validatedData :=
            {| InsertReceptionDetail.receptionId := receptionId;
               InsertReceptionDetail.purchaseOrderDetailId :=
                 InsertReceptionDetail.purchaseOrderDetailId data;
               InsertReceptionDetail.productId :=
                 InsertReceptionDetail.productId data;
               InsertReceptionDetail.quantityExpected :=
                 InsertReceptionDetail.quantityExpected data;
               InsertReceptionDetail.quantityReceived :=
                 InsertReceptionDetail.quantityReceived data;
               InsertReceptionDetail.unit := InsertReceptionDetail.unit data;
               InsertReceptionDetail.notes :=
                 InsertReceptionDetail.notes data;
               InsertReceptionDetail.status :=
                 InsertReceptionDetail.status data |} in
          detail <- createReceptionDetail validatedData ;;
          (* Create inventory movement *)
          (if String.eqb (ReceptionDetail.status detail) "completed"
              || String.eqb (ReceptionDetail.status detail) "partial"
           then
             product <- getProduct (ReceptionDetail.productId detail) ;;
             match product with
             | Some product =>
                 (* Update product stock *)
                 updateProductStock (ReceptionDetail.productId detail)
                   (ReceptionDetail.quantityReceived detail) ;;
                 (* Create inventory movement record *)
                 createInventoryMovement
                   {| InsertInventoryMovement.productId :=
                        ReceptionDetail.productId detail;
                      InsertInventoryMovement.quantity :=
                        ReceptionDetail.quantityReceived detail;
                      InsertInventoryMovement.unit :=
                        ReceptionDetail.unit detail;
                      InsertInventoryMovement.movementType := "reception";
                      InsertInventoryMovement.referenceId :=
                        Some (Reception.id reception);
                      InsertInventoryMovement.referenceType :=
                        Some "reception";
                      InsertInventoryMovement.notes :=
                        Some ("Recepción " ++ Reception.code reception);
                      InsertInventoryMovement.createdBy := Some 1 |} now ;;
                 ret tt
             | None => ret tt
             end
           else ret tt) ;;
          ret (Json 201 detail)
      end
  end.

Definition put_receptions (id : Z) (body : Parsed PartialReception.t)
  (now : Z) : M (Response Reception.t) :=
  match body with
  | ZodError => ret (ZodErrors 400)
  | Valid validatedData =>
      reception <- updateReception id validatedData ;;
      match reception with
      | None => ret (Message 404 "Reception not found")
      | Some reception =>
          logActivity "update"
            ("Actualizó recepción " ++ Reception.code reception)
            "reception" (Reception.id reception) now ;;
          ret (Json 200 reception)
      end
  end.

(** *** Inventory routes *)

Definition post_inventory_movements
  (body : Parsed InsertInventoryMovement.t) (now : Z)
  : M (Response InventoryMovement.t) :=
  match body with
  | ZodError => ret (ZodErrors 400)
  | Valid validatedData =>
      movement <- createInventoryMovement validatedData now ;;
      (* Update product stock *)
      updateProductStock (InventoryMovement.productId movement)
        (InventoryMovement.quantity movement) ;;
      logActivity "create" "Registró movimiento de inventario"
        "inventory_movement" (InventoryMovement.id movement) now ;;
      ret (Json 201 movement)
  end.

(** *** Output routes *)

Definition post_outputs (body : Parsed InsertOutput.t) (now : Z)
  : M (Response Output.t) :=
  match body with
  | ZodError => ret (ZodErrors 400)
  | Valid validatedData =>
      output <- createOutput validatedData now ;;
      logActivity "create" ("Creó salida " ++ Output.code output)
        "output" (Output.id output) now ;;
      ret (Json 201 output)
  end.

Definition post_output_details (outputId : Z)
  (body : Parsed InsertOutputDetail.t) (now : Z)
  : M (Response OutputDetail.t) :=
  output <- getOutput outputId ;;
  match output with
  | None => ret (Message 404 "Output not found")
  | Some output =>
      match body with
      | ZodError => ret (ZodErrors 400)
      | Valid data =>
          let validatedData :=
            {| InsertOutputDetail.outputId := outputId;
               InsertOutputDetail.productId :=
                 InsertOutputDetail.productId data;
               InsertOutputDetail.quantity :=
                 InsertOutputDetail.quantity data;
               InsertOutputDetail.unit := InsertOutputDetail.unit data;
               InsertOutputDetail.notes := InsertOutputDetail.notes data;
               InsertOutputDetail.status :=
                 InsertOutputDetail.status data |} in
          detail <- createOutputDetail validatedData ;;
          (* If the output is completed, update inventory *)
          (if String.eqb (Output.status output) "completed"
              || String.eqb (OutputDetail.status detail) "completed"
           then
             product <- getProduct (OutputDetail.productId detail) ;;
             match product with
             | Some product =>
                 (* Update product stock *)
                 updateProductStock (OutputDetail.productId detail)
                   (- OutputDetail.quantity detail) ;;
                 (* Create inventory movement record *)
                 createInventoryMovement
                   {| InsertInventoryMovement.productId :=
                        OutputDetail.productId detail;
                      InsertInventoryMovement.quantity :=
                        - OutputDetail.quantity detail;
                      InsertInventoryMovement.unit :=
                        OutputDetail.unit detail;
                      InsertInventoryMovement.movementType := "output";
                      InsertInventoryMovement.referenceId :=
                        Some (Output.id output);
                      InsertInventoryMovement.referenceType := Some "output";
                      InsertInventoryMovement.notes :=
                        Some ("Salida " ++ Output.code output);
                      InsertInventoryMovement.createdBy := Some 1 |} now ;;
                 ret tt
             | None => ret tt
             end
           else ret tt) ;;
          ret (Json 201 detail)
      end
  end.

(** The body of the loop of PUT /api/outputs/:id over the details of the
    output. *)
Definition completeOutputDetail (id : Z) (existingOutput : Output.t)
  (now : Z) (detail : OutputDetail.t) : M unit :=
  if negb (String.eqb (OutputDetail.status detail) "completed") then
    (* Update product stock *)
    updateProductStock (OutputDetail.productId detail)
      (- OutputDetail.quantity detail) ;;
    (* Update detail status *)
    updateOutputDetail (OutputDetail.id detail)
      {| PartialOutputDetail.outputId := None;
         PartialOutputDetail.productId := None;
         PartialOutputDetail.quantity := None;
         PartialOutputDetail.unit := None;
         PartialOutputDetail.notes := None;
         PartialOutputDetail.status := Some "completed" |} ;;
    (* Create inventory movement record *)
    createInventoryMovement
      {| InsertInventoryMovement.productId := OutputDetail.productId detail;
         InsertInventoryMovement.quantity := - OutputDetail.quantity detail;
         InsertInventoryMovement.unit := OutputDetail.unit detail;
         InsertInventoryMovement.movementType := "output";
         InsertInventoryMovement.referenceId := Some id;
         InsertInventoryMovement.referenceType := Some "output";
         InsertInventoryMovement.notes :=
           Some ("Salida " ++ Output.code existingOutput);
         InsertInventoryMovement.createdBy := Some 1 |} now ;;
    ret tt
  else ret tt.

(** [validatedData.status === 'completed'] *)
Definition asksCompleted (validatedData : PartialOutput.t) : bool :=
  match PartialOutput.status validatedData with
  | Some status => String.eqb status "completed"
  | None => false
  end.

Definition put_outputs (id : Z) (body : Parsed PartialOutput.t) (now : Z)
  : M (Response Output.t) :=
  match body with
  | ZodError => ret (ZodErrors 400)
  | Valid validatedData =>
      existingOutput <- getOutput id ;;
      match existingOutput with
      | None => ret (Message 404 "Output not found")
      | Some existingOutput =>
          (* If changing status to completed, process inventory movements *)
          (if asksCompleted validatedData
              && negb (String.eqb (Output.status existingOutput) "completed")
           then
             details <- getOutputDetails id ;;
             forEach details (completeOutputDetail id existingOutput now)
           else ret tt) ;;
          output <- updateOutput id validatedData ;;
          match output with
          | Some output =>
              logActivity "update" ("Actualizó salida " ++ Output.code output)
                "output" (Output.id output) now ;;
              ret (Json 200 output)
          | None =>
              (* reading [output.code] of [undefined] throws *)
              ret (Message 500 "Error updating output")
          end
      end
  end.

(** *** Invoice routes *)

Definition post_invoices (body : Parsed InsertInvoice.t) (now : Z)
  : M (Response Invoice.t) :=
  match body with
  | ZodError => ret (ZodErrors 400)
  | Valid validatedData =>
      invoice <- createInvoice validatedData now ;;
      logActivity "create" ("Registró factura " ++ Invoice.code invoice)
        "invoice" (Invoice.id invoice) now ;;
      ret (Json 201 invoice)
  end.

Definition put_invoices (id : Z) (body : Parsed PartialInvoice.t) (now : Z)
  : M (Response Invoice.t) :=
  match body with
  | ZodError => ret (ZodErrors 400)
  | Valid validatedData =>
      invoice <- updateInvoice id validatedData ;;
      match invoice with
      | None => ret (Message 404 "Invoice not found")
      | Some invoice =>
          logActivity "update" ("Actualizó factura " ++ Invoice.code invoice)
            "invoice" (Invoice.id invoice) now ;;
          ret (Json 200 invoice)
      end
  end.

(** *** System activity routes *)

Definition post_activities (body : Parsed InsertSystemActivity.t) (now : Z)
  : M (Response SystemActivity.t) :=
  match body with
  | ZodError => ret (ZodErrors 400)
  | Valid validatedData =>
      activity <- createSystemActivity validatedData now ;;
      ret (Json 201 activity)
  end.

(** ** Requests that can change the store *)

Inductive Request :=
| POST_suppliers (body : Parsed InsertSupplier.t)
| PUT_suppliers (id : Z) (body : Parsed PartialSupplier.t)
| DELETE_suppliers (id : Z)
| POST_products (body : Parsed InsertProduct.t)
| PUT_products (id : Z) (body : Parsed PartialProduct.t)
| DELETE_products (id : Z)
| POST_requirements (body : Parsed InsertRequirement.t)
| POST_requirement_details (id : Z) (body : Parsed InsertRequirementDetail.t)
| PUT_requirements (id : Z) (body : Parsed PartialRequirement.t)
| POST_purchase_orders (body : Parsed InsertPurchaseOrder.t)
| POST_purchase_order_details (id : Z)
    (body : Parsed InsertPurchaseOrderDetail.t)
| PUT_purchase_orders (id : Z) (body : Parsed PartialPurchaseOrder.t)
| POST_receptions (body : Parsed InsertReception.t)
| POST_reception_details (id : Z) (body : Parsed InsertReceptionDetail.t)
| PUT_receptions (id : Z) (body : Parsed PartialReception.t)
| POST_inventory_movements (body : Parsed InsertInventoryMovement.t)
| POST_outputs (body : Parsed InsertOutput.t)
| POST_output_details (id : Z) (body : Parsed InsertOutputDetail.t)
| PUT_outputs (id : Z) (body : Parsed PartialOutput.t)
| POST_invoices (body : Parsed InsertInvoice.t)
| PUT_invoices (id : Z) (body : Parsed PartialInvoice.t)
| POST_activities (body : Parsed InsertSystemActivity.t).

(** The status code a request is answered with. *)
Definition answered {A : Type} (handler : M (Response A)) : M Z :=
  r <- handler ;; ret (statusCode r).

Definition serve (request : Request) (now : Z) : M Z :=
  match request with
  | POST_suppliers body => answered (post_suppliers body now)
  | PUT_suppliers id body => answered (put_suppliers id body now)
  | DELETE_suppliers id => answered (delete_suppliers id now)
  | POST_products body => answered (post_products body now)
  | PUT_products id body => answered (put_products id body now)
  | DELETE_products id => answered (delete_products id now)
  | POST_requirements body => answered (post_requirements body now)
  | POST_requirement_details id body =>
      answered (post_requirement_details id body)
  | PUT_requirements id body => answered (put_requirements id body now)
  | POST_purchase_orders body => answered (post_purchase_orders body now)
  | POST_purchase_order_details id body =>
      answered (post_purchase_order_details id body)
  | PUT_purchase_orders id body => answered (put_purchase_orders id body now)
  | POST_receptions body => answered (post_receptions body now)
  | POST_reception_details id body =>
      answered (post_reception_details id body now)
  | PUT_receptions id body => answered (put_receptions id body now)
  | POST_inventory_movements body =>
      answered (post_inventory_movements body now)
  | POST_outputs body => answered (post_outputs body now)
  | POST_output_details id body => answered (post_output_details id body now)
  | PUT_outputs id body => answered (put_outputs id body now)
  | POST_invoices body => answered (post_invoices body now)
  | PUT_invoices id body => answered (put_invoices id body now)
  | POST_activities body => answered (post_activities body now)
  end.

(** The store after a request. *)
Definition after (request : Request) (now : Z) (s : MemStorage)
  : MemStorage :=
  snd (runState (serve request now) s).

(** The stores the running server can be in: the seeded store, and any
    store a request leaves behind. *)
Inductive reachable : MemStorage -> Prop :=
| reachable_start (now : Z) : reachable (storage now)
| reachable_request (s : MemStorage) (request : Request) (now : Z) :
    reachable s -> reachable (after request now s).

(** ** Quantities the properties are stated with *)

Open Scope list_scope.

(** The store after a sequence of requests, each served at its own
    time. *)
Definition afterAll (requests : list (Request * Z)) (s : MemStorage)
  : MemStorage :=
  fold_left (fun s r => after (fst r) (snd r) s) requests s.

(** The signed quantities, in insertion order, of the movements recorded
    for a product. *)
Definition movementQuantities (productId : Z) (s : MemStorage)
  : list float :=
  List.map InventoryMovement.quantity
    (filter (fun movement =>
               InventoryMovement.productId movement =? productId)
       (map_values (entries (inventoryMovements s)))).

(** Their running sum: [quantities.reduce((sum, q) => sum + q, 0)]. *)
Definition movementSum (productId : Z) (s : MemStorage) : float :=
  fold_left PrimFloat.add (movementQuantities productId s) 0%float.

(** A table hands out fresh identifiers: its keys are pairwise distinct
    and all below its counter. *)
Definition tableOk {A : Type} (t : Table A) : Prop :=
  NoDup (map_keys (entries t)) /\
  Forall (fun k => k < nextId t) (map_keys (entries t)).

Definition storeOk (s : MemStorage) : Prop :=
  tableOk (users s) /\ tableOk (suppliers s) /\ tableOk (products s) /\
  tableOk (requirements s) /\ tableOk (requirementDetails s) /\
  tableOk (purchaseOrders s) /\ tableOk (purchaseOrderDetails s) /\
  tableOk (receptions s) /\ tableOk (receptionDetails s) /\
  tableOk (inventoryMovements s) /\ tableOk (outputs s) /\
  tableOk (outputDetails s) /\ tableOk (invoices s) /\
  tableOk (systemActivities s).

(** [n] is the number of elements of the finite set [P]. *)
Definition cardinality {A : Type} (P : A -> Prop) (n : nat) : Prop :=
  exists l : list A,
    NoDup l /\ (forall x, In x l <-> P x) /\ List.length l = n.

(** A computation keeps a property of the store. *)
Definition preserves {A : Type} (P : MemStorage -> Prop) (c : M A) : Prop :=
  forall s, P s -> P (snd (runState c s)).

(** Between two stores, a product whose stock held a number is still
    there, and its stock is the old one with the quantities of its new
    movements added to it one after the other. *)
Definition advanced (productId : Z) (s s' : MemStorage) : Prop :=
  forall (p : Product.t) (c : float),
    map_get productId (entries (products s)) = Some p ->
    toNumber (Product.currentStock p) = Some c ->
    exists (p' : Product.t) (booked : list float),
      map_get productId (entries (products s')) = Some p' /\
      toNumber (Product.currentStock p') =
        Some (fold_left PrimFloat.add booked c) /\
      movementQuantities productId s' =
        movementQuantities productId s ++ booked.

(** The products and the movements are those of [s0]. *)
Definition sameStock (s0 s : MemStorage) : Prop :=
  products s = products s0 /\ inventoryMovements s = inventoryMovements s0.

(** *** Storage calls and the identifiers they hand out *)

Inductive Entity :=
| EUser | ESupplier | EProduct | ERequirement | ERequirementDetail
| EPurchaseOrder | EPurchaseOrderDetail | EReception | EReceptionDetail
| EInventoryMovement | EOutput | EOutputDetail | EInvoice | ESystemActivity.

Definition entityTag (e : Entity) : Z :=
  match e with
  | EUser => 0 | ESupplier => 1 | EProduct => 2 | ERequirement => 3
  | ERequirementDetail => 4 | EPurchaseOrder => 5
  | EPurchaseOrderDetail => 6 | EReception => 7 | EReceptionDetail => 8
  | EInventoryMovement => 9 | EOutput => 10 | EOutputDetail => 11
  | EInvoice => 12 | ESystemActivity => 13
  end.

(** The id counter of an entity type ([this.userId], [this.supplierId],
    ...). *)
Definition counter (e : Entity) (s : MemStorage) : Z :=
  match e with
  | EUser => nextId (users s)
  | ESupplier => nextId (suppliers s)
  | EProduct => nextId (products s)
  | ERequirement => nextId (requirements s)
  | ERequirementDetail => nextId (requirementDetails s)
  | EPurchaseOrder => nextId (purchaseOrders s)
  | EPurchaseOrderDetail => nextId (purchaseOrderDetails s)
  | EReception => nextId (receptions s)
  | EReceptionDetail => nextId (receptionDetails s)
  | EInventoryMovement => nextId (inventoryMovements s)
  | EOutput => nextId (outputs s)
  | EOutputDetail => nextId (outputDetails s)
  | EInvoice => nextId (invoices s)
  | ESystemActivity => nextId (systemActivities s)
  end.

(** The identifiers an entity type holds records under. *)
Definition ids (e : Entity) (s : MemStorage) : list Z :=
  match e with
  | EUser => map_keys (entries (users s))
  | ESupplier => map_keys (entries (suppliers s))
  | EProduct => map_keys (entries (products s))
  | ERequirement => map_keys (entries (requirements s))
  | ERequirementDetail => map_keys (entries (requirementDetails s))
  | EPurchaseOrder => map_keys (entries (purchaseOrders s))
  | EPurchaseOrderDetail => map_keys (entries (purchaseOrderDetails s))
  | EReception => map_keys (entries (receptions s))
  | EReceptionDetail => map_keys (entries (receptionDetails s))
  | EInventoryMovement => map_keys (entries (inventoryMovements s))
  | EOutput => map_keys (entries (outputs s))
  | EOutputDetail => map_keys (entries (outputDetails s))
  | EInvoice => map_keys (entries (invoices s))
  | ESystemActivity => map_keys (entries (systemActivities s))
  end.

(** The methods of [IStorage] that write. *)
Inductive Call :=
| CreateUser (user : InsertUser.t)
| CreateSupplier (supplier : InsertSupplier.t)
| CreateProduct (product : InsertProduct.t)
| CreateRequirement (requirement : InsertRequirement.t)
| CreateRequirementDetail (detail : InsertRequirementDetail.t)
| CreatePurchaseOrder (order : InsertPurchaseOrder.t)
| CreatePurchaseOrderDetail (detail : InsertPurchaseOrderDetail.t)
| CreateReception (reception : InsertReception.t)
| CreateReceptionDetail (detail : InsertReceptionDetail.t)
| CreateInventoryMovement (movement : InsertInventoryMovement.t)
| CreateOutput (output : InsertOutput.t)
| CreateOutputDetail (detail : InsertOutputDetail.t)
| CreateInvoice (invoice : InsertInvoice.t)
| CreateSystemActivity (activity : InsertSystemActivity.t)
| UpdateSupplier (id : Z) (supplier : PartialSupplier.t)
| UpdateProduct (id : Z) (product : PartialProduct.t)
| UpdateProductStock (id : Z) (quantity : float)
| UpdateRequirement (id : Z) (requirement : PartialRequirement.t)
| UpdateRequirementDetail (id : Z) (detail : PartialRequirementDetail.t)
| UpdatePurchaseOrder (id : Z) (order : PartialPurchaseOrder.t)
| UpdatePurchaseOrderDetail (id : Z) (detail : PartialPurchaseOrderDetail.t)
| UpdateReception (id : Z) (reception : PartialReception.t)
| UpdateReceptionDetail (id : Z) (detail : PartialReceptionDetail.t)
| UpdateOutput (id : Z) (output : PartialOutput.t)
| UpdateOutputDetail (id : Z) (detail : PartialOutputDetail.t)
| UpdateInvoice (id : Z) (invoice : PartialInvoice.t)
| DeleteSupplier (id : Z)
| DeleteProduct (id : Z)
| DeleteRequirement (id : Z)
| DeleteRequirementDetail (id : Z)
| DeletePurchaseOrder (id : Z)
| DeletePurchaseOrderDetail (id : Z)
| DeleteReception (id : Z)
| DeleteReceptionDetail (id : Z)
| DeleteOutput (id : Z)
| DeleteOutputDetail (id : Z)
| DeleteInvoice (id : Z).

(** Runs a call; for a create method the result is the entity type and
    the [id] of the record the method returned. *)
Definition perform (call : Call) (now : Z) : M (option (Entity * Z)) :=
  match call with
  | CreateUser user =>
      r <- createUser user ;; ret (Some (EUser, User.id r))
  | CreateSupplier supplier =>
      r <- createSupplier supplier now ;;
      ret (Some (ESupplier, Supplier.id r))
  | CreateProduct product =>
      r <- createProduct product now ;; ret (Some (EProduct, Product.id r))
  | CreateRequirement requirement =>
      r <- createRequirement requirement now ;;
      ret (Some (ERequirement, Requirement.id r))
  | CreateRequirementDetail detail =>
      r <- createRequirementDetail detail ;;
      ret (Some (ERequirementDetail, RequirementDetail.id r))
  | CreatePurchaseOrder order =>
      r <- createPurchaseOrder order now ;;
      ret (Some (EPurchaseOrder, PurchaseOrder.id r))
  | CreatePurchaseOrderDetail detail =>
      r <- createPurchaseOrderDetail detail ;;
      ret (Some (EPurchaseOrderDetail, PurchaseOrderDetail.id r))
  | CreateReception reception =>
      r <- createReception reception now ;;
      ret (Some (EReception, Reception.id r))
  | CreateReceptionDetail detail =>
      r <- createReceptionDetail detail ;;
      ret (Some (EReceptionDetail, ReceptionDetail.id r))
  | CreateInventoryMovement movement =>
      r <- createInventoryMovement movement now ;;
      ret (Some (EInventoryMovement, InventoryMovement.id r))
  | CreateOutput output =>
      r <- createOutput output now ;; ret (Some (EOutput, Output.id r))
  | CreateOutputDetail detail =>
      r <- createOutputDetail detail ;;
      ret (Some (EOutputDetail, OutputDetail.id r))
  | CreateInvoice invoice =>
      r <- createInvoice invoice now ;; ret (Some (EInvoice, Invoice.id r))
  | CreateSystemActivity activity =>
      r <- createSystemActivity activity now ;;
      ret (Some (ESystemActivity, SystemActivity.id r))
  | UpdateSupplier id supplier => updateSupplier id supplier ;; ret None
  | UpdateProduct id product => updateProduct id product ;; ret None
  | UpdateProductStock id quantity =>
      updateProductStock id quantity ;; ret None
  | UpdateRequirement id requirement =>
      updateRequirement id requirement ;; ret None
  | UpdateRequirementDetail id detail =>
      updateRequirementDetail id detail ;; ret None
  | UpdatePurchaseOrder id order => updatePurchaseOrder id order ;; ret None
  | UpdatePurchaseOrderDetail id detail =>
      updatePurchaseOrderDetail id detail ;; ret None
  | UpdateReception id reception => updateReception id reception ;; ret None
  | UpdateReceptionDetail id detail =>
      updateReceptionDetail id detail ;; ret None
  | UpdateOutput id output => updateOutput id output ;; ret None
  | UpdateOutputDetail id detail => updateOutputDetail id detail ;; ret None
  | UpdateInvoice id invoice => updateInvoice id invoice ;; ret None
  | DeleteSupplier id => deleteSupplier id ;; ret None
  | DeleteProduct id => deleteProduct id ;; ret None
  | DeleteRequirement id => deleteRequirement id ;; ret None
  | DeleteRequirementDetail id => deleteRequirementDetail id ;; ret None
  | DeletePurchaseOrder id => deletePurchaseOrder id ;; ret None
  | DeletePurchaseOrderDetail id => deletePurchaseOrderDetail id ;; ret None
  | DeleteReception id => deleteReception id ;; ret None
  | DeleteReceptionDetail id => deleteReceptionDetail id ;; ret None
  | DeleteOutput id => deleteOutput id ;; ret None
  | DeleteOutputDetail id => deleteOutputDetail id ;; ret None
  | DeleteInvoice id => deleteInvoice id ;; ret None
  end.

(** Runs calls one after the other, each at its own time, and collects
    what the create methods handed out, in order. *)
Fixpoint performAll (calls : list (Call * Z)) : M (list (Entity * Z)) :=
  match calls with
  | [] => ret []
  | (call, now) :: rest =>
      r <- perform call now ;;
      log <- performAll rest ;;
      ret (match r with Some x => x :: log | None => log end)
  end.

(** The identifiers handed out for one entity type, in order. *)
Definition created (e : Entity) (log : list (Entity * Z)) : list Z :=
  List.map snd (filter (fun x => entityTag (fst x) =? entityTag e) log).

(** *** Classes of requests *)

(** The body of the request failed validation. *)
Definition rejected (request : Request) : bool :=
  match request with
  | POST_suppliers ZodError | PUT_suppliers _ ZodError
  | POST_products ZodError | PUT_products _ ZodError
  | POST_requirements ZodError | POST_requirement_details _ ZodError
  | PUT_requirements _ ZodError
  | POST_purchase_orders ZodError | POST_purchase_order_details _ ZodError
  | PUT_purchase_orders _ ZodError
  | POST_receptions ZodError | POST_reception_details _ ZodError
  | PUT_receptions _ ZodError
  | POST_inventory_movements ZodError
  | POST_outputs ZodError | POST_output_details _ ZodError
  | PUT_outputs _ ZodError
  | POST_invoices ZodError | PUT_invoices _ ZodError
  | POST_activities ZodError => true
  | _ => false
  end.

(** The request creates a detail under a parent that the store does not
    hold. *)
Definition parentMissing (request : Request) (s : MemStorage) : bool :=
  match request with
  | POST_requirement_details id _ =>
      negb (map_has id (entries (requirements s)))
  | POST_purchase_order_details id _ =>
      negb (map_has id (entries (purchaseOrders s)))
  | POST_reception_details id _ => negb (map_has id (entries (receptions s)))
  | POST_output_details id _ => negb (map_has id (entries (outputs s)))
  | _ => false
  end.

(** The request writes the [currentStock] of the product as given, or
    takes the product away: a PUT /api/products/:id of that product whose
    body has a [currentStock] key, and the DELETE of that product. *)
Definition overwritesStock (productId : Z) (request : Request) : bool :=
  match request with
  | PUT_products id (Valid product) =>
      (id =? productId)
      && match PartialProduct.currentStock product with
         | Some _ => true
         | None => false
         end
  | DELETE_products id => id =? productId
  | _ => false
  end.

(** *** Partial updates *)

(** What an update method does to the record stored under [id], to its
    table and to the rest of the store. *)
Definition overwrites {T P : Type} (view : MemStorage -> Table T)
  (set : Table T -> MemStorage -> MemStorage)
  (update : Z -> P -> M (option T)) (merge : P -> T -> T) : Prop :=
  forall (s : MemStorage) (id : Z) (patch : P) (existing : T),
    map_get id (entries (view s)) = Some existing ->
    exists s' : MemStorage,
      runState (update id patch) s = (Some (merge patch existing), s') /\
      map_get id (entries (view s')) = Some (merge patch existing) /\
      (forall j, j <> id ->
         map_get j (entries (view s')) = map_get j (entries (view s))) /\
      map_keys (entries (view s')) = map_keys (entries (view s)) /\
      nextId (view s') = nextId (view s) /\
      s' = set (view s') s.

(** *** Notions for the further properties *)

(** Every entry of the table sits under the id its record carries. *)
Definition keyed {A : Type} (idOf : A -> Z) (t : Table A) : Prop :=
  forall (k : Z) (r : A), In (k, r) (entries t) -> idOf r = k.

Definition storeKeyed (s : MemStorage) : Prop :=
  keyed User.id (users s) /\ keyed Supplier.id (suppliers s) /\
  keyed Product.id (products s) /\ keyed Requirement.id (requirements s) /\
  keyed RequirementDetail.id (requirementDetails s) /\
  keyed PurchaseOrder.id (purchaseOrders s) /\
  keyed PurchaseOrderDetail.id (purchaseOrderDetails s) /\
  keyed Reception.id (receptions s) /\
  keyed ReceptionDetail.id (receptionDetails s) /\
  keyed InventoryMovement.id (inventoryMovements s) /\
  keyed Output.id (outputs s) /\ keyed OutputDetail.id (outputDetails s) /\
  keyed Invoice.id (invoices s) /\
  keyed SystemActivity.id (systemActivities s).

(** The status code is one of the success codes the handlers send. *)
Definition succeeded (code : Z) : bool :=
  (code =? 200) || (code =? 201) || (code =? 204).

(** The request is one of the four detail-creation routes. *)
Definition detailRoute (request : Request) : bool :=
  match request with
  | POST_requirement_details _ _ | POST_purchase_order_details _ _
  | POST_reception_details _ _ | POST_output_details _ _ => true
  | _ => false
  end.

(** [a] is listed before [b] when it is at least as recent. *)
Definition newerFirst (a b : SystemActivity.t) : Prop :=
  SystemActivity.createdAt b <= SystemActivity.createdAt a.

(** What a create method does to its table and to the rest of the
    store. *)
Definition inserts {T I : Type} (view : MemStorage -> Table T)
  (set : Table T -> MemStorage -> MemStorage) (create : I -> Z -> M T)
  (idOf : T -> Z) : Prop :=
  forall (s : MemStorage) (x : I) (now : Z),
    tableOk (view s) ->
    exists (r : T) (s' : MemStorage),
      runState (create x now) s = (r, s') /\
      idOf r = nextId (view s) /\
      map_get (idOf r) (entries (view s')) = Some r /\
      (forall j, j <> idOf r ->
         map_get j (entries (view s')) = map_get j (entries (view s))) /\
      map_values (entries (view s')) = map_values (entries (view s)) ++ [r] /\
      nextId (view s') = nextId (view s) + 1 /\
      s' = set (view s') s.

(** What a delete method does to its table and to the rest of the
    store. *)
Definition removes {T : Type} (view : MemStorage -> Table T)
  (set : Table T -> MemStorage -> MemStorage) (delete : Z -> M bool)
  : Prop :=
  forall (s : MemStorage) (id : Z),
    tableOk (view s) ->
    exists s' : MemStorage,
      runState (delete id) s = (map_has id (entries (view s)), s') /\
      map_get id (entries (view s')) = None /\
      (forall j, j <> id ->
         map_get j (entries (view s')) = map_get j (entries (view s))) /\
      nextId (view s') = nextId (view s) /\
      s' = set (view s') s.

(** The request is one of the four routes that book stock. *)
Definition booksStock (request : Request) : bool :=
  match request with
  | POST_reception_details _ _ | POST_inventory_movements _
  | POST_output_details _ _ | PUT_outputs _ _ => true
  | _ => false
  end.

(** The patch [{ status: 'completed' }] of the completion loop. *)
Definition completedPatch : PartialOutputDetail.t :=
  {| PartialOutputDetail.outputId := None;
     PartialOutputDetail.productId := None;
     PartialOutputDetail.quantity := None;
     PartialOutputDetail.unit := None;
     PartialOutputDetail.notes := None;
     PartialOutputDetail.status := Some "completed" |}.

(** What one turn of the completion loop does to the output details. *)
Definition completeStep (t : Table OutputDetail.t) (detail : OutputDetail.t)
  : Table OutputDetail.t :=
  if negb (String.eqb (OutputDetail.status detail) "completed")
  then fst (amend t (OutputDetail.id detail)
              (mergeOutputDetail completedPatch))
  else t.

(** The output details after some turns of the completion loop for
    output [id], against the table [t0] the loop started from: the keys
    and the counter are the same, every record is the one of [t0] or, for
    a detail of the output, that record marked completed, and the details
    gone through are completed. *)
Definition completedSoFar (t0 : Table OutputDetail.t) (id : Z)
  (done : list OutputDetail.t) (t : Table OutputDetail.t) : Prop :=
  map_keys (entries t) = map_keys (entries t0) /\
  nextId t = nextId t0 /\
  (forall k d0, map_get k (entries t0) = Some d0 ->
     map_get k (entries t) = Some d0 \/
     (map_get k (entries t) = Some (mergeOutputDetail completedPatch d0) /\
      OutputDetail.outputId d0 = id)) /\
  (forall d0, In d0 done ->
     map_get (OutputDetail.id d0) (entries t0) = Some d0 ->
     exists d, map_get (OutputDetail.id d0) (entries t) = Some d /\
               OutputDetail.status d = "completed"%string).

(** ** Facts about maps *)

Section JsMapFacts.
Context {A : Type}.
Implicit Types (m : JsMap A) (k : Z) (v : A).

Lemma map_get_set_same m k v : map_get k (map_set k v m) = Some v.
Proof.
  induction m as [| [k' v'] m IH]; simpl.
  - now rewrite Z.eqb_refl.
  - destruct (k =? k') eqn:E; simpl.
    + now rewrite Z.eqb_refl.
    + now rewrite E.
Qed.

Lemma map_get_set_other m k j v :
  j <> k -> map_get j (map_set k v m) = map_get j m.
Proof.
  intros Hjk. induction m as [| [k' v'] m IH]; simpl.
  - now rewrite (proj2 (Z.eqb_neq j k) Hjk).
  - destruct (k =? k') eqn:E; simpl.
    + apply Z.eqb_eq in E. subst k'.
      now rewrite (proj2 (Z.eqb_neq j k) Hjk).
    + now rewrite IH.
Qed.

Lemma map_get_In m k v : map_get k m = Some v -> In (k, v) m.
Proof.
  induction m as [| [k' v'] m IH]; simpl; [discriminate |].
  destruct (k =? k') eqn:E.
  - apply Z.eqb_eq in E. intros [= ->]. subst. now left.
  - intros H. right. now apply IH.
Qed.

Lemma map_get_None m k : ~ In k (map_keys m) -> map_get k m = None.
Proof.
  induction m as [| [k' v'] m IH]; simpl; [reflexivity |].
  intros H. destruct (k =? k') eqn:E.
  - apply Z.eqb_eq in E. subst. exfalso. apply H. now left.
  - apply IH. intros Hin. apply H. now right.
Qed.

Lemma map_get_keys m k v : map_get k m = Some v -> In k (map_keys m).
Proof.
  intros H. apply map_get_In in H.
  unfold map_keys. now apply (in_map fst) in H.
Qed.

Lemma In_map_get m k v :
  NoDup (map_keys m) -> In (k, v) m -> map_get k m = Some v.
Proof.
  induction m as [| [k' v'] m IH]; simpl; [intros _ [] |].
  intros Hnd [Heq | Hin].
  - injection Heq as -> ->. now rewrite Z.eqb_refl.
  - inversion Hnd as [| ? ? Hnotin Hnd']; subst.
    destruct (k =? k') eqn:E.
    + apply Z.eqb_eq in E. subst. exfalso. apply Hnotin.
      now apply (in_map fst) in Hin.
    + now apply IH.
Qed.

Lemma map_set_fresh m k v :
  ~ In k (map_keys m) -> map_set k v m = m ++ [(k, v)].
Proof.
  induction m as [| [k' v'] m IH]; simpl; [reflexivity |].
  intros H. destruct (k =? k') eqn:E.
  - apply Z.eqb_eq in E. subst. exfalso. apply H. now left.
  - f_equal. apply IH. intros Hin. apply H. now right.
Qed.

Lemma map_set_present_keys m k v :
  In k (map_keys m) -> map_keys (map_set k v m) = map_keys m.
Proof.
  induction m as [| [k' v'] m IH]; simpl; [intros [] |].
  intros H. destruct (k =? k') eqn:E; simpl.
  - apply Z.eqb_eq in E. now subst.
  - f_equal. apply IH. destruct H as [H | H]; [| exact H].
    apply Z.eqb_neq in E. congruence.
Qed.

Lemma map_delete_keys_incl m k j :
  In j (map_keys (map_delete k m)) -> In j (map_keys m).
Proof.
  induction m as [| [k' v'] m IH]; simpl; [intros [] |].
  destruct (k =? k'); simpl.
  - intros H. now right.
  - intros [H | H]; [now left | right; now apply IH].
Qed.

Lemma map_delete_NoDup m k :
  NoDup (map_keys m) -> NoDup (map_keys (map_delete k m)).
Proof.
  induction m as [| [k' v'] m IH]; simpl; [intros H; exact H |].
  intros Hnd. inversion Hnd as [| ? ? Hnotin Hnd']; subst.
  destruct (k =? k'); simpl; [exact Hnd' |].
  constructor; [| now apply IH].
  intros Hin. apply Hnotin. eapply map_delete_keys_incl. exact Hin.
Qed.

Lemma map_get_delete_other m k j :
  j <> k -> map_get j (map_delete k m) = map_get j m.
Proof.
  intros Hjk. induction m as [| [k' v'] m IH]; simpl; [reflexivity |].
  destruct (k =? k') eqn:E; simpl.
  - apply Z.eqb_eq in E. subst k'.
    now rewrite (proj2 (Z.eqb_neq j k) Hjk).
  - now rewrite IH.
Qed.

End JsMapFacts.

(** ** Running computations *)

Lemma run_ret {A : Type} (a : A) (s : MemStorage) :
  runState (ret a : M A) s = (a, s).
Proof. reflexivity. Qed.

Lemma run_bind {A B : Type} (c : M A) (k : A -> M B) (s : MemStorage) :
  runState (bind c k) s =
  runState (k (fst (runState c s))) (snd (runState c s)).
Proof. simpl. destruct (runState c s). reflexivity. Qed.

Lemma run_reads {A : Type} (f : MemStorage -> A) (s : MemStorage) :
  runState (reads f) s = (f s, s).
Proof. reflexivity. Qed.

Lemma run_on_table {T A : Type} (view : MemStorage -> Table T)
  (set : Table T -> MemStorage -> MemStorage) (f : Table T -> Table T * A)
  (s : MemStorage) :
  runState (on_table view set f) s =
  (snd (f (view s)), set (fst (f (view s))) s).
Proof.
  unfold on_table. rewrite run_bind. simpl.
  destruct (f (view s)). reflexivity.
Qed.

Arguments on_table {T A} view set f : simpl never.
Arguments reads {A} f : simpl never.

Lemma run_answered {A : Type} (h : M (Response A)) (s : MemStorage) :
  runState (answered h) s =
  (statusCode (fst (runState h s)), snd (runState h s)).
Proof. unfold answered. rewrite run_bind. reflexivity. Qed.

Lemma preserves_ret {A : Type} (P : MemStorage -> Prop) (a : A) :
  preserves P (ret a : M A).
Proof. intros s H. exact H. Qed.

Lemma preserves_bind {A B : Type} (P : MemStorage -> Prop) (c : M A)
  (k : A -> M B) :
  preserves P c -> (forall a, preserves P (k a)) -> preserves P (bind c k).
Proof.
  intros Hc Hk s H. rewrite run_bind. apply Hk. apply Hc. exact H.
Qed.

Lemma preserves_reads {A : Type} (P : MemStorage -> Prop)
  (f : MemStorage -> A) : preserves P (reads f).
Proof. intros s H. exact H. Qed.

Lemma preserves_forEach {A : Type} (P : MemStorage -> Prop) (l : list A)
  (f : A -> M unit) :
  (forall x, preserves P (f x)) -> preserves P (forEach l f).
Proof.
  intros Hf. induction l as [| x l IH]; simpl forEach.
  - apply preserves_ret.
  - apply preserves_bind; [apply Hf | intros _; exact IH].
Qed.

Lemma forEach_cons {A : Type} (x : A) (l : list A) (f : A -> M unit) :
  forEach (x :: l) f = (f x ;; forEach l f).
Proof. reflexivity. Qed.

Lemma preserves_forEachFrom {A : Type} (P : MemStorage -> Prop)
  (l : list A) (f : A -> Z -> M unit) (index : Z) :
  (forall x i, preserves P (f x i)) -> preserves P (forEachFrom index l f).
Proof.
  intros Hf. revert index. induction l as [| x l IH]; intros index;
    simpl forEachFrom.
  - apply preserves_ret.
  - apply preserves_bind; [apply Hf | intros _; apply IH].
Qed.

Lemma preserves_answered {A : Type} (P : MemStorage -> Prop)
  (h : M (Response A)) : preserves P h -> preserves P (answered h).
Proof.
  intros Hh. unfold answered. apply preserves_bind; [exact Hh |].
  intros r. apply preserves_ret.
Qed.

(** ** Tables keep handing out fresh identifiers *)

Section TableFacts.
Context {A : Type}.
Implicit Types (t : Table A).

Lemma tableOk_fresh t : tableOk t -> ~ In (nextId t) (map_keys (entries t)).
Proof.
  intros [_ Hlt] Hin. rewrite Forall_forall in Hlt.
  specialize (Hlt _ Hin). lia.
Qed.

Lemma alloc_entries t (mk : Z -> A) :
  tableOk t ->
  entries (fst (alloc t mk)) = entries t ++ [(nextId t, mk (nextId t))].
Proof.
  intros Hok. unfold alloc. simpl. apply map_set_fresh.
  now apply tableOk_fresh.
Qed.

Lemma alloc_ok t (mk : Z -> A) : tableOk t -> tableOk (fst (alloc t mk)).
Proof.
  intros Hok. pose proof (alloc_entries t mk Hok) as He.
  destruct Hok as [Hnd Hlt]. unfold tableOk. rewrite He.
  unfold map_keys. rewrite map_app. simpl. split.
  - apply NoDup_app; [exact Hnd | repeat constructor; intros [] | ].
    intros k Hin [Hk | []]. subst k.
    rewrite Forall_forall in Hlt. specialize (Hlt _ Hin). lia.
  - apply Forall_app. split.
    + eapply Forall_impl; [| exact Hlt]. simpl. intros. lia.
    + constructor; [lia | constructor].
Qed.

Lemma amend_keys t id (f : A -> A) :
  map_keys (entries (fst (amend t id f))) = map_keys (entries t).
Proof.
  unfold amend. destruct (map_get id (entries t)) eqn:E; simpl.
  - apply map_set_present_keys. eapply map_get_keys. exact E.
  - reflexivity.
Qed.

Lemma amend_nextId t id (f : A -> A) :
  nextId (fst (amend t id f)) = nextId t.
Proof. unfold amend. now destruct (map_get id (entries t)). Qed.

Lemma amend_ok t id (f : A -> A) : tableOk t -> tableOk (fst (amend t id f)).
Proof.
  unfold tableOk. rewrite amend_keys, amend_nextId. tauto.
Qed.

Lemma remove_ok t id : tableOk t -> tableOk (fst (remove t id)).
Proof.
  intros [Hnd Hlt]. unfold remove, tableOk. simpl. split.
  - now apply map_delete_NoDup.
  - rewrite Forall_forall in *. intros k Hin. apply Hlt.
    eapply map_delete_keys_incl. exact Hin.
Qed.

End TableFacts.

(** ** Every storage method keeps the store well formed *)

Create HintDb storeOk.

Ltac on_table_ok :=
  let s := fresh "s" in
  let H := fresh "H" in
  let Hf := fresh "Hf" in
  intros Hf s H; rewrite run_on_table; unfold storeOk in *; simpl;
  intuition auto.

Section OnTableOk.
Context {A : Type}.

Lemma users_ok (f : Table User.t -> Table User.t * A) :
  (forall t, tableOk t -> tableOk (fst (f t))) ->
  preserves storeOk (on_table users set_users f).
Proof. on_table_ok. Qed.

Lemma suppliers_ok (f : Table Supplier.t -> Table Supplier.t * A) :
  (forall t, tableOk t -> tableOk (fst (f t))) ->
  preserves storeOk (on_table suppliers set_suppliers f).
Proof. on_table_ok. Qed.

Lemma products_ok (f : Table Product.t -> Table Product.t * A) :
  (forall t, tableOk t -> tableOk (fst (f t))) ->
  preserves storeOk (on_table products set_products f).
Proof. on_table_ok. Qed.

Lemma requirements_ok (f : Table Requirement.t -> Table Requirement.t * A) :
  (forall t, tableOk t -> tableOk (fst (f t))) ->
  preserves storeOk (on_table requirements set_requirements f).
Proof. on_table_ok. Qed.

Lemma requirementDetails_ok
  (f : Table RequirementDetail.t -> Table RequirementDetail.t * A) :
  (forall t, tableOk t -> tableOk (fst (f t))) ->
  preserves storeOk (on_table requirementDetails set_requirementDetails f).
Proof. on_table_ok. Qed.

Lemma purchaseOrders_ok
  (f : Table PurchaseOrder.t -> Table PurchaseOrder.t * A) :
  (forall t, tableOk t -> tableOk (fst (f t))) ->
  preserves storeOk (on_table purchaseOrders set_purchaseOrders f).
Proof. on_table_ok. Qed.

Lemma purchaseOrderDetails_ok
  (f : Table PurchaseOrderDetail.t -> Table PurchaseOrderDetail.t * A) :
  (forall t, tableOk t -> tableOk (fst (f t))) ->
  preserves storeOk
    (on_table purchaseOrderDetails set_purchaseOrderDetails f).
Proof. on_table_ok. Qed.

Lemma receptions_ok (f : Table Reception.t -> Table Reception.t * A) :
  (forall t, tableOk t -> tableOk (fst (f t))) ->
  preserves storeOk (on_table receptions set_receptions f).
Proof. on_table_ok. Qed.

Lemma receptionDetails_ok
  (f : Table ReceptionDetail.t -> Table ReceptionDetail.t * A) :
  (forall t, tableOk t -> tableOk (fst (f t))) ->
  preserves storeOk (on_table receptionDetails set_receptionDetails f).
Proof. on_table_ok. Qed.

Lemma inventoryMovements_ok
  (f : Table InventoryMovement.t -> Table InventoryMovement.t * A) :
  (forall t, tableOk t -> tableOk (fst (f t))) ->
  preserves storeOk (on_table inventoryMovements set_inventoryMovements f).
Proof. on_table_ok. Qed.

Lemma outputs_ok (f : Table Output.t -> Table Output.t * A) :
  (forall t, tableOk t -> tableOk (fst (f t))) ->
  preserves storeOk (on_table outputs set_outputs f).
Proof. on_table_ok. Qed.

Lemma outputDetails_ok
  (f : Table OutputDetail.t -> Table OutputDetail.t * A) :
  (forall t, tableOk t -> tableOk (fst (f t))) ->
  preserves storeOk (on_table outputDetails set_outputDetails f).
Proof. on_table_ok. Qed.

Lemma invoices_ok (f : Table Invoice.t -> Table Invoice.t * A) :
  (forall t, tableOk t -> tableOk (fst (f t))) ->
  preserves storeOk (on_table invoices set_invoices f).
Proof. on_table_ok. Qed.

Lemma systemActivities_ok
  (f : Table SystemActivity.t -> Table SystemActivity.t * A) :
  (forall t, tableOk t -> tableOk (fst (f t))) ->
  preserves storeOk (on_table systemActivities set_systemActivities f).
Proof. on_table_ok. Qed.

End OnTableOk.

#[export] Hint Resolve users_ok suppliers_ok products_ok requirements_ok
  requirementDetails_ok purchaseOrders_ok purchaseOrderDetails_ok
  receptions_ok receptionDetails_ok inventoryMovements_ok outputs_ok
  outputDetails_ok invoices_ok systemActivities_ok
  alloc_ok amend_ok remove_ok : storeOk.

(** A table step that stores one record under the counter and advances
    the counter, whatever the record is. *)
Lemma store_under_counter_ok {A : Type} (t : Table A) (r : A) :
  tableOk t ->
  tableOk (mkTable (map_set (nextId t) r (entries t)) (nextId t + 1)).
Proof. intros H. exact (alloc_ok t (fun _ => r) H). Qed.

Lemma seedInventoryMovement_ok (im : InsertInventoryMovement.t)
  (createdAt : Z) : preserves storeOk (seedInventoryMovement im createdAt).
Proof.
  unfold seedInventoryMovement. apply inventoryMovements_ok.
  intros t H. simpl. now apply store_under_counter_ok.
Qed.

Lemma seedSystemActivity_ok (a : InsertSystemActivity.t) (createdAt : Z) :
  preserves storeOk (seedSystemActivity a createdAt).
Proof.
  unfold seedSystemActivity. apply systemActivities_ok.
  intros t H. simpl. now apply store_under_counter_ok.
Qed.

(** Walks a handler: binds, branches and loops, leaving the storage
    methods to [tac]. *)
Ltac keeps tac :=
  repeat match goal with
  | |- preserves _ (ret _) => apply preserves_ret
  | |- preserves _ (reads _) => apply preserves_reads
  | |- preserves _ (answered _) => apply preserves_answered
  | |- preserves _ (forEach _ _) => apply preserves_forEach; intros
  | |- preserves _ (forEachFrom _ _ _) => apply preserves_forEachFrom; intros
  | |- preserves _ (bind _ _) => apply preserves_bind; [ | intros ]
  | |- preserves _ (match ?x with _ => _ end) => destruct x
  | |- preserves _ (on_table _ _ _) => solve [tac]
  end.

Ltac unfold_storage :=
  unfold getUser, getUserByUsername, createUser, getUsers,
    getSupplier, getSuppliers, createSupplier, updateSupplier,
    deleteSupplier,
    getProduct, getProductByCode, getProducts, getProductsWithLowStock,
    createProduct, updateProduct, updateProductStock, deleteProduct,
    getRequirement, getRequirementByCode, getRequirements,
    getPendingRequirements, createRequirement, updateRequirement,
    deleteRequirement,
    getRequirementDetails, createRequirementDetail, updateRequirementDetail,
    deleteRequirementDetail,
    getPurchaseOrder, getPurchaseOrderByCode, getPurchaseOrders,
    getActivePurchaseOrders, getDelayedPurchaseOrders, createPurchaseOrder,
    updatePurchaseOrder, deletePurchaseOrder,
    getPurchaseOrderDetails, createPurchaseOrderDetail,
    updatePurchaseOrderDetail, deletePurchaseOrderDetail,
    getReception, getReceptionByCode, getReceptions, getScheduledReceptions,
    createReception, updateReception, deleteReception,
    getReceptionDetails, createReceptionDetail, updateReceptionDetail,
    deleteReceptionDetail,
    getInventoryMovements, getRecentInventoryMovements,
    createInventoryMovement,
    getOutput, getOutputByCode, getOutputs, getPendingOutputs, createOutput,
    updateOutput, deleteOutput,
    getOutputDetails, createOutputDetail, updateOutputDetail,
    deleteOutputDetail,
    getInvoice, getInvoiceByCode, getInvoices, getDueInvoices, createInvoice,
    updateInvoice, deleteInvoice,
    getSystemActivities, createSystemActivity in *.

Ltac unfold_handlers :=
  unfold serve, get_dashboard,
    post_suppliers, put_suppliers, delete_suppliers,
    post_products, put_products, delete_products,
    post_requirements, post_requirement_details, put_requirements,
    post_purchase_orders, post_purchase_order_details, put_purchase_orders,
    post_receptions, post_reception_details, put_receptions,
    post_inventory_movements,
    post_outputs, post_output_details, put_outputs, completeOutputDetail,
    post_invoices, put_invoices, post_activities, logActivity in *.

Lemma serve_ok (request : Request) (now : Z) :
  preserves storeOk (serve request now).
Proof.
  destruct request; unfold_handlers; unfold_storage;
    keeps ltac:(eauto with storeOk).
Qed.

Lemma emptyStorage_ok : storeOk emptyStorage.
Proof.
  unfold storeOk, tableOk, emptyStorage; simpl.
  repeat split; constructor.
Qed.

Lemma constructor_ok (now : Z) : preserves storeOk (constructor now).
Proof.
  unfold constructor, seedInitialData.
  unfold_storage.
  keeps ltac:(eauto with storeOk);
    auto using seedInventoryMovement_ok, seedSystemActivity_ok.
Qed.

Lemma storage_ok (now : Z) : storeOk (storage now).
Proof. apply constructor_ok. apply emptyStorage_ok. Qed.

Lemma reachable_ok (s : MemStorage) : reachable s -> storeOk s.
Proof.
  induction 1 as [now | s request now _ IH].
  - apply storage_ok.
  - unfold after. now apply serve_ok.
Qed.

(** ** Stock bookkeeping of the detail and movement routes *)

Lemma amend_found {A : Type} (t : Table A) (id : Z) (f : A -> A)
  (existing : A) :
  map_get id (entries t) = Some existing ->
  amend t id f =
  (mkTable (map_set id (f existing) (entries t)) (nextId t),
   Some (f existing)).
Proof. intros H. unfold amend. now rewrite H. Qed.

Lemma amend_missing {A : Type} (t : Table A) (id : Z) (f : A -> A) :
  map_get id (entries t) = None -> amend t id f = (t, None).
Proof. intros H. unfold amend. now rewrite H. Qed.

Lemma values_under_counter {A : Type} (t : Table A) (r : A) :
  tableOk t ->
  map_values (map_set (nextId t) r (entries t)) = map_values (entries t) ++ [r].
Proof.
  intros H. rewrite map_set_fresh by now apply tableOk_fresh.
  unfold map_values. now rewrite map_app.
Qed.

Lemma movements_ok (s : MemStorage) :
  reachable s -> tableOk (inventoryMovements s).
Proof. intros H. apply reachable_ok in H. unfold storeOk in H. tauto. Qed.

Lemma receptionDetails_reachable_ok (s : MemStorage) :
  reachable s -> tableOk (receptionDetails s).
Proof. intros H. apply reachable_ok in H. unfold storeOk in H. tauto. Qed.

Lemma outputDetails_reachable_ok (s : MemStorage) :
  reachable s -> tableOk (outputDetails s).
Proof. intros H. apply reachable_ok in H. unfold storeOk in H. tauto. Qed.

Lemma addStock_numeric (q c : float) (p : Product.t) :
  toNumber (Product.currentStock p) = Some c ->
  Product.currentStock (addStock q p) = Num (c + q)%float.
Proof. intros H. unfold addStock, js_add. simpl. now rewrite H. Qed.

(** Symbolic execution of a handler on a store. *)
Ltac run :=
  repeat (rewrite ?run_answered, ?run_bind, ?run_on_table, ?run_ret,
            ?run_reads; cbn).

(** C2 (amended). For an existing reception and an existing product whose
    currentStock holds a number, POST /api/receptions/:id/details with a
    valid body answers 201 with the new detail, which carries the body's
    fields and the reception's id and is appended to the reception details
    under the next identifier.  When the detail's status is 'completed' or
    'partial', the product's currentStock becomes the double-precision sum
    of the old value and quantityReceived, every other product is left as
    it was, and exactly one inventory movement is appended, with quantity
    quantityReceived, movementType 'reception' and the reception as
    reference; for any other status neither the products nor the movements
    change. *)
Theorem reception_detail_books_when_completed_or_partial :
  forall (s : MemStorage) (receptionId : Z) (reception : Reception.t)
         (data : InsertReceptionDetail.t) (now : Z) (p : Product.t)
         (c : float),
    reachable s ->
    map_get receptionId (entries (receptions s)) = Some reception ->
    map_get (InsertReceptionDetail.productId data) (entries (products s))
      = Some p ->
    toNumber (Product.currentStock p) = Some c ->
    exists (detail : ReceptionDetail.t) (s' : MemStorage),
      runState (post_reception_details receptionId (Valid data) now) s
        = (Json 201 detail, s') /\
      detail =
        {| ReceptionDetail.id := nextId (receptionDetails s);
           ReceptionDetail.receptionId := receptionId;
           ReceptionDetail.purchaseOrderDetailId :=
             InsertReceptionDetail.purchaseOrderDetailId data;
           ReceptionDetail.productId := InsertReceptionDetail.productId data;
           ReceptionDetail.quantityExpected :=
             InsertReceptionDetail.quantityExpected data;
           ReceptionDetail.quantityReceived :=
             InsertReceptionDetail.quantityReceived data;
           ReceptionDetail.unit := InsertReceptionDetail.unit data;
           ReceptionDetail.notes := InsertReceptionDetail.notes data;
           ReceptionDetail.status := InsertReceptionDetail.status data |} /\
      map_values (entries (receptionDetails s')) =
        map_values (entries (receptionDetails s)) ++ [detail] /\
      map_get (ReceptionDetail.id detail) (entries (receptionDetails s'))
        = Some detail /\
      (InsertReceptionDetail.status data = "completed"%string \/
       InsertReceptionDetail.status data = "partial"%string ->
       (exists p' : Product.t,
          map_get (InsertReceptionDetail.productId data)
            (entries (products s')) = Some p' /\
          Product.currentStock p' =
            Num (c + InsertReceptionDetail.quantityReceived data)%float) /\
       (forall j : Z,
          j <> InsertReceptionDetail.productId data ->
          map_get j (entries (products s'))
            = map_get j (entries (products s))) /\
       (exists movement : InventoryMovement.t,
          map_values (entries (inventoryMovements s')) =
            map_values (entries (inventoryMovements s)) ++ [movement] /\
          InventoryMovement.productId movement =
            InsertReceptionDetail.productId data /\
          InventoryMovement.quantity movement =
            InsertReceptionDetail.quantityReceived data /\
          InventoryMovement.movementType movement = "reception"%string /\
          InventoryMovement.referenceId movement =
            Some (Reception.id reception) /\
          InventoryMovement.referenceType movement =
            Some "reception"%string)) /\
      (InsertReceptionDetail.status data <> "completed"%string ->
       InsertReceptionDetail.status data <> "partial"%string ->
       products s' = products s /\
       inventoryMovements s' = inventoryMovements s).
Proof.
  intros s receptionId reception data now p c Hs Hr Hp Hc.
  pose proof (movements_ok s Hs) as Hok.
  pose proof (receptionDetails_reachable_ok s Hs) as Hdetails.
  unfold post_reception_details. unfold_storage. run.
  rewrite Hr. run.
  destruct (String.eqb_spec (InsertReceptionDetail.status data) "completed")
    as [Ec | Ec];
    [| destruct (String.eqb_spec (InsertReceptionDetail.status data) "partial")
        as [Ep | Ep] ].
  3: { run. eexists. eexists. split; [reflexivity |].
       split; [reflexivity |]. simpl.
       split; [now apply values_under_counter |].
       split; [apply map_get_set_same |]. split.
       - intros [H | H]; contradiction.
       - intros _ _. split; reflexivity. }
  all: run; rewrite Hp; run; rewrite (amend_found _ _ _ _ Hp); simpl;
    eexists; eexists; (split; [reflexivity |]);
    (split; [reflexivity |]); simpl;
    (split; [now apply values_under_counter |]);
    (split; [apply map_get_set_same |]); split;
    [ intros _; split;
      [ eexists; split; [apply map_get_set_same | now apply addStock_numeric]
      | split;
        [ intros j Hj; now apply map_get_set_other
        | eexists; split; [now apply values_under_counter |];
          simpl; repeat split; reflexivity ] ]
    | intros H1 H2; congruence ].
Qed.

Lemma reception_detail_books_witness :
  let s := storage 0 in
  let data :=
    InsertReceptionDetail.mk 1 None 4 10 0.1 "metro" None "partial" in
  reachable s /\
  map_has 1 (entries (receptions s)) = true /\
  option_map (fun p => toNumber (Product.currentStock p))
    (map_get 4 (entries (products s))) = Some (Some 60%float) /\
  exists (detail : ReceptionDetail.t) (s' : MemStorage) (p' : Product.t),
    runState (post_reception_details 1 (Valid data) 0) s
      = (Json 201 detail, s') /\
    map_values (entries (receptionDetails s')) =
      map_values (entries (receptionDetails s)) ++ [detail] /\
    map_get 4 (entries (products s')) = Some p' /\
    Product.currentStock p' = Num (60 + 0.1)%float.
Proof.
  intros s data.
  assert (Hs : reachable s) by apply reachable_start.
  split; [exact Hs |]. split; [vm_compute; reflexivity |].
  split; [vm_compute; reflexivity |].
  destruct (map_get 1 (entries (receptions s))) as [reception |] eqn:Hr;
    [| vm_compute in Hr; discriminate Hr].
  destruct (map_get 4 (entries (products s))) as [p |] eqn:Hp;
    [| vm_compute in Hp; discriminate Hp].
  assert (Hc : toNumber (Product.currentStock p) = Some 60%float).
  { pose proof Hp as Hp2. vm_compute in Hp2. injection Hp2 as <-.
    reflexivity. }
  destruct (reception_detail_books_when_completed_or_partial
              s 1 reception data 0 p 60%float Hs Hr Hp Hc)
    as (detail & s' & Hrun & _ & Hstored & _ & Hbook & _).
  destruct (Hbook (or_intror eq_refl)) as [(p' & Hp' & Hstock) _].
  exists detail, s', p'. repeat split; assumption.
Defined.

(** C2 (as stated) fails: in the seeded store, reception 3 and product 1
    exist, and a detail with status 'pending' and quantityReceived 10 is
    created with 201 while product 1 keeps its stock of 6 and no movement
    is written. *)
Lemma reception_detail_pending_books_nothing :
  let s := storage 0 in
  let data :=
    InsertReceptionDetail.mk 3 None 1 10 10 "unidad" None "pending" in
  let r := runState (post_reception_details 3 (Valid data) 0) s in
  map_has 3 (entries (receptions s)) = true /\
  option_map Product.currentStock (map_get 1 (entries (products s)))
    = Some (Num 6) /\
  statusCode (fst r) = 201 /\
  option_map Product.currentStock (map_get 1 (entries (products (snd r))))
    = Some (Num 6) /\
  inventoryMovements (snd r) = inventoryMovements s.
Proof. vm_compute. repeat split; reflexivity. Qed.

(** C3 (amended). For an existing output and an existing product whose
    currentStock holds a number, POST /api/outputs/:id/details with a valid
    body answers 201 with the new detail, which carries the body's fields
    and the output's id and is appended to the output details under the
    next identifier.  When the output's status or the detail's status is
    'completed', the product's currentStock becomes the double-precision
    sum of the old value and minus the detail's quantity, every other
    product is left as it was, and exactly one inventory movement is
    appended, with quantity minus the detail's quantity, movementType
    'output' and the output as reference; otherwise neither the products
    nor the movements change. *)
Theorem output_detail_books_when_completed :
  forall (s : MemStorage) (outputId : Z) (output : Output.t)
         (data : InsertOutputDetail.t) (now : Z) (p : Product.t)
         (c : float),
    reachable s ->
    map_get outputId (entries (outputs s)) = Some output ->
    map_get (InsertOutputDetail.productId data) (entries (products s))
      = Some p ->
    toNumber (Product.currentStock p) = Some c ->
    exists (detail : OutputDetail.t) (s' : MemStorage),
      runState (post_output_details outputId (Valid data) now) s
        = (Json 201 detail, s') /\
      detail =
        {| OutputDetail.id := nextId (outputDetails s);
           OutputDetail.outputId := outputId;
           OutputDetail.productId := InsertOutputDetail.productId data;
           OutputDetail.quantity := InsertOutputDetail.quantity data;
           OutputDetail.unit := InsertOutputDetail.unit data;
           OutputDetail.notes := InsertOutputDetail.notes data;
           OutputDetail.status := InsertOutputDetail.status data |} /\
      map_values (entries (outputDetails s')) =
        map_values (entries (outputDetails s)) ++ [detail] /\
      map_get (OutputDetail.id detail) (entries (outputDetails s'))
        = Some detail /\
      (Output.status output = "completed"%string \/
       InsertOutputDetail.status data = "completed"%string ->
       (exists p' : Product.t,
          map_get (InsertOutputDetail.productId data)
            (entries (products s')) = Some p' /\
          Product.currentStock p' =
            Num (c + - InsertOutputDetail.quantity data)%float) /\
       (forall j : Z,
          j <> InsertOutputDetail.productId data ->
          map_get j (entries (products s'))
            = map_get j (entries (products s))) /\
       (exists movement : InventoryMovement.t,
          map_values (entries (inventoryMovements s')) =
            map_values (entries (inventoryMovements s)) ++ [movement] /\
          InventoryMovement.productId movement =
            InsertOutputDetail.productId data /\
          InventoryMovement.quantity movement =
            (- InsertOutputDetail.quantity data)%float /\
          InventoryMovement.movementType movement = "output"%string /\
          InventoryMovement.referenceId movement = Some (Output.id output) /\
          InventoryMovement.referenceType movement = Some "output"%string)) /\
      (Output.status output <> "completed"%string ->
       InsertOutputDetail.status data <> "completed"%string ->
       products s' = products s /\
       inventoryMovements s' = inventoryMovements s).
Proof.
  intros s outputId output data now p c Hs Ho Hp Hc.
  pose proof (movements_ok s Hs) as Hok.
  pose proof (outputDetails_reachable_ok s Hs) as Hdetails.
  unfold post_output_details. unfold_storage. run.
  rewrite Ho. run.
  destruct (String.eqb_spec (Output.status output) "completed") as [Eo | Eo];
    [| destruct (String.eqb_spec (InsertOutputDetail.status data) "completed")
        as [Ed | Ed] ].
  3: { run. eexists. eexists. split; [reflexivity |].
       split; [reflexivity |]. simpl.
       split; [now apply values_under_counter |].
       split; [apply map_get_set_same |]. split.
       - intros [H | H]; contradiction.
       - intros _ _. split; reflexivity. }
  all: run; rewrite Hp; run; rewrite (amend_found _ _ _ _ Hp); simpl;
    eexists; eexists; (split; [reflexivity |]);
    (split; [reflexivity |]); simpl;
    (split; [now apply values_under_counter |]);
    (split; [apply map_get_set_same |]); split;
    [ intros _; split;
      [ eexists; split; [apply map_get_set_same | now apply addStock_numeric]
      | split;
        [ intros j Hj; now apply map_get_set_other
        | eexists; split; [now apply values_under_counter |];
          simpl; repeat split; reflexivity ] ]
    | intros H1 H2; congruence ].
Qed.

Lemma output_detail_books_witness :
  let s := storage 0 in
  let data := InsertOutputDetail.mk 3 1 0.1 "unidad" None "completed" in
  reachable s /\
  map_has 3 (entries (outputs s)) = true /\
  option_map (fun p => toNumber (Product.currentStock p))
    (map_get 1 (entries (products s))) = Some (Some 6%float) /\
  exists (detail : OutputDetail.t) (s' : MemStorage) (p' : Product.t),
    runState (post_output_details 3 (Valid data) 0) s
      = (Json 201 detail, s') /\
    map_values (entries (outputDetails s')) =
      map_values (entries (outputDetails s)) ++ [detail] /\
    map_get 1 (entries (products s')) = Some p' /\
    Product.currentStock p' = Num (6 + - 0.1)%float.
Proof.
  intros s data.
  assert (Hs : reachable s) by apply reachable_start.
  split; [exact Hs |]. split; [vm_compute; reflexivity |].
  split; [vm_compute; reflexivity |].
  destruct (map_get 3 (entries (outputs s))) as [output |] eqn:Ho;
    [| vm_compute in Ho; discriminate Ho].
  destruct (map_get 1 (entries (products s))) as [p |] eqn:Hp;
    [| vm_compute in Hp; discriminate Hp].
  assert (Hc : toNumber (Product.currentStock p) = Some 6%float).
  { pose proof Hp as Hp2. vm_compute in Hp2. injection Hp2 as <-.
    reflexivity. }
  destruct (output_detail_books_when_completed
              s 3 output data 0 p 6%float Hs Ho Hp Hc)
    as (detail & s' & Hrun & _ & Hstored & _ & Hbook & _).
  destruct (Hbook (or_intror eq_refl)) as [(p' & Hp' & Hstock) _].
  exists detail, s', p'. repeat split; assumption.
Defined.

(** C3 (as stated) fails: in the seeded store, output 3 (status 'pending')
    and product 1 exist, and a detail with status 'pending' and quantity 2
    is created with 201 while product 1 keeps its stock of 6 and no
    movement is written. *)
Lemma output_detail_pending_books_nothing :
  let s := storage 0 in
  let data := InsertOutputDetail.mk 3 1 2 "unidad" None "pending" in
  let r := runState (post_output_details 3 (Valid data) 0) s in
  map_has 3 (entries (outputs s)) = true /\
  option_map Product.currentStock (map_get 1 (entries (products s)))
    = Some (Num 6) /\
  statusCode (fst r) = 201 /\
  option_map Product.currentStock (map_get 1 (entries (products (snd r))))
    = Some (Num 6) /\
  inventoryMovements (snd r) = inventoryMovements s.
Proof. vm_compute. repeat split; reflexivity. Qed.

(** X4. For an existing product whose currentStock holds a number, POST
    /api/inventory/movements with a valid body answers 201, appends one
    movement carrying the body's product and quantity, stores the
    double-precision sum of the old stock and the signed quantity, and
    leaves every other product as it was. *)
Theorem inventory_movement_books_signed_quantity :
  forall (s : MemStorage) (validatedData : InsertInventoryMovement.t)
         (now : Z) (p : Product.t) (c : float),
    reachable s ->
    map_get (InsertInventoryMovement.productId validatedData)
      (entries (products s)) = Some p ->
    toNumber (Product.currentStock p) = Some c ->
    exists (movement : InventoryMovement.t) (s' : MemStorage)
           (p' : Product.t),
      runState (post_inventory_movements (Valid validatedData) now) s
        = (Json 201 movement, s') /\
      map_values (entries (inventoryMovements s')) =
        map_values (entries (inventoryMovements s)) ++ [movement] /\
      InventoryMovement.productId movement =
        InsertInventoryMovement.productId validatedData /\
      InventoryMovement.quantity movement =
        InsertInventoryMovement.quantity validatedData /\
      map_get (InsertInventoryMovement.productId validatedData)
        (entries (products s')) = Some p' /\
      Product.currentStock p' =
        Num (c + InsertInventoryMovement.quantity validatedData)%float /\
      (forall j : Z,
         j <> InsertInventoryMovement.productId validatedData ->
         map_get j (entries (products s')) = map_get j (entries (products s))).
Proof.
  intros s validatedData now p c Hs Hp Hc.
  pose proof (movements_ok s Hs) as Hok.
  unfold post_inventory_movements, logActivity. unfold_storage. run.
  rewrite (amend_found _ _ _ _ Hp). simpl.
  eexists. eexists. eexists. split; [reflexivity |]. simpl.
  split; [now apply values_under_counter |].
  split; [reflexivity |]. split; [reflexivity |].
  split; [apply map_get_set_same |].
  split; [now apply addStock_numeric |].
  intros j Hj. now apply map_get_set_other.
Qed.

Lemma inventory_movement_books_witness :
  let s := storage 0 in
  let validatedData :=
    InsertInventoryMovement.mk 2 (-0.3) "metro" "adjustment" None None None
      None in
  reachable s /\
  option_map (fun p => toNumber (Product.currentStock p))
    (map_get 2 (entries (products s))) = Some (Some 90%float) /\
  exists (movement : InventoryMovement.t) (s' : MemStorage)
         (p' : Product.t),
    runState (post_inventory_movements (Valid validatedData) 0) s
      = (Json 201 movement, s') /\
    map_get 2 (entries (products s')) = Some p' /\
    Product.currentStock p' = Num (90 + - 0.3)%float.
Proof.
  intros s validatedData.
  assert (Hs : reachable s) by apply reachable_start.
  split; [exact Hs |]. split; [vm_compute; reflexivity |].
  destruct (map_get 2 (entries (products s))) as [p |] eqn:Hp;
    [| vm_compute in Hp; discriminate Hp].
  assert (Hc : toNumber (Product.currentStock p) = Some 90%float).
  { pose proof Hp as Hp2. vm_compute in Hp2. injection Hp2 as <-.
    reflexivity. }
  destruct (inventory_movement_books_signed_quantity
              s validatedData 0 p 90%float Hs Hp Hc)
    as (movement & s' & p' & Hrun & _ & _ & _ & Hp' & Hstock & _).
  exists movement, s', p'. repeat split; assumption.
Defined.

Lemma inventory_movement_keeps_other_products :
  forall (s : MemStorage) (validatedData : InsertInventoryMovement.t)
         (now : Z) (j : Z),
    j <> InsertInventoryMovement.productId validatedData ->
    map_get j
      (entries
         (products
            (snd (runState
                    (post_inventory_movements (Valid validatedData) now) s))))
    = map_get j (entries (products s)).
Proof.
  intros s validatedData now j Hj.
  unfold post_inventory_movements, logActivity. unfold_storage. run.
  unfold amend.
  destruct (map_get (InsertInventoryMovement.productId validatedData) _);
    simpl; [now apply map_get_set_other | reflexivity].
Qed.

(** C4 (the code departs from the claim). A product created through POST
    /api/products with a body that has no currentStock key is stored, under
    id 6, without that property: createProduct copies the body and does not
    apply the column's default of 0.  A valid movement of quantity 5 for
    this existing product is answered 201 and appended, every other product
    keeps its stock, but the product's currentStock becomes NaN: it is
    neither raised by 5 nor, after a second movement of -5, lowered. *)
Theorem inventory_movement_on_product_without_stock :
  let product :=
    InsertProduct.mk "X-1" "Producto" None "General" "unidad" None None
      None None None in
  let s := after (POST_products (Valid product)) 0 (storage 0) in
  let validatedData :=
    InsertInventoryMovement.mk 6 5 "unidad" "adjustment" None None None
      None in
  let r := runState (post_inventory_movements (Valid validatedData) 0) s in
  let back :=
    InsertInventoryMovement.mk 6 (-5) "unidad" "adjustment" None None None
      None in
  let r' :=
    runState (post_inventory_movements (Valid back) 0) (snd r) in
  reachable s /\
  option_map Product.currentStock (map_get 6 (entries (products s)))
    = Some Undefined /\
  statusCode (fst r) = 201 /\
  List.length (map_values (entries (inventoryMovements (snd r)))) =
    S (List.length (map_values (entries (inventoryMovements s)))) /\
  option_map Product.currentStock (map_get 6 (entries (products (snd r))))
    = Some (Num nan) /\
  statusCode (fst r') = 201 /\
  option_map Product.currentStock (map_get 6 (entries (products (snd r'))))
    = Some (Num nan) /\
  (forall j : Z,
     j <> 6 ->
     map_get j (entries (products (snd r)))
       = map_get j (entries (products s))).
Proof.
  intros product s validatedData r back r'.
  split; [apply reachable_request, reachable_start |].
  split; [vm_compute; reflexivity |].
  split; [vm_compute; reflexivity |].
  split; [vm_compute; reflexivity |].
  split; [vm_compute; reflexivity |].
  split; [vm_compute; reflexivity |].
  split; [vm_compute; reflexivity |].
  intros j Hj.
  exact (inventory_movement_keeps_other_products s validatedData 0 j Hj).
Qed.

(** ** Stock and movement history move together *)

Lemma advanced_refl (pid : Z) (s : MemStorage) : advanced pid s s.
Proof.
  intros p c Hp Hc. exists p, [].
  split; [exact Hp | split; [exact Hc | now rewrite app_nil_r]].
Qed.

Lemma advanced_trans (pid : Z) (s1 s2 s3 : MemStorage) :
  advanced pid s1 s2 -> advanced pid s2 s3 -> advanced pid s1 s3.
Proof.
  intros H12 H23 p c Hp Hc.
  destruct (H12 p c Hp Hc) as (p2 & b2 & Hp2 & Hc2 & E2).
  destruct (H23 p2 _ Hp2 Hc2) as (p3 & b3 & Hp3 & Hc3 & E3).
  exists p3, (b2 ++ b3). split; [exact Hp3 |]. split.
  - now rewrite fold_left_app.
  - now rewrite E3, E2, app_assoc.
Qed.

(** The product keeps its stock and no movement is written. *)
Lemma advanced_kept (pid : Z) (s s' : MemStorage) :
  (forall p : Product.t,
     map_get pid (entries (products s)) = Some p ->
     exists p' : Product.t,
       map_get pid (entries (products s')) = Some p' /\
       Product.currentStock p' = Product.currentStock p) ->
  inventoryMovements s' = inventoryMovements s ->
  advanced pid s s'.
Proof.
  intros Hkeep Hm p c Hp Hc. destruct (Hkeep p Hp) as (p' & Hp' & E).
  exists p', []. split; [exact Hp' |]. split.
  - now rewrite E.
  - unfold movementQuantities. now rewrite Hm, app_nil_r.
Qed.

Lemma advanced_same (pid : Z) (s s' : MemStorage) :
  sameStock s s' -> advanced pid s s'.
Proof.
  intros [Hp Hm]. apply advanced_kept; [| exact Hm].
  intros p Hget. exists p. now rewrite Hp.
Qed.

Lemma movementQuantities_appended (pid : Z) (s s' : MemStorage)
  (m : InventoryMovement.t) :
  map_values (entries (inventoryMovements s')) =
    map_values (entries (inventoryMovements s)) ++ [m] ->
  movementQuantities pid s' =
    movementQuantities pid s
    ++ (if InventoryMovement.productId m =? pid
        then [InventoryMovement.quantity m] else []).
Proof.
  intros H. unfold movementQuantities. rewrite H, filter_app, map_app.
  simpl. now destruct (InventoryMovement.productId m =? pid).
Qed.

(** One bookkeeping step: the stock of product [j] is moved by [q] (if
    that product exists) and a movement of [q] for [j] is appended. *)
Lemma advanced_booked (pid : Z) (s s' : MemStorage) (j : Z) (q : float)
  (m : InventoryMovement.t) :
  tableOk (inventoryMovements s) ->
  products s' = fst (amend (products s) j (addStock q)) ->
  entries (inventoryMovements s') =
    map_set (nextId (inventoryMovements s)) m
      (entries (inventoryMovements s)) ->
  InventoryMovement.productId m = j ->
  InventoryMovement.quantity m = q ->
  advanced pid s s'.
Proof.
  intros Hok Hprod Hmov Hj Hq p c Hp Hc.
  assert (Hqs : movementQuantities pid s' =
                movementQuantities pid s
                ++ (if j =? pid then [q] else [])).
  { rewrite (movementQuantities_appended pid s s' m).
    - now rewrite Hj, Hq.
    - rewrite Hmov. now apply values_under_counter. }
  rewrite Hprod, Hqs. destruct (Z.eqb_spec j pid) as [-> | Hne].
  - rewrite (amend_found _ _ _ _ Hp). simpl.
    exists (addStock q p), [q]. split; [apply map_get_set_same |].
    split; [| reflexivity].
    now rewrite (addStock_numeric q c p Hc).
  - exists p, []. split.
    + unfold amend. destruct (map_get j (entries (products s))); simpl;
        [rewrite map_get_set_other by congruence |]; exact Hp.
    + split; [exact Hc | reflexivity].
Qed.

(** Storage methods on the other twelve tables leave the products and the
    movements alone. *)
Ltac on_table_same :=
  let s := fresh "s" in
  let H := fresh "H" in
  intros s H; rewrite run_on_table; exact H.

Section OnTableSame.
Context {A : Type} (s0 : MemStorage).

Lemma users_same (f : Table User.t -> Table User.t * A) :
  preserves (sameStock s0) (on_table users set_users f).
Proof. on_table_same. Qed.

Lemma suppliers_same (f : Table Supplier.t -> Table Supplier.t * A) :
  preserves (sameStock s0) (on_table suppliers set_suppliers f).
Proof. on_table_same. Qed.

Lemma requirements_same
  (f : Table Requirement.t -> Table Requirement.t * A) :
  preserves (sameStock s0) (on_table requirements set_requirements f).
Proof. on_table_same. Qed.

Lemma requirementDetails_same
  (f : Table RequirementDetail.t -> Table RequirementDetail.t * A) :
  preserves (sameStock s0)
    (on_table requirementDetails set_requirementDetails f).
Proof. on_table_same. Qed.

Lemma purchaseOrders_same
  (f : Table PurchaseOrder.t -> Table PurchaseOrder.t * A) :
  preserves (sameStock s0) (on_table purchaseOrders set_purchaseOrders f).
Proof. on_table_same. Qed.

Lemma purchaseOrderDetails_same
  (f : Table PurchaseOrderDetail.t -> Table PurchaseOrderDetail.t * A) :
  preserves (sameStock s0)
    (on_table purchaseOrderDetails set_purchaseOrderDetails f).
Proof. on_table_same. Qed.

Lemma receptions_same (f : Table Reception.t -> Table Reception.t * A) :
  preserves (sameStock s0) (on_table receptions set_receptions f).
Proof. on_table_same. Qed.

Lemma receptionDetails_same
  (f : Table ReceptionDetail.t -> Table ReceptionDetail.t * A) :
  preserves (sameStock s0)
    (on_table receptionDetails set_receptionDetails f).
Proof. on_table_same. Qed.

Lemma outputs_same (f : Table Output.t -> Table Output.t * A) :
  preserves (sameStock s0) (on_table outputs set_outputs f).
Proof. on_table_same. Qed.

Lemma outputDetails_same
  (f : Table OutputDetail.t -> Table OutputDetail.t * A) :
  preserves (sameStock s0) (on_table outputDetails set_outputDetails f).
Proof. on_table_same. Qed.

Lemma invoices_same (f : Table Invoice.t -> Table Invoice.t * A) :
  preserves (sameStock s0) (on_table invoices set_invoices f).
Proof. on_table_same. Qed.

Lemma systemActivities_same
  (f : Table SystemActivity.t -> Table SystemActivity.t * A) :
  preserves (sameStock s0)
    (on_table systemActivities set_systemActivities f).
Proof. on_table_same. Qed.

End OnTableSame.

Create HintDb sameStock.
#[export] Hint Resolve users_same suppliers_same requirements_same
  requirementDetails_same purchaseOrders_same purchaseOrderDetails_same
  receptions_same receptionDetails_same outputs_same outputDetails_same
  invoices_same systemActivities_same : sameStock.

Lemma sameStock_refl (s : MemStorage) : sameStock s s.
Proof. split; reflexivity. Qed.

Lemma post_reception_details_advanced (pid : Z) (s : MemStorage) (id : Z)
  (body : Parsed InsertReceptionDetail.t) (now : Z) :
  tableOk (inventoryMovements s) ->
  advanced pid s (snd (runState (post_reception_details id body now) s)).
Proof.
  intros Hok. unfold post_reception_details. unfold_storage. run.
  destruct (map_get id (entries (receptions s))); run;
    [| apply advanced_refl].
  destruct body as [data |]; run; [| apply advanced_refl].
  destruct (String.eqb (InsertReceptionDetail.status data) "completed"
            || String.eqb (InsertReceptionDetail.status data) "partial");
    run; [| apply advanced_same; split; reflexivity].
  destruct (map_get (InsertReceptionDetail.productId data)
              (entries (products s))) eqn:Hp; run;
    [| apply advanced_same; split; reflexivity].
  eapply advanced_booked; try exact Hok; simpl; reflexivity.
Qed.

Lemma post_output_details_advanced (pid : Z) (s : MemStorage) (id : Z)
  (body : Parsed InsertOutputDetail.t) (now : Z) :
  tableOk (inventoryMovements s) ->
  advanced pid s (snd (runState (post_output_details id body now) s)).
Proof.
  intros Hok. unfold post_output_details. unfold_storage. run.
  destruct (map_get id (entries (outputs s))) as [output |]; run;
    [| apply advanced_refl].
  destruct body as [data |]; run; [| apply advanced_refl].
  destruct (String.eqb (Output.status output) "completed"
            || String.eqb (InsertOutputDetail.status data) "completed");
    run; [| apply advanced_same; split; reflexivity].
  destruct (map_get (InsertOutputDetail.productId data)
              (entries (products s))) eqn:Hp; run;
    [| apply advanced_same; split; reflexivity].
  eapply advanced_booked; try exact Hok; simpl; reflexivity.
Qed.

Lemma post_inventory_movements_advanced (pid : Z) (s : MemStorage)
  (body : Parsed InsertInventoryMovement.t) (now : Z) :
  tableOk (inventoryMovements s) ->
  advanced pid s (snd (runState (post_inventory_movements body now) s)).
Proof.
  intros Hok. unfold post_inventory_movements, logActivity.
  unfold_storage. destruct body as [data |]; run; [| apply advanced_refl].
  eapply advanced_booked; try exact Hok; simpl; reflexivity.
Qed.

Lemma completeOutputDetail_advanced (pid : Z) (s : MemStorage) (id : Z)
  (existingOutput : Output.t) (now : Z) (detail : OutputDetail.t) :
  tableOk (inventoryMovements s) ->
  tableOk (inventoryMovements
             (snd (runState (completeOutputDetail id existingOutput now detail)
                     s))) /\
  advanced pid s
    (snd (runState (completeOutputDetail id existingOutput now detail) s)).
Proof.
  intros Hok. unfold completeOutputDetail. unfold_storage.
  destruct (String.eqb (OutputDetail.status detail) "completed"); run.
  - split; [exact Hok | apply advanced_refl].
  - split; [now apply store_under_counter_ok |].
    eapply advanced_booked; try exact Hok; simpl; reflexivity.
Qed.

Lemma forEach_completeOutputDetail_advanced (pid : Z)
  (details : list OutputDetail.t) (s : MemStorage) (id : Z)
  (existingOutput : Output.t) (now : Z) :
  tableOk (inventoryMovements s) ->
  advanced pid s
    (snd (runState
            (forEach details (completeOutputDetail id existingOutput now)) s)).
Proof.
  revert s. induction details as [| detail details IH]; intros s Hok.
  - apply advanced_refl.
  - rewrite forEach_cons, run_bind.
    destruct (completeOutputDetail_advanced pid s id existingOutput now
                detail Hok) as [Hok' Hb].
    eapply advanced_trans; [exact Hb | now apply IH].
Qed.

Lemma put_outputs_advanced (pid : Z) (s : MemStorage) (id : Z)
  (body : Parsed PartialOutput.t) (now : Z) :
  tableOk (inventoryMovements s) ->
  advanced pid s (snd (runState (put_outputs id body now) s)).
Proof.
  intros Hok. unfold put_outputs, logActivity.
  destruct body as [validatedData |]; cbv iota beta;
    [| apply advanced_refl].
  rewrite run_bind. unfold getOutput. rewrite !run_reads. cbn [fst snd].
  destruct (map_get id (entries (outputs s))) as [existingOutput |];
    [| apply advanced_refl].
  rewrite run_bind.
  match goal with
  | |- advanced pid s (snd (runState ?k (snd (runState ?c s)))) =>
      assert (Hloop : advanced pid s (snd (runState c s)));
      [| eapply advanced_trans; [exact Hloop |];
         generalize (snd (runState c s)) ]
  end.
  - destruct (asksCompleted validatedData
              && negb (String.eqb (Output.status existingOutput) "completed")).
    + rewrite run_bind. unfold getOutputDetails. rewrite run_reads. simpl.
      now apply forEach_completeOutputDetail_advanced.
    + apply advanced_refl.
  - intros s1. apply advanced_same. unfold_storage. run.
    destruct (amend (outputs s1) id (mergeOutput validatedData))
      as [t [output |]]; run; split; reflexivity.
Qed.

(** A new product goes under a fresh identifier, so the products that
    exist keep their stock. *)
Lemma post_products_advanced (pid : Z) (s : MemStorage)
  (body : Parsed InsertProduct.t) (now : Z) :
  tableOk (products s) ->
  advanced pid s (snd (runState (post_products body now) s)).
Proof.
  intros Hok. unfold post_products, logActivity. unfold_storage.
  destruct body as [validatedData |]; run; [| apply advanced_refl].
  apply advanced_kept; [| reflexivity].
  intros p Hp. exists p. split; [| reflexivity]. simpl.
  rewrite map_get_set_other; [exact Hp |].
  intros ->. apply (tableOk_fresh _ Hok). eapply map_get_keys. exact Hp.
Qed.

(** An update of another product, or one whose body has no currentStock
    key, keeps the stock. *)
Lemma put_products_advanced (pid : Z) (s : MemStorage) (id : Z)
  (body : Parsed PartialProduct.t) (now : Z) :
  overwritesStock pid (PUT_products id body) = false ->
  advanced pid s (snd (runState (put_products id body now) s)).
Proof.
  intros Hw. unfold put_products, logActivity. unfold_storage.
  destruct body as [validatedData |]; run; [| apply advanced_refl].
  unfold amend.
  destruct (map_get id (entries (products s))) as [existing |] eqn:Hid;
    run; (apply advanced_kept; [| reflexivity]); intros p Hp; simpl;
    [| now exists p].
  destruct (Z.eqb_spec id pid) as [-> | Hne].
  - rewrite map_get_set_same. eexists. split; [reflexivity |].
    simpl in Hw. rewrite Z.eqb_refl in Hw. simpl in Hw.
    assert (existing = p) as -> by congruence. simpl.
    destruct (PartialProduct.currentStock validatedData);
      [discriminate Hw | reflexivity].
  - exists p. split; [| reflexivity].
    rewrite map_get_set_other by congruence. exact Hp.
Qed.

Lemma delete_products_advanced (pid : Z) (s : MemStorage) (id : Z)
  (now : Z) :
  overwritesStock pid (DELETE_products id) = false ->
  advanced pid s (snd (runState (delete_products id now) s)).
Proof.
  intros Hw. simpl in Hw. apply Z.eqb_neq in Hw.
  unfold delete_products, logActivity. unfold_storage. run.
  destruct (map_get id (entries (products s))) as [product |] eqn:Hid;
    run; [| apply advanced_refl].
  unfold map_has. rewrite Hid. run.
  apply advanced_kept; [| reflexivity].
  intros p Hp. exists p. split; [| reflexivity]. simpl.
  rewrite map_get_delete_other by congruence. exact Hp.
Qed.

Lemma serve_advanced (pid : Z) (s : MemStorage) (request : Request)
  (now : Z) :
  storeOk s ->
  overwritesStock pid request = false ->
  advanced pid s (after request now s).
Proof.
  intros Hok Hw.
  assert (Hmov : tableOk (inventoryMovements s))
    by (unfold storeOk in Hok; tauto).
  assert (Hprod : tableOk (products s)) by (unfold storeOk in Hok; tauto).
  unfold after.
  destruct request; unfold serve; rewrite run_answered; cbn [snd];
    try (apply advanced_same;
         match goal with
         | |- sameStock ?s0 (snd (runState ?c ?s0)) =>
             apply (fun H : preserves (sameStock s0) c =>
                      H s0 (sameStock_refl s0))
         end;
         unfold_handlers; unfold_storage;
         keeps ltac:(eauto with sameStock); fail).
  - now apply post_products_advanced.
  - now apply put_products_advanced.
  - now apply delete_products_advanced.
  - now apply post_reception_details_advanced.
  - now apply post_inventory_movements_advanced.
  - now apply post_output_details_advanced.
  - now apply put_outputs_advanced.
Qed.

Lemma afterAll_reachable (requests : list (Request * Z)) (s : MemStorage) :
  reachable s -> reachable (afterAll requests s).
Proof.
  revert s. induction requests as [| [request now] requests IH];
    intros s Hs; [exact Hs |].
  simpl. apply IH. now apply reachable_request.
Qed.

Lemma afterAll_advanced (pid : Z) (requests : list (Request * Z))
  (s : MemStorage) :
  reachable s ->
  forallb (fun r => negb (overwritesStock pid (fst r))) requests = true ->
  advanced pid s (afterAll requests s).
Proof.
  revert s. induction requests as [| [request now] requests IH];
    intros s Hs Hw; [apply advanced_refl |].
  simpl in Hw. apply andb_true_iff in Hw. destruct Hw as [Hw Hws].
  apply negb_true_iff in Hw. simpl.
  eapply advanced_trans.
  - apply serve_advanced; [now apply reachable_ok | exact Hw].
  - apply IH; [now apply reachable_request | exact Hws].
Qed.

(** C1 (amended). Take a reachable store, a product in it whose
    currentStock holds a number, and any sequence of API requests other
    than a PUT /api/products/:id of that product with a currentStock key
    and the DELETE of that product.  Afterwards the product is still there,
    and the quantities of the movements written for it meanwhile, added one
    after the other in double precision, take both its currentStock and
    the running sum of its movements from their old to their new value; so
    if the two were equal before they are equal after.  They are not equal
    in general. *)
Theorem stock_and_movement_sum_move_together :
  forall (s : MemStorage) (requests : list (Request * Z))
         (productId : Z) (p : Product.t) (c : float),
    reachable s ->
    forallb (fun r => negb (overwritesStock productId (fst r))) requests
      = true ->
    map_get productId (entries (products s)) = Some p ->
    toNumber (Product.currentStock p) = Some c ->
    exists (p' : Product.t) (booked : list float),
      map_get productId (entries (products (afterAll requests s)))
        = Some p' /\
      movementQuantities productId (afterAll requests s) =
        movementQuantities productId s ++ booked /\
      toNumber (Product.currentStock p') =
        Some (fold_left PrimFloat.add booked c) /\
      movementSum productId (afterAll requests s) =
        fold_left PrimFloat.add booked (movementSum productId s) /\
      (c = movementSum productId s ->
       toNumber (Product.currentStock p') =
         Some (movementSum productId (afterAll requests s))).
Proof.
  intros s requests productId p c Hs Hw Hp Hc.
  destruct (afterAll_advanced productId requests s Hs Hw p c Hp Hc)
    as (p' & booked & Hp' & Hc' & Hqs).
  assert (Hsum : movementSum productId (afterAll requests s) =
                 fold_left PrimFloat.add booked (movementSum productId s)).
  { unfold movementSum. now rewrite Hqs, fold_left_app. }
  exists p', booked. split; [exact Hp' |]. split; [exact Hqs |].
  split; [exact Hc' |]. split; [exact Hsum |].
  intros ->. now rewrite Hsum.
Qed.

Lemma stock_and_movement_sum_witness :
  let s := storage 0 in
  let requests :=
    [ (POST_output_details 3
         (Valid (InsertOutputDetail.mk 3 1 0.1 "unidad" None "completed")),
       0);
      (POST_products
         (Valid (InsertProduct.mk "X-1" "Producto" None "General" "unidad"
                   None (Some (Some 7%float)) None None None)), 1);
      (PUT_products 1
         (Valid (PartialProduct.mk None (Some "Tornillo") None None None
                   None None None None None)), 2);
      (POST_inventory_movements
         (Valid (InsertInventoryMovement.mk 1 0.2 "unidad" "adjustment"
                   None None None None)), 3) ] in
  reachable s /\
  forallb (fun r => negb (overwritesStock 1 (fst r))) requests = true /\
  option_map (fun p => toNumber (Product.currentStock p))
    (map_get 1 (entries (products s))) = Some (Some 6%float) /\
  exists (p' : Product.t) (booked : list float),
    map_get 1 (entries (products (afterAll requests s))) = Some p' /\
    movementQuantities 1 (afterAll requests s) =
      movementQuantities 1 s ++ booked /\
    toNumber (Product.currentStock p') =
      Some (fold_left PrimFloat.add booked 6%float) /\
    movementSum 1 (afterAll requests s) =
      fold_left PrimFloat.add booked (movementSum 1 s).
Proof.
  intros s requests.
  assert (Hs : reachable s) by apply reachable_start.
  split; [exact Hs |]. split; [reflexivity |].
  split; [vm_compute; reflexivity |].
  destruct (map_get 1 (entries (products s))) as [p |] eqn:Hp;
    [| vm_compute in Hp; discriminate Hp].
  assert (Hc : toNumber (Product.currentStock p) = Some 6%float).
  { pose proof Hp as Hp2. vm_compute in Hp2. injection Hp2 as <-.
    reflexivity. }
  destruct (stock_and_movement_sum_move_together
              s requests 1 p 6%float Hs eq_refl Hp Hc)
    as (p' & booked & Hp' & Hqs & Hc' & Hsum & _).
  exists p', booked. repeat split; assumption.
Defined.

(** C1 (as stated) fails in the store the server starts with: product 1
    exists with currentStock 6 while its only movement is one of -2, so
    the running sum of its movements is -2. *)
Lemma seeded_stock_differs_from_movement_sum :
  let s := storage 0 in
  reachable s /\
  option_map Product.currentStock (map_get 1 (entries (products s)))
    = Some (Num 6) /\
  movementSum 1 s = (-2)%float /\
  (6 =? -2)%float = false.
Proof.
  split; [apply reachable_start |].
  split; [vm_compute; reflexivity |].
  split; [vm_compute; reflexivity |].
  reflexivity.
Qed.

(** ** Validation failures *)

(** C5 (amended). A create or update request whose body fails validation
    leaves the store exactly as it was (no entity, no activity record), and
    is answered 400, except that the four detail-creation routes look the
    parent up first and answer 404 when the store does not hold it. *)
Theorem rejected_body_leaves_store_unchanged :
  forall (request : Request) (now : Z) (s : MemStorage),
    rejected request = true ->
    runState (serve request now) s =
    ((if parentMissing request s then 404 else 400), s).
Proof.
  intros request now s H.
  destruct request as
    [ body | id body | id | body | id body | id | body | id body | id body
    | body | id body | id body | body | id body | id body | body | body
    | id body | id body | body | id body | body ];
    try discriminate H; destruct body; try discriminate H;
    unfold serve; unfold_handlers; unfold_storage; run; try reflexivity;
    unfold map_has;
    match goal with
    | |- context [map_get ?k ?m] => destruct (map_get k m); reflexivity
    end.
Qed.

Lemma rejected_body_witness :
  rejected (PUT_suppliers 1 ZodError) = true /\
  runState (serve (PUT_suppliers 1 ZodError) 0) (storage 0)
    = (400, storage 0).
Proof.
  split; [reflexivity |].
  exact (rejected_body_leaves_store_unchanged
           (PUT_suppliers 1 ZodError) 0 (storage 0) eq_refl).
Defined.

(** C5 (as stated) fails: POST /api/receptions/999/details with a body
    that fails validation is answered 404, not 400, because the seeded
    store holds no reception 999 and the handler checks that first. *)
Lemma rejected_detail_of_missing_parent_is_404 :
  rejected (POST_reception_details 999 ZodError) = true /\
  map_get 999 (entries (receptions (storage 0))) = None /\
  fst (runState (serve (POST_reception_details 999 ZodError) 0) (storage 0))
    = 404.
Proof. vm_compute. repeat split; reflexivity. Qed.

(** ** Dashboard counters *)

Section Counting.
Context {A : Type} (f : A -> bool).

Lemma filtered_keys_NoDup (m : JsMap A) :
  NoDup (map_keys m) ->
  NoDup (List.map fst (filter (fun kv => f (snd kv)) m)).
Proof.
  induction m as [| [k v] m IH]; simpl; intros Hnd; [constructor |].
  inversion Hnd as [| ? ? Hnotin Hnd']; subst.
  destruct (f v); simpl; [| now apply IH].
  constructor; [| now apply IH].
  intros Hin. apply Hnotin. apply in_map_iff in Hin.
  destruct Hin as ([k' v'] & Hk & Hin). simpl in Hk. subst k'.
  apply filter_In in Hin. destruct Hin as [Hin _].
  now apply (in_map fst) in Hin.
Qed.

Lemma filtered_values_length (m : JsMap A) :
  List.length (List.map fst (filter (fun kv => f (snd kv)) m)) =
  List.length (filter f (map_values m)).
Proof.
  induction m as [| [k v] m IH]; simpl; [reflexivity |].
  destruct (f v); simpl; now rewrite IH.
Qed.

(** The length of a filtered [values()] array is the number of keys whose
    record passes the filter. *)
Lemma filter_values_cardinality (m : JsMap A) :
  NoDup (map_keys m) ->
  cardinality (fun id => exists r, map_get id m = Some r /\ f r = true)
    (List.length (filter f (map_values m))).
Proof.
  intros Hnd. exists (List.map fst (filter (fun kv => f (snd kv)) m)).
  split; [now apply filtered_keys_NoDup |].
  split; [| apply filtered_values_length].
  intros id. split.
  - intros Hin. apply in_map_iff in Hin.
    destruct Hin as ([k v] & Hk & Hin). simpl in Hk. subst k.
    apply filter_In in Hin. destruct Hin as [Hin Hf]. simpl in Hf.
    exists v. split; [now apply In_map_get | exact Hf].
  - intros (r & Hget & Hf). apply in_map_iff. exists (id, r).
    split; [reflexivity |]. apply filter_In. split; [| exact Hf].
    now apply map_get_In.
Qed.

End Counting.

Lemma cardinality_ext {A : Type} (P Q : A -> Prop) (n : nat) :
  (forall x, P x <-> Q x) -> cardinality P n -> cardinality Q n.
Proof.
  intros HPQ (l & Hnd & Hin & Hlen). exists l. repeat split; try assumption.
  - intros H. apply HPQ, Hin, H.
  - intros H. apply Hin, HPQ, H.
Qed.

Lemma isActiveStatus_spec (status : string) :
  isActiveStatus status = true <->
  status = "pending"%string \/ status = "confirmed"%string.
Proof.
  unfold isActiveStatus. simpl. rewrite !orb_true_iff, !String.eqb_eq.
  intuition discriminate.
Qed.

(** C7. In every reachable store GET /api/dashboard answers 200, leaves
    the store as it is, and reports counts that are the sizes of the
    corresponding sets of records: pendingRequirementsCount is the number
    of requirements with status 'pending', activeOrdersCount the number of
    purchase orders with status 'pending' or 'confirmed', and
    pendingOutputsCount the number of outputs with status 'pending'. *)
Theorem dashboard_counts_are_set_sizes :
  forall (s : MemStorage) (now : Z),
    reachable s ->
    exists d : Dashboard.t,
      runState (get_dashboard now) s = (Json 200 d, s) /\
      cardinality
        (fun id => exists r,
           map_get id (entries (requirements s)) = Some r /\
           Requirement.status r = "pending"%string)
        (Dashboard.pendingRequirementsCount d) /\
      cardinality
        (fun id => exists o,
           map_get id (entries (purchaseOrders s)) = Some o /\
           (PurchaseOrder.status o = "pending"%string \/
            PurchaseOrder.status o = "confirmed"%string))
        (Dashboard.activeOrdersCount d) /\
      cardinality
        (fun id => exists o,
           map_get id (entries (outputs s)) = Some o /\
           Output.status o = "pending"%string)
        (Dashboard.pendingOutputsCount d).
Proof.
  intros s now Hs. apply reachable_ok in Hs.
  destruct Hs as (_ & _ & _ & [Hreq _] & _ & [Hpo _] & _ & _ & _ & _
                  & [Hout _] & _).
  unfold get_dashboard. unfold_storage. run.
  eexists. split; [reflexivity |]. cbn. repeat split.
  - eapply cardinality_ext; [| now apply filter_values_cardinality].
    intros id. cbn. split; intros (r & Hget & H); exists r;
      (split; [exact Hget |]); now apply String.eqb_eq.
  - eapply cardinality_ext; [| now apply filter_values_cardinality].
    intros id. cbn. split; intros (r & Hget & H); exists r;
      (split; [exact Hget |]); now apply isActiveStatus_spec.
  - eapply cardinality_ext; [| now apply filter_values_cardinality].
    intros id. cbn. split; intros (r & Hget & H); exists r;
      (split; [exact Hget |]); now apply String.eqb_eq.
Qed.

Lemma dashboard_counts_witness :
  reachable (storage 0) /\
  exists d : Dashboard.t,
    runState (get_dashboard 0) (storage 0) = (Json 200 d, storage 0) /\
    Dashboard.pendingRequirementsCount d = 1%nat /\
    Dashboard.activeOrdersCount d = 2%nat /\
    Dashboard.pendingOutputsCount d = 1%nat.
Proof.
  split; [apply reachable_start |].
  destruct (dashboard_counts_are_set_sizes (storage 0) 0 (reachable_start 0))
    as (d & Hrun & _).
  exists d. split; [exact Hrun |].
  assert (Hd : fst (runState (get_dashboard 0) (storage 0)) = Json 200 d)
    by now rewrite Hrun.
  vm_compute in Hd. injection Hd as <-. repeat split; reflexivity.
Defined.

(** ** Identifiers *)

Lemma perform_ok (call : Call) (now : Z) :
  preserves storeOk (perform call now).
Proof.
  destruct call; unfold perform; unfold_storage;
    keeps ltac:(eauto with storeOk).
Qed.

Lemma perform_counter (call : Call) (now : Z) (s : MemStorage) (e : Entity) :
  counter e s <= counter e (snd (runState (perform call now) s)).
Proof.
  destruct call; unfold perform; unfold_storage; run;
    destruct e; cbn; rewrite ?amend_nextId; lia.
Qed.

Lemma perform_created (call : Call) (now : Z) (s : MemStorage) (e : Entity)
  (id : Z) :
  fst (runState (perform call now) s) = Some (e, id) ->
  id = counter e s /\
  counter e (snd (runState (perform call now) s)) = id + 1 /\
  In id (ids e (snd (runState (perform call now) s))).
Proof.
  destruct call; unfold perform; unfold_storage; run;
    intros H; try discriminate H; injection H as <- <-; cbn;
    (split; [reflexivity |]); (split; [reflexivity |]);
    eapply map_get_keys; apply map_get_set_same.
Qed.

Lemma entityTag_inj (e e' : Entity) : entityTag e = entityTag e' -> e = e'.
Proof. destruct e, e'; simpl; intros H; (reflexivity || discriminate H). Qed.

Lemma created_cons (e e' : Entity) (id : Z) (log : list (Entity * Z)) :
  created e ((e', id) :: log) =
  if entityTag e' =? entityTag e then id :: created e log
  else created e log.
Proof.
  unfold created. simpl. now destruct (entityTag e' =? entityTag e).
Qed.

Lemma storeOk_ids (s : MemStorage) (e : Entity) :
  storeOk s -> Forall (fun k => k < counter e s) (ids e s).
Proof.
  unfold storeOk, tableOk. intros H. destruct e; cbn; tauto.
Qed.

Lemma run_performAll_cons (call : Call) (now : Z) (rest : list (Call * Z))
  (s : MemStorage) :
  runState (performAll ((call, now) :: rest)) s =
  let r := runState (perform call now) s in
  let r' := runState (performAll rest) (snd r) in
  (match fst r with Some x => x :: fst r' | None => fst r' end, snd r').
Proof.
  cbn [performAll]. rewrite !run_bind, run_ret. reflexivity.
Qed.

(** Along any run of storage calls the counters only grow, and the
    identifiers handed out for an entity type start at its counter and
    increase strictly. *)
Lemma performAll_increasing (calls : list (Call * Z)) (s : MemStorage)
  (e : Entity) :
  counter e s <= counter e (snd (runState (performAll calls) s)) /\
  Forall (fun id => counter e s <= id)
    (created e (fst (runState (performAll calls) s))) /\
  StronglySorted Z.lt (created e (fst (runState (performAll calls) s))).
Proof.
  revert s. induction calls as [| [call now] rest IH]; intros s.
  - cbn. repeat split; [lia | constructor | constructor].
  - rewrite run_performAll_cons. cbn zeta. cbn [fst snd].
    pose proof (perform_counter call now s e) as Hmono.
    pose proof (perform_created call now s) as Hnew.
    destruct (IH (snd (runState (perform call now) s)))
      as (Hc & Hall & Hsorted).
    set (s1 := snd (runState (perform call now) s)) in *.
    set (log := fst (runState (performAll rest) s1)) in *.
    assert (Hrest : counter e s <= counter e (snd (runState (performAll rest) s1))
                    /\ Forall (fun id => counter e s <= id) (created e log)
                    /\ StronglySorted Z.lt (created e log)).
    { split; [lia |]. split; [| exact Hsorted].
      eapply Forall_impl; [| exact Hall]. simpl. intros; lia. }
    destruct (fst (runState (perform call now) s)) as [[e' id] |];
      [| exact Hrest].
    rewrite created_cons.
    destruct (Z.eqb_spec (entityTag e') (entityTag e)) as [Heq | Hne];
      [| exact Hrest].
    apply entityTag_inj in Heq. subst e'.
    destruct (Hnew e id eq_refl) as (Hid & Hnext & _).
    split; [lia |]. split.
    + constructor; [lia | tauto].
    + constructor; [exact Hsorted |].
      eapply Forall_impl; [| exact Hall]. simpl. intros; lia.
Qed.

(** C6. Every create method returns a record whose id is the value of the
    entity type's counter, advances that counter by one and stores the
    record under that id; so, from any reachable store and along any
    sequence of create, update and delete calls, the identifiers handed out
    for one entity type increase strictly (hence are pairwise distinct) and
    exceed every identifier the store held at the start, deleted or
    not. *)
Theorem created_identifiers_increase :
  forall (s : MemStorage) (calls : list (Call * Z)) (e : Entity),
    reachable s ->
    (forall (call : Call) (now : Z) (s0 : MemStorage) (id : Z),
       fst (runState (perform call now) s0) = Some (e, id) ->
       id = counter e s0 /\
       counter e (snd (runState (perform call now) s0)) = id + 1 /\
       In id (ids e (snd (runState (perform call now) s0)))) /\
    StronglySorted Z.lt (created e (fst (runState (performAll calls) s))) /\
    Forall (fun id => forall k, In k (ids e s) -> k < id)
      (created e (fst (runState (performAll calls) s))).
Proof.
  intros s calls e Hs. split; [| split].
  - intros call now s0 id. apply perform_created.
  - apply performAll_increasing.
  - destruct (performAll_increasing calls s e) as (_ & Hall & _).
    pose proof (storeOk_ids s e (reachable_ok s Hs)) as Hids.
    rewrite Forall_forall in Hids.
    eapply Forall_impl; [| exact Hall]. simpl.
    intros id Hid k Hk. specialize (Hids k Hk). simpl in Hids. lia.
Qed.

Lemma created_identifiers_witness :
  let calls :=
    [ (CreateSupplier
         (InsertSupplier.mk "A" None None None None None None "active"), 1);
      (DeleteSupplier 4, 2);
      (CreateSupplier
         (InsertSupplier.mk "B" None None None None None None "active"), 3) ]
  in
  reachable (storage 0) /\
  created ESupplier (fst (runState (performAll calls) (storage 0))) = [4; 5] /\
  StronglySorted Z.lt
    (created ESupplier (fst (runState (performAll calls) (storage 0)))).
Proof.
  intros calls. split; [apply reachable_start |].
  split; [vm_compute; reflexivity |].
  exact (proj1 (proj2 (created_identifiers_increase
                         (storage 0) calls ESupplier (reachable_start 0)))).
Defined.

(** ** Reachable stock below zero, and a detail booked twice *)

(** C9. updateProductStock sets no lower bound: in the seeded store,
    product 1 has a currentStock of 6, which is not negative; creating a
    'completed' detail of quantity 100, more than that stock, under
    output 3 is answered 201 and leaves the product's currentStock at the
    old value minus the quantity, -94, which is strictly negative. *)
Theorem completed_output_detail_can_drive_stock_negative :
  exists (s : MemStorage) (outputId : Z) (data : InsertOutputDetail.t)
         (now : Z) (p p' : Product.t) (c c' : float) (detail : OutputDetail.t)
         (s' : MemStorage),
    reachable s /\
    map_get (InsertOutputDetail.productId data) (entries (products s))
      = Some p /\
    Product.currentStock p = Num c /\
    (0 <=? c)%float = true /\
    InsertOutputDetail.status data = "completed"%string /\
    (c <? InsertOutputDetail.quantity data)%float = true /\
    runState (post_output_details outputId (Valid data) now) s
      = (Json 201 detail, s') /\
    map_values (entries (outputDetails s')) =
      map_values (entries (outputDetails s)) ++ [detail] /\
    map_get (InsertOutputDetail.productId data) (entries (products s'))
      = Some p' /\
    Product.currentStock p' = Num c' /\
    c' = (c - InsertOutputDetail.quantity data)%float /\
    (c' <? 0)%float = true.
Proof.
  exists (storage 0), 3,
    (InsertOutputDetail.mk 3 1 100 "unidad" None "completed"), 0.
  do 6 eexists.
  split; [apply reachable_start |].
  split; [vm_compute; reflexivity |].
  split; [reflexivity |]. split; [reflexivity |].
  split; [reflexivity |]. split; [reflexivity |].
  split; [vm_compute; reflexivity |].
  split; [vm_compute; reflexivity |].
  split; [vm_compute; reflexivity |].
  split; [reflexivity |].
  split; reflexivity.
Qed.

(** C8 (the code at the failing input). Starting from the seeded store:
    a 'pending' detail of quantity 5 for product 4 is added to output 1,
    which is 'completed', so the stock of product 4 drops from 60 to 55
    while the detail stays 'pending'; the output is then set back to
    'pending' and again to 'completed', and the same detail is booked a
    second time: the stock drops to 50 and a second movement of -5 is
    written for output 1. *)
Theorem output_detail_booked_at_creation_and_at_completion :
  let stock := fun s : MemStorage =>
    option_map Product.currentStock (map_get 4 (entries (products s))) in
  let detailStatus := fun s : MemStorage =>
    option_map OutputDetail.status (map_get 5 (entries (outputDetails s))) in
  let booked := fun s : MemStorage =>
    List.map InventoryMovement.quantity
      (filter (fun m => (InventoryMovement.productId m =? 4) &&
                        String.eqb (InventoryMovement.movementType m) "output")
         (map_values (entries (inventoryMovements s)))) in
  let setStatus := fun status : string =>
    PartialOutput.mk None None None (Some status) None None None in
  let s0 := storage 0 in
  let s1 :=
    after (POST_output_details 1
             (Valid (InsertOutputDetail.mk 1 4 5 "metro" None "pending")))
      0 s0 in
  let s2 := after (PUT_outputs 1 (Valid (setStatus "pending"))) 0 s1 in
  let s3 := after (PUT_outputs 1 (Valid (setStatus "completed"))) 0 s2 in
  (stock s0 = Some (Num 60) /\ booked s0 = [(-5)%float]) /\
  (stock s1 = Some (Num 55) /\ booked s1 = [(-5)%float; (-5)%float] /\
   detailStatus s1 = Some "pending"%string) /\
  (stock s2 = Some (Num 55) /\ detailStatus s2 = Some "pending"%string) /\
  (stock s3 = Some (Num 50) /\
   booked s3 = [(-5)%float; (-5)%float; (-5)%float] /\
   detailStatus s3 = Some "completed"%string) /\
  List.map OutputDetail.id
    (filter (fun d => OutputDetail.outputId d =? 1)
       (map_values (entries (outputDetails s3)))) = [1; 5].
Proof. vm_compute. repeat split; reflexivity. Qed.

(** ** Partial updates *)

Lemma amend_overwrites {T P : Type} (view : MemStorage -> Table T)
  (set : Table T -> MemStorage -> MemStorage) (merge : P -> T -> T) :
  (forall t s, view (set t s) = t) ->
  overwrites view set
    (fun id patch => on_table view set (fun t => amend t id (merge patch)))
    merge.
Proof.
  intros Hview s id patch existing Hget.
  rewrite run_on_table, (amend_found _ _ _ _ Hget). cbn [fst snd].
  eexists. split; [reflexivity |]. rewrite Hview. cbn [entries nextId].
  split; [apply map_get_set_same |].
  split; [intros j Hj; now apply map_get_set_other |].
  split; [apply map_set_present_keys; eapply map_get_keys; exact Hget |].
  split; reflexivity.
Qed.

(** C10. Each of the eleven update methods (updateSupplier, updateProduct,
    updateRequirement and those of the details, purchase orders,
    receptions, outputs and invoices), given the id of an existing record
    and a partial body, returns and stores under that id the record in
    which every field is the body's value when the body has the key and
    the existing value otherwise ([spread]), with the id and createdAt of
    the existing record; every other record of the table, the order of its
    keys, its counter and every other table stay as they were. *)
Theorem partial_updates_overwrite_present_fields :
  ((forall (A : Type) (existing : A), spread existing None = existing) /\
   (forall (A : Type) (existing v : A), spread existing (Some v) = v)) /\
  (overwrites suppliers set_suppliers updateSupplier mergeSupplier /\
   forall (patch : PartialSupplier.t) (existing : Supplier.t),
     let r := mergeSupplier patch existing in
     Supplier.id r =
       Supplier.id existing /\
     Supplier.name r =
       spread (Supplier.name existing) (PartialSupplier.name patch) /\
     Supplier.contact r =
       spread (Supplier.contact existing) (PartialSupplier.contact patch) /\
     Supplier.email r =
       spread (Supplier.email existing) (PartialSupplier.email patch) /\
     Supplier.phone r =
       spread (Supplier.phone existing) (PartialSupplier.phone patch) /\
     Supplier.address r =
       spread (Supplier.address existing) (PartialSupplier.address patch) /\
     Supplier.taxId r =
       spread (Supplier.taxId existing) (PartialSupplier.taxId patch) /\
     Supplier.notes r =
       spread (Supplier.notes existing) (PartialSupplier.notes patch) /\
     Supplier.status r =
       spread (Supplier.status existing) (PartialSupplier.status patch) /\
     Supplier.createdAt r =
       Supplier.createdAt existing) /\
  (overwrites products set_products updateProduct mergeProduct /\
   forall (patch : PartialProduct.t) (existing : Product.t),
     let r := mergeProduct patch existing in
     Product.id r =
       Product.id existing /\
     Product.code r =
       spread (Product.code existing) (PartialProduct.code patch) /\
     Product.name r =
       spread (Product.name existing) (PartialProduct.name patch) /\
     Product.description r =
       spread (Product.description existing)
         (PartialProduct.description patch) /\
     Product.category r =
       spread (Product.category existing) (PartialProduct.category patch) /\
     Product.unit r =
       spread (Product.unit existing) (PartialProduct.unit patch) /\
     Product.minStock r =
       spread (Product.minStock existing)
         (option_map nullableNumber (PartialProduct.minStock patch)) /\
     Product.currentStock r =
       spread (Product.currentStock existing)
         (option_map nullableNumber (PartialProduct.currentStock patch)) /\
     Product.location r =
       spread (Product.location existing) (PartialProduct.location patch) /\
     Product.cost r =
       spread (Product.cost existing) (PartialProduct.cost patch) /\
     Product.supplierId r =
       spread (Product.supplierId existing) (PartialProduct.supplierId patch) /\
     Product.createdAt r =
       Product.createdAt existing) /\
  (overwrites requirements set_requirements
     updateRequirement mergeRequirement /\
   forall (patch : PartialRequirement.t) (existing : Requirement.t),
     let r := mergeRequirement patch existing in
     Requirement.id r =
       Requirement.id existing /\
     Requirement.code r =
       spread (Requirement.code existing) (PartialRequirement.code patch) /\
     Requirement.title r =
       spread (Requirement.title existing) (PartialRequirement.title patch) /\
     Requirement.requestorId r =
       spread (Requirement.requestorId existing)
         (option_map Some (PartialRequirement.requestorId patch)) /\
     Requirement.departmentId r =
       spread (Requirement.departmentId existing)
         (option_map Some (PartialRequirement.departmentId patch)) /\
     Requirement.status r =
       spread (Requirement.status existing) (PartialRequirement.status patch) /\
     Requirement.priority r =
       spread (Requirement.priority existing)
         (PartialRequirement.priority patch) /\
     Requirement.notes r =
       spread (Requirement.notes existing)
         (option_map Some (PartialRequirement.notes patch)) /\
     Requirement.dueDate r =
       spread (Requirement.dueDate existing)
         (option_map Some (PartialRequirement.dueDate patch)) /\
     Requirement.createdAt r =
       Requirement.createdAt existing) /\
  (overwrites requirementDetails set_requirementDetails
     updateRequirementDetail mergeRequirementDetail /\
   forall (patch : PartialRequirementDetail.t) (existing : RequirementDetail.t),
     let r := mergeRequirementDetail patch existing in
     RequirementDetail.id r =
       RequirementDetail.id existing /\
     RequirementDetail.requirementId r =
       spread (RequirementDetail.requirementId existing)
         (PartialRequirementDetail.requirementId patch) /\
     RequirementDetail.productId r =
       spread (RequirementDetail.productId existing)
         (PartialRequirementDetail.productId patch) /\
     RequirementDetail.quantity r =
       spread (RequirementDetail.quantity existing)
         (PartialRequirementDetail.quantity patch) /\
     RequirementDetail.unit r =
       spread (RequirementDetail.unit existing)
         (PartialRequirementDetail.unit patch) /\
     RequirementDetail.notes r =
       spread (RequirementDetail.notes existing)
         (PartialRequirementDetail.notes patch) /\
     RequirementDetail.status r =
       spread (RequirementDetail.status existing)
         (PartialRequirementDetail.status patch)) /\
  (overwrites purchaseOrders set_purchaseOrders
     updatePurchaseOrder mergePurchaseOrder /\
   forall (patch : PartialPurchaseOrder.t) (existing : PurchaseOrder.t),
     let r := mergePurchaseOrder patch existing in
     PurchaseOrder.id r =
       PurchaseOrder.id existing /\
     PurchaseOrder.code r =
       spread (PurchaseOrder.code existing) (PartialPurchaseOrder.code patch) /\
     PurchaseOrder.title r =
       spread (PurchaseOrder.title existing)
         (PartialPurchaseOrder.title patch) /\
     PurchaseOrder.supplierId r =
       spread (PurchaseOrder.supplierId existing)
         (PartialPurchaseOrder.supplierId patch) /\
     PurchaseOrder.requirementId r =
       spread (PurchaseOrder.requirementId existing)
         (PartialPurchaseOrder.requirementId patch) /\
     PurchaseOrder.status r =
       spread (PurchaseOrder.status existing)
         (PartialPurchaseOrder.status patch) /\
     PurchaseOrder.totalAmount r =
       spread (PurchaseOrder.totalAmount existing)
         (PartialPurchaseOrder.totalAmount patch) /\
     PurchaseOrder.currency r =
       spread (PurchaseOrder.currency existing)
         (PartialPurchaseOrder.currency patch) /\
     PurchaseOrder.notes r =
       spread (PurchaseOrder.notes existing)
         (PartialPurchaseOrder.notes patch) /\
     PurchaseOrder.expectedDeliveryDate r =
       spread (PurchaseOrder.expectedDeliveryDate existing)
         (PartialPurchaseOrder.expectedDeliveryDate patch) /\
     PurchaseOrder.createdBy r =
       spread (PurchaseOrder.createdBy existing)
         (PartialPurchaseOrder.createdBy patch) /\
     PurchaseOrder.createdAt r =
       PurchaseOrder.createdAt existing) /\
  (overwrites purchaseOrderDetails set_purchaseOrderDetails
     updatePurchaseOrderDetail mergePurchaseOrderDetail /\
   forall (patch : PartialPurchaseOrderDetail.t) (existing : PurchaseOrderDetail.t),
     let r := mergePurchaseOrderDetail patch existing in
     PurchaseOrderDetail.id r =
       PurchaseOrderDetail.id existing /\
     PurchaseOrderDetail.purchaseOrderId r =
       spread (PurchaseOrderDetail.purchaseOrderId existing)
         (PartialPurchaseOrderDetail.purchaseOrderId patch) /\
     PurchaseOrderDetail.productId r =
       spread (PurchaseOrderDetail.productId existing)
         (PartialPurchaseOrderDetail.productId patch) /\
     PurchaseOrderDetail.quantity r =
       spread (PurchaseOrderDetail.quantity existing)
         (PartialPurchaseOrderDetail.quantity patch) /\
     PurchaseOrderDetail.unit r =
       spread (PurchaseOrderDetail.unit existing)
         (PartialPurchaseOrderDetail.unit patch) /\
     PurchaseOrderDetail.unitPrice r =
       spread (PurchaseOrderDetail.unitPrice existing)
         (PartialPurchaseOrderDetail.unitPrice patch) /\
     PurchaseOrderDetail.totalPrice r =
       spread (PurchaseOrderDetail.totalPrice existing)
         (PartialPurchaseOrderDetail.totalPrice patch) /\
     PurchaseOrderDetail.notes r =
       spread (PurchaseOrderDetail.notes existing)
         (PartialPurchaseOrderDetail.notes patch)) /\
  (overwrites receptions set_receptions updateReception mergeReception /\
   forall (patch : PartialReception.t) (existing : Reception.t),
     let r := mergeReception patch existing in
     Reception.id r =
       Reception.id existing /\
     Reception.code r =
       spread (Reception.code existing) (PartialReception.code patch) /\
     Reception.purchaseOrderId r =
       spread (Reception.purchaseOrderId existing)
         (PartialReception.purchaseOrderId patch) /\
     Reception.supplierId r =
       spread (Reception.supplierId existing)
         (PartialReception.supplierId patch) /\
     Reception.status r =
       spread (Reception.status existing) (PartialReception.status patch) /\
     Reception.notes r =
       spread (Reception.notes existing) (PartialReception.notes patch) /\
     Reception.receivedBy r =
       spread (Reception.receivedBy existing)
         (PartialReception.receivedBy patch) /\
     Reception.receivedAt r =
       spread (Reception.receivedAt existing)
         (option_map Some (PartialReception.receivedAt patch)) /\
     Reception.createdAt r =
       Reception.createdAt existing) /\
  (overwrites receptionDetails set_receptionDetails
     updateReceptionDetail mergeReceptionDetail /\
   forall (patch : PartialReceptionDetail.t) (existing : ReceptionDetail.t),
     let r := mergeReceptionDetail patch existing in
     ReceptionDetail.id r =
       ReceptionDetail.id existing /\
     ReceptionDetail.receptionId r =
       spread (ReceptionDetail.receptionId existing)
         (PartialReceptionDetail.receptionId patch) /\
     ReceptionDetail.purchaseOrderDetailId r =
       spread (ReceptionDetail.purchaseOrderDetailId existing)
         (PartialReceptionDetail.purchaseOrderDetailId patch) /\
     ReceptionDetail.productId r =
       spread (ReceptionDetail.productId existing)
         (PartialReceptionDetail.productId patch) /\
     ReceptionDetail.quantityExpected r =
       spread (ReceptionDetail.quantityExpected existing)
         (PartialReceptionDetail.quantityExpected patch) /\
     ReceptionDetail.quantityReceived r =
       spread (ReceptionDetail.quantityReceived existing)
         (PartialReceptionDetail.quantityReceived patch) /\
     ReceptionDetail.unit r =
       spread (ReceptionDetail.unit existing)
         (PartialReceptionDetail.unit patch) /\
     ReceptionDetail.notes r =
       spread (ReceptionDetail.notes existing)
         (PartialReceptionDetail.notes patch) /\
     ReceptionDetail.status r =
       spread (ReceptionDetail.status existing)
         (PartialReceptionDetail.status patch)) /\
  (overwrites outputs set_outputs updateOutput mergeOutput /\
   forall (patch : PartialOutput.t) (existing : Output.t),
     let r := mergeOutput patch existing in
     Output.id r =
       Output.id existing /\
     Output.code r =
       spread (Output.code existing) (PartialOutput.code patch) /\
     Output.destination r =
       spread (Output.destination existing) (PartialOutput.destination patch) /\
     Output.destinationType r =
       spread (Output.destinationType existing)
         (PartialOutput.destinationType patch) /\
     Output.status r =
       spread (Output.status existing) (PartialOutput.status patch) /\
     Output.notes r =
       spread (Output.notes existing) (PartialOutput.notes patch) /\
     Output.requestedBy r =
       spread (Output.requestedBy existing) (PartialOutput.requestedBy patch) /\
     Output.approvedBy r =
       spread (Output.approvedBy existing) (PartialOutput.approvedBy patch) /\
     Output.createdAt r =
       Output.createdAt existing) /\
  (overwrites outputDetails set_outputDetails
     updateOutputDetail mergeOutputDetail /\
   forall (patch : PartialOutputDetail.t) (existing : OutputDetail.t),
     let r := mergeOutputDetail patch existing in
     OutputDetail.id r =
       OutputDetail.id existing /\
     OutputDetail.outputId r =
       spread (OutputDetail.outputId existing)
         (PartialOutputDetail.outputId patch) /\
     OutputDetail.productId r =
       spread (OutputDetail.productId existing)
         (PartialOutputDetail.productId patch) /\
     OutputDetail.quantity r =
       spread (OutputDetail.quantity existing)
         (PartialOutputDetail.quantity patch) /\
     OutputDetail.unit r =
       spread (OutputDetail.unit existing) (PartialOutputDetail.unit patch) /\
     OutputDetail.notes r =
       spread (OutputDetail.notes existing) (PartialOutputDetail.notes patch) /\
     OutputDetail.status r =
       spread (OutputDetail.status existing)
         (PartialOutputDetail.status patch)) /\
  (overwrites invoices set_invoices updateInvoice mergeInvoice /\
   forall (patch : PartialInvoice.t) (existing : Invoice.t),
     let r := mergeInvoice patch existing in
     Invoice.id r =
       Invoice.id existing /\
     Invoice.code r =
       spread (Invoice.code existing) (PartialInvoice.code patch) /\
     Invoice.supplierInvoiceNumber r =
       spread (Invoice.supplierInvoiceNumber existing)
         (PartialInvoice.supplierInvoiceNumber patch) /\
     Invoice.supplierId r =
       spread (Invoice.supplierId existing) (PartialInvoice.supplierId patch) /\
     Invoice.purchaseOrderId r =
       spread (Invoice.purchaseOrderId existing)
         (PartialInvoice.purchaseOrderId patch) /\
     Invoice.amount r =
       spread (Invoice.amount existing) (PartialInvoice.amount patch) /\
     Invoice.currency r =
       spread (Invoice.currency existing) (PartialInvoice.currency patch) /\
     Invoice.status r =
       spread (Invoice.status existing) (PartialInvoice.status patch) /\
     Invoice.issueDate r =
       spread (Invoice.issueDate existing) (PartialInvoice.issueDate patch) /\
     Invoice.dueDate r =
       spread (Invoice.dueDate existing) (PartialInvoice.dueDate patch) /\
     Invoice.notes r =
       spread (Invoice.notes existing) (PartialInvoice.notes patch) /\
     Invoice.createdAt r =
       Invoice.createdAt existing).
Proof.
  split; [split; reflexivity |].
  repeat match goal with
         | |- _ /\ _ => split
         | |- overwrites _ _ _ _ =>
             apply amend_overwrites; intros; reflexivity
         | |- forall _, _ => intros; cbv zeta; cbn
         end; reflexivity.
Qed.

Lemma partial_updates_witness :
  let patch :=
    PartialSupplier.mk None (Some (Some "Ana")) None None None None None
      (Some "inactive") in
  exists (existing : Supplier.t) (s' : MemStorage),
    map_get 1 (entries (suppliers (storage 0))) = Some existing /\
    runState (updateSupplier 1 patch) (storage 0)
      = (Some (mergeSupplier patch existing), s') /\
    Supplier.name (mergeSupplier patch existing) = Supplier.name existing /\
    Supplier.contact (mergeSupplier patch existing) = Some "Ana"%string /\
    Supplier.status (mergeSupplier patch existing) = "inactive"%string /\
    map_get 2 (entries (suppliers s'))
      = map_get 2 (entries (suppliers (storage 0))).
Proof.
  intros patch.
  destruct (map_get 1 (entries (suppliers (storage 0))))
    as [existing |] eqn:Hget; [| vm_compute in Hget; discriminate Hget].
  destruct (proj1 (proj1 (proj2 partial_updates_overwrite_present_fields))
              (storage 0) 1 patch existing Hget)
    as (s' & Hrun & _ & Hother & _).
  exists existing, s'. split; [reflexivity |]. split; [exact Hrun |].
  split; [reflexivity |]. split; [reflexivity |]. split; [reflexivity |].
  apply Hother. discriminate.
Defined.

(** ** Records sit under their own id *)

Section KeyedFacts.
Context {A : Type} (idOf : A -> Z).

Lemma map_set_In (m : JsMap A) (k j : Z) (v r : A) :
  In (j, r) (map_set k v m) -> (j, r) = (k, v) \/ In (j, r) m.
Proof.
  induction m as [| [k' v'] m IH]; simpl.
  - intros [H | []]. left. now symmetry.
  - destruct (k =? k'); simpl.
    + intros [H | H]; [left; now symmetry | right; now right].
    + intros [H | H]; [right; now left |].
      destruct (IH H) as [E | Hin]; [now left | right; now right].
Qed.

Lemma map_delete_In (m : JsMap A) (k j : Z) (r : A) :
  In (j, r) (map_delete k m) -> In (j, r) m.
Proof.
  induction m as [| [k' v'] m IH]; simpl; [intros [] |].
  destruct (k =? k'); simpl.
  - intros H. now right.
  - intros [H | H]; [now left | right; now apply IH].
Qed.

Lemma alloc_keyed (t : Table A) (mk : Z -> A) :
  (forall id, idOf (mk id) = id) ->
  keyed idOf t -> keyed idOf (fst (alloc t mk)).
Proof.
  intros Hmk Ht k r Hin. unfold alloc in Hin. simpl in Hin.
  apply map_set_In in Hin. destruct Hin as [[= -> ->] | Hin].
  - apply Hmk.
  - now apply Ht.
Qed.

Lemma amend_keyed (t : Table A) (id : Z) (f : A -> A) :
  (forall r, idOf (f r) = idOf r) ->
  keyed idOf t -> keyed idOf (fst (amend t id f)).
Proof.
  intros Hf Ht k r Hin. unfold amend in Hin.
  destruct (map_get id (entries t)) as [existing |] eqn:Hget; simpl in Hin;
    [| now apply Ht].
  apply map_set_In in Hin. destruct Hin as [[= -> ->] | Hin].
  - rewrite Hf. apply Ht. now apply map_get_In.
  - now apply Ht.
Qed.

Lemma remove_keyed (t : Table A) (id : Z) :
  keyed idOf t -> keyed idOf (fst (remove t id)).
Proof.
  intros Ht k r Hin. unfold remove in Hin. simpl in Hin.
  apply Ht. eapply map_delete_In. exact Hin.
Qed.

Lemma store_under_counter_keyed (t : Table A) (r : A) :
  idOf r = nextId t ->
  keyed idOf t ->
  keyed idOf (mkTable (map_set (nextId t) r (entries t)) (nextId t + 1)).
Proof.
  intros Hr Ht k r' Hin. simpl in Hin.
  apply map_set_In in Hin. destruct Hin as [[= -> ->] | Hin].
  - exact Hr.
  - now apply Ht.
Qed.

End KeyedFacts.

Create HintDb storeKeyed.

Ltac on_table_keyed :=
  let s := fresh "s" in
  let H := fresh "H" in
  let Hf := fresh "Hf" in
  intros Hf s H; rewrite run_on_table; unfold storeKeyed in *; cbn;
  intuition auto.

Section OnTableKeyed.
Context {A : Type}.

Lemma users_keyed (f : Table User.t -> Table User.t * A) :
  (forall t, keyed User.id t -> keyed User.id (fst (f t))) ->
  preserves storeKeyed (on_table users set_users f).
Proof. on_table_keyed. Qed.

Lemma suppliers_keyed (f : Table Supplier.t -> Table Supplier.t * A) :
  (forall t, keyed Supplier.id t -> keyed Supplier.id (fst (f t))) ->
  preserves storeKeyed (on_table suppliers set_suppliers f).
Proof. on_table_keyed. Qed.

Lemma products_keyed (f : Table Product.t -> Table Product.t * A) :
  (forall t, keyed Product.id t -> keyed Product.id (fst (f t))) ->
  preserves storeKeyed (on_table products set_products f).
Proof. on_table_keyed. Qed.

Lemma requirements_keyed
  (f : Table Requirement.t -> Table Requirement.t * A) :
  (forall t, keyed Requirement.id t -> keyed Requirement.id (fst (f t))) ->
  preserves storeKeyed (on_table requirements set_requirements f).
Proof. on_table_keyed. Qed.

Lemma requirementDetails_keyed
  (f : Table RequirementDetail.t -> Table RequirementDetail.t * A) :
  (forall t, keyed RequirementDetail.id t ->
             keyed RequirementDetail.id (fst (f t))) ->
  preserves storeKeyed (on_table requirementDetails set_requirementDetails f).
Proof. on_table_keyed. Qed.

Lemma purchaseOrders_keyed
  (f : Table PurchaseOrder.t -> Table PurchaseOrder.t * A) :
  (forall t, keyed PurchaseOrder.id t -> keyed PurchaseOrder.id (fst (f t))) ->
  preserves storeKeyed (on_table purchaseOrders set_purchaseOrders f).
Proof. on_table_keyed. Qed.

Lemma purchaseOrderDetails_keyed
  (f : Table PurchaseOrderDetail.t -> Table PurchaseOrderDetail.t * A) :
  (forall t, keyed PurchaseOrderDetail.id t ->
             keyed PurchaseOrderDetail.id (fst (f t))) ->
  preserves storeKeyed
    (on_table purchaseOrderDetails set_purchaseOrderDetails f).
Proof. on_table_keyed. Qed.

Lemma receptions_keyed (f : Table Reception.t -> Table Reception.t * A) :
  (forall t, keyed Reception.id t -> keyed Reception.id (fst (f t))) ->
  preserves storeKeyed (on_table receptions set_receptions f).
Proof. on_table_keyed. Qed.

Lemma receptionDetails_keyed
  (f : Table ReceptionDetail.t -> Table ReceptionDetail.t * A) :
  (forall t, keyed ReceptionDetail.id t ->
             keyed ReceptionDetail.id (fst (f t))) ->
  preserves storeKeyed (on_table receptionDetails set_receptionDetails f).
Proof. on_table_keyed. Qed.

Lemma inventoryMovements_keyed
  (f : Table InventoryMovement.t -> Table InventoryMovement.t * A) :
  (forall t, keyed InventoryMovement.id t ->
             keyed InventoryMovement.id (fst (f t))) ->
  preserves storeKeyed (on_table inventoryMovements set_inventoryMovements f).
Proof. on_table_keyed. Qed.

Lemma outputs_keyed (f : Table Output.t -> Table Output.t * A) :
  (forall t, keyed Output.id t -> keyed Output.id (fst (f t))) ->
  preserves storeKeyed (on_table outputs set_outputs f).
Proof. on_table_keyed. Qed.

Lemma outputDetails_keyed
  (f : Table OutputDetail.t -> Table OutputDetail.t * A) :
  (forall t, keyed OutputDetail.id t -> keyed OutputDetail.id (fst (f t))) ->
  preserves storeKeyed (on_table outputDetails set_outputDetails f).
Proof. on_table_keyed. Qed.

Lemma invoices_keyed (f : Table Invoice.t -> Table Invoice.t * A) :
  (forall t, keyed Invoice.id t -> keyed Invoice.id (fst (f t))) ->
  preserves storeKeyed (on_table invoices set_invoices f).
Proof. on_table_keyed. Qed.

Lemma systemActivities_keyed
  (f : Table SystemActivity.t -> Table SystemActivity.t * A) :
  (forall t, keyed SystemActivity.id t ->
             keyed SystemActivity.id (fst (f t))) ->
  preserves storeKeyed (on_table systemActivities set_systemActivities f).
Proof. on_table_keyed. Qed.

End OnTableKeyed.

#[export] Hint Resolve users_keyed suppliers_keyed products_keyed
  requirements_keyed requirementDetails_keyed purchaseOrders_keyed
  purchaseOrderDetails_keyed receptions_keyed receptionDetails_keyed
  inventoryMovements_keyed outputs_keyed outputDetails_keyed invoices_keyed
  systemActivities_keyed alloc_keyed amend_keyed remove_keyed : storeKeyed.
#[export] Hint Extern 1 (_ = _) => reflexivity : storeKeyed.

Lemma serve_keyed (request : Request) (now : Z) :
  preserves storeKeyed (serve request now).
Proof.
  destruct request; unfold_handlers; unfold_storage;
    keeps ltac:(eauto with storeKeyed).
Qed.

Lemma seedInventoryMovement_keyed (im : InsertInventoryMovement.t)
  (createdAt : Z) : preserves storeKeyed (seedInventoryMovement im createdAt).
Proof.
  unfold seedInventoryMovement. apply inventoryMovements_keyed.
  intros t H. cbn. apply store_under_counter_keyed; [cbn; lia | exact H].
Qed.

Lemma seedSystemActivity_keyed (a : InsertSystemActivity.t) (createdAt : Z) :
  preserves storeKeyed (seedSystemActivity a createdAt).
Proof.
  unfold seedSystemActivity. apply systemActivities_keyed.
  intros t H. cbn. apply store_under_counter_keyed; [cbn; lia | exact H].
Qed.

Lemma constructor_keyed (now : Z) : preserves storeKeyed (constructor now).
Proof.
  unfold constructor, seedInitialData. unfold_storage.
  keeps ltac:(eauto with storeKeyed);
    auto using seedInventoryMovement_keyed, seedSystemActivity_keyed.
Qed.

Lemma reachable_keyed (s : MemStorage) : reachable s -> storeKeyed s.
Proof.
  induction 1 as [now | s request now _ IH].
  - apply constructor_keyed. unfold storeKeyed, keyed, emptyStorage. cbn.
    repeat split; intros k r [].
  - unfold after. now apply serve_keyed.
Qed.

(** X1. In every reachable store a lookup by id, in any of the fourteen
    maps, returns a record whose own id field is that id: the create
    methods, the seeding idiom and the updates never store a record under
    another key. *)
Theorem lookup_returns_record_with_that_id :
  forall s : MemStorage,
    reachable s ->
    (forall k r, map_get k (entries (users s)) = Some r -> User.id r = k) /\
    (forall k r,
       map_get k (entries (suppliers s)) = Some r -> Supplier.id r = k) /\
    (forall k r,
       map_get k (entries (products s)) = Some r -> Product.id r = k) /\
    (forall k r,
       map_get k (entries (requirements s)) = Some r ->
       Requirement.id r = k) /\
    (forall k r,
       map_get k (entries (requirementDetails s)) = Some r ->
       RequirementDetail.id r = k) /\
    (forall k r,
       map_get k (entries (purchaseOrders s)) = Some r ->
       PurchaseOrder.id r = k) /\
    (forall k r,
       map_get k (entries (purchaseOrderDetails s)) = Some r ->
       PurchaseOrderDetail.id r = k) /\
    (forall k r,
       map_get k (entries (receptions s)) = Some r -> Reception.id r = k) /\
    (forall k r,
       map_get k (entries (receptionDetails s)) = Some r ->
       ReceptionDetail.id r = k) /\
    (forall k r,
       map_get k (entries (inventoryMovements s)) = Some r ->
       InventoryMovement.id r = k) /\
    (forall k r,
       map_get k (entries (outputs s)) = Some r -> Output.id r = k) /\
    (forall k r,
       map_get k (entries (outputDetails s)) = Some r ->
       OutputDetail.id r = k) /\
    (forall k r,
       map_get k (entries (invoices s)) = Some r -> Invoice.id r = k) /\
    (forall k r,
       map_get k (entries (systemActivities s)) = Some r ->
       SystemActivity.id r = k).
Proof.
  intros s Hs. apply reachable_keyed in Hs. unfold storeKeyed, keyed in Hs.
  repeat split; intros k r Hget; apply map_get_In in Hget;
    intuition auto.
Qed.

Lemma lookup_returns_record_witness :
  reachable (after (POST_suppliers
                      (Valid (InsertSupplier.mk "A" None None None None None
                                None "active"))) 5 (storage 0)) /\
  forall k r,
    map_get k
      (entries (suppliers
                  (after (POST_suppliers
                            (Valid (InsertSupplier.mk "A" None None None None
                                      None None "active"))) 5 (storage 0))))
      = Some r ->
    Supplier.id r = k.
Proof.
  assert (H : reachable
                (after (POST_suppliers
                          (Valid (InsertSupplier.mk "A" None None None None
                                    None None "active"))) 5 (storage 0)))
    by apply reachable_request, reachable_start.
  split; [exact H |].
  exact (proj1 (proj2 (lookup_returns_record_with_that_id _ H))).
Defined.

(** ** Failed requests and the status codes *)

Lemma store_eta (s : MemStorage) :
  mkStore (users s) (suppliers s) (products s) (requirements s)
    (requirementDetails s) (purchaseOrders s) (purchaseOrderDetails s)
    (receptions s) (receptionDetails s) (inventoryMovements s) (outputs s)
    (outputDetails s) (invoices s) (systemActivities s) = s.
Proof. now destruct s. Qed.

(** The completion loop of PUT /api/outputs/:id writes to the products,
    the output details and the movements, and to nothing else. *)
Lemma completion_loop_touches_three_tables (details : list OutputDetail.t)
  (s : MemStorage) (id : Z) (existingOutput : Output.t) (now : Z) :
  exists tp td tm,
    snd (runState
           (forEach details (completeOutputDetail id existingOutput now)) s)
    = set_inventoryMovements tm (set_outputDetails td (set_products tp s)).
Proof.
  revert s. induction details as [| detail details IH]; intros s.
  - exists (products s), (outputDetails s), (inventoryMovements s).
    cbn. now destruct s.
  - rewrite forEach_cons, run_bind.
    destruct (IH (snd (runState
                         (completeOutputDetail id existingOutput now detail)
                         s))) as (tp & td & tm & E).
    rewrite E. exists tp, td, tm.
    unfold completeOutputDetail. unfold_storage.
    destruct (negb (String.eqb (OutputDetail.status detail) "completed"));
      run; reflexivity.
Qed.

Lemma put_outputs_existing (s : MemStorage) (id : Z)
  (validatedData : PartialOutput.t) (now : Z) (existingOutput : Output.t) :
  map_get id (entries (outputs s)) = Some existingOutput ->
  exists tp td tm mk,
    (forall i, SystemActivity.createdAt (mk i) = now) /\
    runState (put_outputs id (Valid validatedData) now) s =
    (Json 200 (mergeOutput validatedData existingOutput),
     set_systemActivities (fst (alloc (systemActivities s) mk))
       (set_outputs
          (mkTable
             (map_set id (mergeOutput validatedData existingOutput)
                (entries (outputs s)))
             (nextId (outputs s)))
          (set_inventoryMovements tm
             (set_outputDetails td (set_products tp s))))) /\
    snd (runState
           (if asksCompleted validatedData
               && negb (String.eqb (Output.status existingOutput) "completed")
            then
              forEach
                (filter (fun detail => OutputDetail.outputId detail =? id)
                   (map_values (entries (outputDetails s))))
                (completeOutputDetail id existingOutput now)
            else ret tt) s)
    = set_inventoryMovements tm (set_outputDetails td (set_products tp s)).
Proof.
  intros Hget. unfold put_outputs, logActivity. cbv iota beta.
  rewrite run_bind. unfold getOutput. rewrite !run_reads. cbn [fst snd].
  rewrite Hget. rewrite run_bind.
  match goal with
  | |- context [snd (runState ?c s)] =>
      assert (Hloop : exists tp td tm,
                 snd (runState c s) =
                 set_inventoryMovements tm
                   (set_outputDetails td (set_products tp s)))
  end.
  { destruct (asksCompleted validatedData
              && negb (String.eqb (Output.status existingOutput) "completed")).
    - rewrite run_bind. unfold getOutputDetails. rewrite run_reads.
      cbn [fst snd]. apply completion_loop_touches_three_tables.
    - exists (products s), (outputDetails s), (inventoryMovements s).
      cbn. now destruct s. }
  destruct Hloop as (tp & td & tm & E). exists tp, td, tm.
  exists (fun i =>
    {| SystemActivity.id := i;
       SystemActivity.userId := Some 1;
       SystemActivity.activityType := "update";
       SystemActivity.description :=
         ("Actualizó salida "
            ++ Output.code (mergeOutput validatedData existingOutput))%string;
       SystemActivity.entityType := "output";
       SystemActivity.entityId :=
         Some (Output.id (mergeOutput validatedData existingOutput));
       SystemActivity.createdAt := now |}).
  split; [| split].
  2: rewrite E.
  2: unfold_storage; run; unfold amend; rewrite !Hget; run; reflexivity.
  - intros i. reflexivity.
  - destruct (asksCompleted validatedData
              && negb (String.eqb (Output.status existingOutput) "completed"));
      [| exact E].
    rewrite run_bind in E. unfold getOutputDetails in E.
    rewrite run_reads in E. exact E.
Qed.

Ltac split_lookups :=
  repeat match goal with
  | |- context [amend ?t ?id ?f] =>
      unfold amend; destruct (map_get id (entries t)) eqn:?; run
  | |- context [match map_get ?k ?m with _ => _ end] =>
      destruct (map_get k m) eqn:?; run
  | |- context [map_has ?k ?m] =>
      unfold map_has; destruct (map_get k m) eqn:?; run
  | |- context [if ?b then _ else _] => destruct b eqn:?; run
  end.

Ltac each_request request :=
  destruct request as
    [ body | id body | id | body | id body | id | body | id body | id body
    | body | id body | id body | body | id body | id body | body | body
    | id body | id body | body | id body | body ];
  try destruct body as [validatedData |].

(** Puts the characterisation of a valid PUT /api/outputs/:id in place of
    the handler, for an output the store holds or not. *)
Ltac put_outputs_cases :=
  lazymatch goal with
  | |- context [runState (serve (PUT_outputs ?id (Valid ?v)) ?now) ?s] =>
      let o := fresh "o" in
      let Ho := fresh "Ho" in
      let E := fresh "E" in
      unfold serve; rewrite run_answered; cbn [fst snd];
      destruct (map_get id (entries (outputs s))) as [o |] eqn:Ho;
      [ destruct (put_outputs_existing s id v now o Ho)
          as (?tp & ?td & ?tm & ?mk & ?Hmk & E & ?Hloop);
        rewrite E; cbn [fst snd statusCode]
      | unfold put_outputs; unfold_storage; run; rewrite Ho; run ]
  end.

(** X2. A request answered 400 or 404 leaves the whole store as it was:
    whatever the route, a rejected body, a missing parent and a missing
    record are all detected before anything is written. *)
Theorem failed_request_changes_nothing :
  forall (request : Request) (now : Z) (s : MemStorage),
    fst (runState (serve request now) s) = 400 \/
    fst (runState (serve request now) s) = 404 ->
    snd (runState (serve request now) s) = s.
Proof.
  intros request now s. each_request request;
    try (put_outputs_cases;
         [intros [H | H]; discriminate H | intros _; reflexivity]).
  all: unfold serve; unfold_handlers; unfold_storage; run; split_lookups;
    try (intros [H | H]; discriminate H);
    try (intros _; reflexivity);
    intros _; apply store_eta.
Qed.


Lemma failed_request_witness :
  let request :=
    PUT_suppliers 99
      (Valid (PartialSupplier.mk None (Some (Some "Ana")) None None None None
                None None)) in
  fst (runState (serve request 5) (storage 0)) = 404 /\
  snd (runState (serve request 5) (storage 0)) = storage 0.
Proof.
  intros request.
  assert (H : fst (runState (serve request 5) (storage 0)) = 404)
    by (vm_compute; reflexivity).
  split; [exact H |].
  exact (failed_request_changes_nothing request 5 (storage 0) (or_intror H)).
Defined.

(** ** Create and delete methods *)

Lemma map_get_delete_same {A : Type} (m : JsMap A) (k : Z) :
  NoDup (map_keys m) -> map_get k (map_delete k m) = None.
Proof.
  induction m as [| [k' v'] m IH]; simpl; [reflexivity |].
  intros Hnd. inversion Hnd as [| ? ? Hnotin Hnd']; subst.
  destruct (k =? k') eqn:E; simpl.
  - apply Z.eqb_eq in E. subst k'. now apply map_get_None.
  - rewrite E. now apply IH.
Qed.

Lemma alloc_inserts {T I : Type} (view : MemStorage -> Table T)
  (set : Table T -> MemStorage -> MemStorage) (mk : I -> Z -> Z -> T)
  (idOf : T -> Z) :
  (forall t s, view (set t s) = t) ->
  (forall x now id, idOf (mk x now id) = id) ->
  inserts view set
    (fun x now => on_table view set (fun t => alloc t (mk x now))) idOf.
Proof.
  intros Hview Hid s x now Hok.
  rewrite run_on_table. unfold alloc. cbn [fst snd].
  eexists. eexists. split; [reflexivity |]. rewrite Hview, Hid.
  cbn [entries nextId].
  split; [reflexivity |].
  split; [apply map_get_set_same |].
  split; [intros j Hj; now apply map_get_set_other |].
  split; [now apply values_under_counter |].
  split; reflexivity.
Qed.

Lemma remove_removes {T : Type} (view : MemStorage -> Table T)
  (set : Table T -> MemStorage -> MemStorage) :
  (forall t s, view (set t s) = t) ->
  removes view set (fun id => on_table view set (fun t => remove t id)).
Proof.
  intros Hview s id [Hnd _].
  rewrite run_on_table. unfold remove. cbn [fst snd].
  eexists. split; [reflexivity |]. rewrite Hview. cbn [entries nextId].
  split; [now apply map_get_delete_same |].
  split; [intros j Hj; now apply map_get_delete_other |].
  split; reflexivity.
Qed.

(** X5. Each of the fourteen create methods returns a record whose id is
    the table's counter, stores it under that id as the last entry of the
    table, advances the counter by one, and leaves every other record of
    the table and every other table as they were. *)
Theorem create_methods_append_under_the_counter :
  inserts users set_users (fun user _ => createUser user) User.id /\
  inserts suppliers set_suppliers createSupplier Supplier.id /\
  inserts products set_products createProduct Product.id /\
  inserts requirements set_requirements createRequirement Requirement.id /\
  inserts requirementDetails set_requirementDetails
    (fun detail _ => createRequirementDetail detail) RequirementDetail.id /\
  inserts purchaseOrders set_purchaseOrders createPurchaseOrder
    PurchaseOrder.id /\
  inserts purchaseOrderDetails set_purchaseOrderDetails
    (fun detail _ => createPurchaseOrderDetail detail)
    PurchaseOrderDetail.id /\
  inserts receptions set_receptions createReception Reception.id /\
  inserts receptionDetails set_receptionDetails
    (fun detail _ => createReceptionDetail detail) ReceptionDetail.id /\
  inserts inventoryMovements set_inventoryMovements createInventoryMovement
    InventoryMovement.id /\
  inserts outputs set_outputs createOutput Output.id /\
  inserts outputDetails set_outputDetails
    (fun detail _ => createOutputDetail detail) OutputDetail.id /\
  inserts invoices set_invoices createInvoice Invoice.id /\
  inserts systemActivities set_systemActivities createSystemActivity
    SystemActivity.id.
Proof.
  unfold_storage.
  repeat split;
    match goal with
    | |- inserts ?view ?set (fun x now => on_table _ _ (fun t => alloc t (@?mk x now))) _ =>
        apply (alloc_inserts view set mk); reflexivity
    end.
Qed.

Lemma create_methods_witness :
  exists (r : Supplier.t) (s' : MemStorage),
    runState
      (createSupplier
         (InsertSupplier.mk "A" None None None None None None "active") 5)
      (storage 0) = (r, s') /\
    Supplier.id r = nextId (suppliers (storage 0)) /\
    map_get (Supplier.id r) (entries (suppliers s')) = Some r.
Proof.
  destruct (proj1 (proj2 create_methods_append_under_the_counter)
              (storage 0)
              (InsertSupplier.mk "A" None None None None None None "active")
              5 (proj1 (proj2 (storage_ok 0))))
    as (r & s' & Hrun & Hid & Hget & _).
  exists r, s'. repeat split; assumption.
Defined.

(** X6. Each of the eleven delete methods returns whether the id was
    present, leaves no record under that id, and leaves every other record
    of the table, its counter and every other table as they were. *)
Theorem delete_methods_remove_only_that_record :
  removes suppliers set_suppliers deleteSupplier /\
  removes products set_products deleteProduct /\
  removes requirements set_requirements deleteRequirement /\
  removes requirementDetails set_requirementDetails
    deleteRequirementDetail /\
  removes purchaseOrders set_purchaseOrders deletePurchaseOrder /\
  removes purchaseOrderDetails set_purchaseOrderDetails
    deletePurchaseOrderDetail /\
  removes receptions set_receptions deleteReception /\
  removes receptionDetails set_receptionDetails deleteReceptionDetail /\
  removes outputs set_outputs deleteOutput /\
  removes outputDetails set_outputDetails deleteOutputDetail /\
  removes invoices set_invoices deleteInvoice.
Proof.
  repeat split; apply remove_removes; reflexivity.
Qed.

Lemma delete_methods_witness :
  exists s' : MemStorage,
    runState (deleteProduct 2) (storage 0) = (true, s') /\
    map_get 2 (entries (products s')) = None /\
    map_get 3 (entries (products s')) =
      map_get 3 (entries (products (storage 0))).
Proof.
  destruct (proj1 (proj2 delete_methods_remove_only_that_record)
              (storage 0) 2 (proj1 (proj2 (proj2 (storage_ok 0)))))
    as (s' & Hrun & Hget & Hother & _).
  exists s'. split; [exact Hrun |]. split; [exact Hget |].
  apply Hother. discriminate.
Defined.

(** ** The activity listing *)

Lemma insertByDate_Permutation (a : SystemActivity.t)
  (l : list SystemActivity.t) : Permutation (a :: l) (insertByDate a l).
Proof.
  induction l as [| b l IH]; simpl; [reflexivity |].
  destruct (SystemActivity.createdAt a <? SystemActivity.createdAt b).
  - rewrite perm_swap. now apply perm_skip.
  - reflexivity.
Qed.

Lemma sortByDateDesc_Permutation (l : list SystemActivity.t) :
  Permutation l (sortByDateDesc l).
Proof.
  induction l as [| a l IH]; simpl; [reflexivity |].
  rewrite <- insertByDate_Permutation. now apply perm_skip.
Qed.

Lemma insertByDate_sorted (a : SystemActivity.t)
  (l : list SystemActivity.t) :
  StronglySorted newerFirst l -> StronglySorted newerFirst (insertByDate a l).
Proof.
  induction l as [| b l IH]; simpl; intros Hs.
  - repeat constructor.
  - inversion Hs as [| ? ? Hs' Hall]; subst.
    destruct (Z.ltb_spec (SystemActivity.createdAt a)
                (SystemActivity.createdAt b)) as [Hlt | Hge].
    + constructor; [now apply IH |].
      rewrite Forall_forall. intros x Hx.
      apply (Permutation_in _ (Permutation_sym (insertByDate_Permutation a l)))
        in Hx.
      destruct Hx as [<- | Hx]; [unfold newerFirst; lia |].
      rewrite Forall_forall in Hall. now apply Hall.
    + constructor; [exact Hs |].
      constructor; [exact Hge |].
      eapply Forall_impl; [| exact Hall]. unfold newerFirst. intros x Hx. lia.
Qed.

Lemma sortByDateDesc_sorted (l : list SystemActivity.t) :
  StronglySorted newerFirst (sortByDateDesc l).
Proof.
  induction l as [| a l IH]; simpl; [constructor |].
  now apply insertByDate_sorted.
Qed.

Lemma In_firstn_skipn {A : Type} (l : list A) (n : nat) (x : A) :
  In x (firstn n l) \/ In x (skipn n l) -> In x l.
Proof.
  intros H. rewrite <- (firstn_skipn n l). apply in_or_app. exact H.
Qed.

Lemma sorted_firstn_skipn (l : list SystemActivity.t) (n : nat) :
  StronglySorted newerFirst l ->
  StronglySorted newerFirst (firstn n l) /\
  forall a b, In a (firstn n l) -> In b (skipn n l) -> newerFirst a b.
Proof.
  revert n. induction l as [| x l IH]; intros n Hs.
  - rewrite firstn_nil, skipn_nil. split; [constructor | intros a b []].
  - destruct n as [| n]; simpl; [split; [constructor | intros a b []] |].
    inversion Hs as [| ? ? Hs' Hall]; subst.
    destruct (IH n Hs') as [Hf Hcross]. rewrite Forall_forall in Hall.
    split.
    + constructor; [exact Hf |]. rewrite Forall_forall. intros y Hy.
      apply Hall. apply (In_firstn_skipn l n). now left.
    + intros a b [<- | Ha] Hb.
      * apply Hall. apply (In_firstn_skipn l n). now right.
      * now apply Hcross.
Qed.

(** X7. getSystemActivities with a positive limit returns the [limit] most
    recent activities, newest first: the listing has [limit] entries (all of
    them when there are fewer), is ordered by descending createdAt, and
    together with the activities left out it is a rearrangement of the
    stored activities, none of those left out being more recent than a
    listed one.  Without a limit, or with limit 0, all activities are
    listed, newest first.  The store is not changed. *)
Theorem activity_listing_is_the_most_recent :
  forall (s : MemStorage) (limit : option Z),
    let activities := map_values (entries (systemActivities s)) in
    let listed := fst (runState (getSystemActivities limit) s) in
    snd (runState (getSystemActivities limit) s) = s /\
    StronglySorted newerFirst listed /\
    (exists rest : list SystemActivity.t,
       Permutation (listed ++ rest) activities /\
       (forall a b, In a listed -> In b rest -> newerFirst a b) /\
       match limit with
       | Some n =>
           if n =? 0 then rest = []
           else
             List.length listed =
               if 0 <? n
               then Nat.min (Z.to_nat n) (List.length activities)
               else (List.length activities - Z.to_nat (- n))%nat
       | None => rest = []
       end).
Proof.
  intros s limit activities listed. subst listed.
  unfold getSystemActivities. rewrite run_reads. cbn [fst snd].
  fold activities.
  pose proof (sortByDateDesc_sorted activities) as Hsorted.
  pose proof (sortByDateDesc_Permutation activities) as Hperm.
  split; [reflexivity |].
  assert (Hall : StronglySorted newerFirst (sortByDateDesc activities) /\
                 exists rest,
                   Permutation (sortByDateDesc activities ++ rest) activities /\
                   (forall a b, In a (sortByDateDesc activities) ->
                                In b rest -> newerFirst a b) /\
                   rest = []).
  { split; [exact Hsorted |]. exists []. rewrite app_nil_r.
    split; [now symmetry |]. split; [intros a b _ [] | reflexivity]. }
  destruct limit as [n |]; [| destruct Hall as [H1 (rest & H2 & H3 & H4)];
                               split; [exact H1 |]; exists rest; auto].
  destruct (n =? 0) eqn:En;
    [destruct Hall as [H1 (rest & H2 & H3 & H4)];
     split; [exact H1 |]; exists rest; auto |].
  unfold slice0. destruct (Z.leb_spec 0 n) as [Hn | Hn].
  - destruct (sorted_firstn_skipn _ (Z.to_nat n) Hsorted) as [Hf Hcross].
    split; [exact Hf |].
    exists (skipn (Z.to_nat n) (sortByDateDesc activities)).
    rewrite firstn_skipn. split; [now symmetry |]. split; [exact Hcross |].
    rewrite length_firstn, <- (Permutation_length Hperm).
    apply Z.eqb_neq in En.
    destruct (Z.ltb_spec 0 n); [reflexivity | lia].
  - match goal with
    | |- context [firstn ?k _] =>
        destruct (sorted_firstn_skipn _ k Hsorted) as [Hf Hcross];
        split; [exact Hf |];
        exists (skipn k (sortByDateDesc activities))
    end.
    rewrite firstn_skipn. split; [now symmetry |]. split; [exact Hcross |].
    rewrite length_firstn, <- (Permutation_length Hperm).
    destruct (Z.ltb_spec 0 n); lia.
Qed.

(** ** Product codes *)

Lemma products_reachable_ok (s : MemStorage) :
  reachable s -> tableOk (products s).
Proof. intros H. apply reachable_ok in H. unfold storeOk in H. tauto. Qed.

Lemma find_app_first {A : Type} (f : A -> bool) (l l' : list A) :
  find f (l ++ l') =
  match find f l with Some x => Some x | None => find f l' end.
Proof.
  induction l as [| x l IH]; simpl; [reflexivity |].
  now destruct (f x).
Qed.

(** X8. POST /api/products never checks the product code: every valid
    body is answered 201 and stored as a new product carrying the body's
    code, whatever the store holds.  When a product with that code was
    already there, getProductByCode keeps returning the older one, so the
    new product cannot be reached by its code. *)
Theorem post_products_accepts_any_code :
  forall (s : MemStorage) (validatedData : InsertProduct.t) (now : Z),
    reachable s ->
    exists (product : Product.t) (s' : MemStorage),
      runState (post_products (Valid validatedData) now) s
        = (Json 201 product, s') /\
      map_values (entries (products s')) =
        map_values (entries (products s)) ++ [product] /\
      Product.id product = nextId (products s) /\
      Product.code product = InsertProduct.code validatedData /\
      fst (runState (getProductByCode (InsertProduct.code validatedData)) s') =
        match
          fst (runState (getProductByCode (InsertProduct.code validatedData))
                 s)
        with
        | Some older => Some older
        | None => Some product
        end.
Proof.
  intros s validatedData now Hs.
  pose proof (products_reachable_ok s Hs) as Hok.
  unfold post_products, logActivity. unfold_storage. run.
  eexists. eexists. split; [reflexivity |]. cbn [products set_systemActivities
    set_products entries nextId].
  split; [now apply values_under_counter |].
  split; [reflexivity |]. split; [reflexivity |].
  rewrite !run_reads. cbn [fst products set_systemActivities set_products
    entries].
  rewrite (values_under_counter _ _ Hok), find_app_first.
  destruct (find _ (map_values (entries (products s)))); [reflexivity |].
  simpl. now rewrite String.eqb_refl.
Qed.

Lemma post_products_accepts_any_code_witness :
  let s := storage 0 in
  let validatedData :=
    InsertProduct.mk "FO-LED-20W" "Otro" None "General" "unidad" None None None
      None None in
  reachable s /\
  exists (product older : Product.t) (s' : MemStorage),
    runState (post_products (Valid validatedData) 0) s
      = (Json 201 product, s') /\
    Product.code product = "FO-LED-20W"%string /\
    fst (runState (getProductByCode "FO-LED-20W") s) = Some older /\
    fst (runState (getProductByCode "FO-LED-20W") s') = Some older /\
    Product.id older <> Product.id product.
Proof.
  intros s validatedData. split; [apply reachable_start |].
  destruct (post_products_accepts_any_code s validatedData 0
              (reachable_start 0))
    as (product & s' & Hrun & _ & Hid & Hcode & Hfind).
  change (InsertProduct.code validatedData) with "FO-LED-20W"%string
    in Hfind, Hcode.
  destruct (fst (runState (getProductByCode "FO-LED-20W") s)) as [older |]
    eqn:Hold; [| vm_compute in Hold; discriminate Hold].
  exists product, older, s'. split; [exact Hrun |]. split; [exact Hcode |].
  split; [reflexivity |]. split; [exact Hfind |].
  rewrite Hid. vm_compute in Hold. injection Hold as <-. vm_compute.
  discriminate.
Defined.

(** ** Deleting a product or a supplier *)

(** X11. DELETE /api/products/:id of an existing product is answered 204
    and removes that product only: the movements and the requirement,
    purchase-order, reception and output details are left as they were,
    so rows that refer to the product keep referring to it.  Likewise
    DELETE /api/suppliers/:id removes the supplier and leaves the
    products, purchase orders, receptions and invoices that name it as
    they were. *)
Theorem deleting_leaves_references_behind :
  (forall (s : MemStorage) (id : Z) (now : Z) (product : Product.t),
     reachable s ->
     map_get id (entries (products s)) = Some product ->
     let s' := after (DELETE_products id) now s in
     fst (runState (serve (DELETE_products id) now) s) = 204 /\
     map_get id (entries (products s')) = None /\
     (forall j, j <> id ->
        map_get j (entries (products s')) = map_get j (entries (products s)))
     /\
     inventoryMovements s' = inventoryMovements s /\
     requirementDetails s' = requirementDetails s /\
     purchaseOrderDetails s' = purchaseOrderDetails s /\
     receptionDetails s' = receptionDetails s /\
     outputDetails s' = outputDetails s) /\
  (forall (s : MemStorage) (id : Z) (now : Z) (supplier : Supplier.t),
     reachable s ->
     map_get id (entries (suppliers s)) = Some supplier ->
     let s' := after (DELETE_suppliers id) now s in
     fst (runState (serve (DELETE_suppliers id) now) s) = 204 /\
     map_get id (entries (suppliers s')) = None /\
     (forall j, j <> id ->
        map_get j (entries (suppliers s'))
          = map_get j (entries (suppliers s))) /\
     products s' = products s /\
     purchaseOrders s' = purchaseOrders s /\
     receptions s' = receptions s /\
     invoices s' = invoices s).
Proof.
  split; intros s id now r Hs Hget s'; subst s'; unfold after, serve;
    unfold_handlers; unfold_storage; run; rewrite Hget; run;
    unfold map_has; rewrite Hget; run;
    (split; [reflexivity |]);
    (split; [apply map_get_delete_same; apply reachable_ok in Hs;
             unfold storeOk, tableOk in Hs; tauto |]);
    (split; [intros j Hj; now apply map_get_delete_other |]);
    repeat split; reflexivity.
Qed.

Lemma deleting_leaves_references_witness :
  let s := storage 0 in
  let s' := after (DELETE_products 1) 5 s in
  reachable s /\
  map_has 1 (entries (products s)) = true /\
  map_get 1 (entries (products s')) = None /\
  inventoryMovements s' = inventoryMovements s /\
  movementQuantities 1 s' = [(-2)%float].
Proof.
  intros s s'. split; [apply reachable_start |].
  split; [vm_compute; reflexivity |].
  destruct (map_get 1 (entries (products s))) as [product |] eqn:Hget;
    [| vm_compute in Hget; discriminate Hget].
  destruct (proj1 deleting_leaves_references_behind s 1 5 product
              (reachable_start 0) Hget)
    as (_ & Hgone & _ & Hmov & _).
  split; [exact Hgone |]. split; [exact Hmov |].
  vm_compute. reflexivity.
Defined.

(** ** The two logs only grow *)

Lemma appended_nothing {A : Type} (P : A -> Prop) (l : list A) (n : nat) :
  n = 0%nat ->
  exists l', l = l ++ l' /\ List.length l' = n /\ Forall P l'.
Proof.
  intros ->. exists [].
  split; [now rewrite app_nil_r | split; [reflexivity | constructor]].
Qed.

Lemma appended_under_counter {A : Type} (P : A -> Prop) (t : Table A)
  (r : A) (n : nat) :
  tableOk t -> P r -> n = 1%nat ->
  exists l',
    map_values (map_set (nextId t) r (entries t)) = map_values (entries t) ++ l'
    /\ List.length l' = n /\ Forall P l'.
Proof.
  intros Hok Hr ->. exists [r]. split; [now apply values_under_counter |].
  split; [reflexivity | now constructor].
Qed.

(** X9. Every request appends to the activity log and never rewrites it:
    the activities held before are still there, in the same order; a
    request answered 200, 201 or 204 on a route other than the four
    detail-creation routes adds exactly one activity, stamped with the time
    of the request, and every other request adds none. *)
Theorem each_request_logs_at_most_one_activity :
  forall (s : MemStorage) (request : Request) (now : Z),
    reachable s ->
    exists l : list SystemActivity.t,
      map_values (entries (systemActivities (after request now s))) =
        map_values (entries (systemActivities s)) ++ l /\
      List.length l =
        (if succeeded (fst (runState (serve request now) s))
            && negb (detailRoute request) then 1 else 0)%nat /\
      Forall (fun a => SystemActivity.createdAt a = now) l.
Proof.
  intros s request now Hs.
  assert (Hok : tableOk (systemActivities s))
    by (apply reachable_ok in Hs; unfold storeOk in Hs; tauto).
  clear Hs. unfold after. each_request request.
  all: try (put_outputs_cases;
            [ apply (appended_under_counter _ _ _ _ Hok);
              [apply Hmk | reflexivity]
            | apply appended_nothing; reflexivity ]).
  all: unfold serve; unfold_handlers; unfold_storage; run; split_lookups;
    cbn [succeeded detailRoute negb andb];
    first [ apply appended_nothing; reflexivity
          | apply (appended_under_counter _ _ _ _ Hok); reflexivity ].
Qed.

Lemma each_request_logs_witness :
  let s := storage 0 in
  let request :=
    POST_suppliers
      (Valid (InsertSupplier.mk "A" None None None None None None "active")) in
  reachable s /\
  exists l : list SystemActivity.t,
    map_values (entries (systemActivities (after request 5 s))) =
      map_values (entries (systemActivities s)) ++ l /\
    List.length l = 1%nat.
Proof.
  intros s request. split; [apply reachable_start |].
  destruct (each_request_logs_at_most_one_activity s request 5
              (reachable_start 0)) as (l & Hl & Hn & _).
  exists l. split; [exact Hl | exact Hn].
Defined.

Lemma completeOutputDetail_appends_movements (s : MemStorage) (id : Z)
  (existingOutput : Output.t) (now : Z) (detail : OutputDetail.t) :
  tableOk (inventoryMovements s) ->
  tableOk (inventoryMovements
             (snd (runState (completeOutputDetail id existingOutput now detail)
                     s))) /\
  exists l : list InventoryMovement.t,
    map_values
      (entries
         (inventoryMovements
            (snd (runState (completeOutputDetail id existingOutput now detail)
                    s)))) =
      map_values (entries (inventoryMovements s)) ++ l /\
    Forall (fun m => InventoryMovement.createdAt m = now) l.
Proof.
  intros Hok. unfold completeOutputDetail. unfold_storage.
  destruct (String.eqb (OutputDetail.status detail) "completed"); run.
  - split; [exact Hok |]. exists []. split; [now rewrite app_nil_r |].
    constructor.
  - split; [now apply store_under_counter_ok |].
    eexists [_]. split; [now apply values_under_counter |].
    repeat constructor.
Qed.

Lemma completion_loop_appends_movements (details : list OutputDetail.t)
  (s : MemStorage) (id : Z) (existingOutput : Output.t) (now : Z) :
  tableOk (inventoryMovements s) ->
  exists l : list InventoryMovement.t,
    map_values
      (entries
         (inventoryMovements
            (snd (runState
                    (forEach details
                       (completeOutputDetail id existingOutput now)) s)))) =
      map_values (entries (inventoryMovements s)) ++ l /\
    Forall (fun m => InventoryMovement.createdAt m = now) l.
Proof.
  revert s. induction details as [| detail details IH]; intros s Hok.
  - exists []. split; [now rewrite app_nil_r | constructor].
  - rewrite forEach_cons, run_bind.
    destruct (completeOutputDetail_appends_movements s id existingOutput now
                detail Hok) as (Hok' & l1 & E1 & H1).
    destruct (IH _ Hok') as (l2 & E2 & H2).
    exists (l1 ++ l2). split.
    + rewrite E2, E1. now rewrite app_assoc.
    + now apply Forall_app.
Qed.

Lemma movements_unchanged (P : InventoryMovement.t -> Prop)
  (l : list InventoryMovement.t) (b : bool) :
  exists l', l = l ++ l' /\ Forall P l' /\ (b = false -> l' = []).
Proof.
  exists []. split; [now rewrite app_nil_r |]. split; [constructor | easy].
Qed.

Lemma movement_under_counter (P : InventoryMovement.t -> Prop)
  (t : Table InventoryMovement.t) (r : InventoryMovement.t) :
  tableOk t -> P r ->
  exists l',
    map_values (map_set (nextId t) r (entries t)) = map_values (entries t) ++ l'
    /\ Forall P l' /\ (true = false -> l' = []).
Proof.
  intros Hok Hr. exists [r]. split; [now apply values_under_counter |].
  split; [now constructor | discriminate].
Qed.

(** X10. The movement history only grows: after any request the movements
    held before are still there, unchanged and in the same order; the ones
    added are stamped with the time of the request; and only the four
    routes that book stock (POST /api/receptions/:id/details, POST
    /api/inventory/movements, POST /api/outputs/:id/details and PUT
    /api/outputs/:id) add any. *)
Theorem movement_history_is_append_only :
  forall (s : MemStorage) (request : Request) (now : Z),
    reachable s ->
    exists l : list InventoryMovement.t,
      map_values (entries (inventoryMovements (after request now s))) =
        map_values (entries (inventoryMovements s)) ++ l /\
      Forall (fun m => InventoryMovement.createdAt m = now) l /\
      (booksStock request = false -> l = []).
Proof.
  intros s request now Hs.
  assert (Hok : tableOk (inventoryMovements s)) by now apply movements_ok.
  clear Hs. unfold after. each_request request.
  all: try (put_outputs_cases;
            [ | apply movements_unchanged ]).
  all: try (unfold serve; unfold_handlers; unfold_storage; run; split_lookups;
    cbn [booksStock];
    first [ apply movements_unchanged
          | apply (movement_under_counter _ _ _ Hok); reflexivity ]).
  cbn [booksStock].
  apply (f_equal inventoryMovements) in Hloop. cbn in Hloop. cbn.
  rewrite <- Hloop.
  destruct (asksCompleted validatedData
            && negb (String.eqb (Output.status o) "completed")).
  - destruct (completion_loop_appends_movements
                (filter (fun detail => OutputDetail.outputId detail =? id)
                   (map_values (entries (outputDetails s))))
                s id o now Hok) as (l & El & Hl).
    exists l. split; [exact El |]. split; [exact Hl | discriminate].
  - apply movements_unchanged.
Qed.

Lemma movement_history_witness :
  let s := storage 0 in
  let request := PUT_outputs 3
    (Valid (PartialOutput.mk None None None (Some "completed") None None
              None)) in
  reachable s /\
  exists l : list InventoryMovement.t,
    map_values (entries (inventoryMovements (after request 5 s))) =
      map_values (entries (inventoryMovements s)) ++ l /\
    Forall (fun m => InventoryMovement.createdAt m = 5) l.
Proof.
  intros s request. split; [apply reachable_start |].
  destruct (movement_history_is_append_only s request 5 (reachable_start 0))
    as (l & Hl & Hnow & _).
  exists l. split; [exact Hl | exact Hnow].
Defined.

(** ** Completing an output *)

Lemma completion_loop_details (details : list OutputDetail.t)
  (s : MemStorage) (id : Z) (existingOutput : Output.t) (now : Z) :
  outputDetails
    (snd (runState
            (forEach details (completeOutputDetail id existingOutput now)) s))
  = fold_left completeStep details (outputDetails s).
Proof.
  revert s. induction details as [| detail details IH]; intros s;
    [reflexivity |].
  rewrite forEach_cons, run_bind, IH. simpl. f_equal.
  unfold completeOutputDetail, completeStep. unfold_storage.
  destruct (negb (String.eqb (OutputDetail.status detail) "completed")); run;
    [| reflexivity].
  unfold completedPatch. now destruct (amend (outputDetails s) _ _).
Qed.

Section CompletionLoop.
Variable t0 : Table OutputDetail.t.
Hypothesis Hnd : NoDup (map_keys (entries t0)).
Hypothesis Hkeyed : keyed OutputDetail.id t0.
Variable id : Z.

Lemma completedSoFar_start : completedSoFar t0 id [] t0.
Proof.
  split; [reflexivity |]. split; [reflexivity |].
  split; [intros k d0 H; now left | intros d0 []].
Qed.

Lemma completeStep_completedSoFar (done : list OutputDetail.t)
  (t : Table OutputDetail.t) (detail : OutputDetail.t) :
  map_get (OutputDetail.id detail) (entries t0) = Some detail ->
  OutputDetail.outputId detail = id ->
  completedSoFar t0 id done t ->
  completedSoFar t0 id (done ++ [detail]) (completeStep t detail).
Proof.
  intros Hget Hout (Hkeys & Hnext & Hrec & Hdone).
  unfold completeStep.
  destruct (String.eqb_spec (OutputDetail.status detail) "completed")
    as [Hst | Hst]; simpl.
  - split; [exact Hkeys |]. split; [exact Hnext |]. split; [exact Hrec |].
    intros d0 Hin Hd0. apply in_app_or in Hin.
    destruct Hin as [Hin | [<- | []]]; [now apply Hdone |].
    destruct (Hrec _ _ Hget) as [H | [H _]]; eexists; (split; [exact H |]);
      [exact Hst | reflexivity].
  - assert (Hcur : exists d, map_get (OutputDetail.id detail) (entries t)
                             = Some d /\
                             mergeOutputDetail completedPatch d =
                             mergeOutputDetail completedPatch detail).
    { destruct (Hrec _ _ Hget) as [H | [H _]]; eexists;
        (split; [exact H | reflexivity]). }
    destruct Hcur as (d & Hd & Hmark).
    rewrite (amend_found _ _ _ _ Hd). rewrite Hmark.
    unfold completedSoFar. cbn [fst entries nextId].
    split; [rewrite map_set_present_keys;
            [exact Hkeys | eapply map_get_keys; exact Hd] |].
    split; [exact Hnext |]. split.
    + intros k d0 Hk. destruct (Z.eq_dec k (OutputDetail.id detail)) as [-> | Hne].
      * right. rewrite map_get_set_same.
        assert (d0 = detail) as -> by congruence. now split.
      * rewrite (map_get_set_other _ _ _ _ Hne). now apply Hrec.
    + intros d0 Hin Hd0.
      destruct (Z.eq_dec (OutputDetail.id d0) (OutputDetail.id detail))
        as [E | Hne].
      * rewrite E, map_get_set_same. eexists. split; reflexivity.
      * rewrite (map_get_set_other _ _ _ _ Hne).
        apply in_app_or in Hin. destruct Hin as [Hin | [<- | []]];
          [now apply Hdone | congruence].
Qed.

Lemma fold_completeStep_completedSoFar
  (details done : list OutputDetail.t)
  (t : Table OutputDetail.t) :
  (forall d, In d details ->
     map_get (OutputDetail.id d) (entries t0) = Some d /\
     OutputDetail.outputId d = id) ->
  completedSoFar t0 id done t ->
  completedSoFar t0 id (done ++ details) (fold_left completeStep details t).
Proof.
  revert done t. induction details as [| detail details IH];
    intros done t Hall Hinv; simpl.
  - now rewrite app_nil_r.
  - replace (done ++ detail :: details) with ((done ++ [detail]) ++ details)
      by now rewrite <- app_assoc.
    apply IH; [intros d Hd; apply Hall; now right |].
    destruct (Hall detail (or_introl eq_refl)) as [Hget Hout].
    now apply completeStep_completedSoFar.
Qed.

Lemma details_of_output_are_stored (d : OutputDetail.t) :
  In d (filter (fun detail => OutputDetail.outputId detail =? id)
          (map_values (entries t0))) ->
  map_get (OutputDetail.id d) (entries t0) = Some d /\
  OutputDetail.outputId d = id.
Proof.
  intros Hin. apply filter_In in Hin. destruct Hin as [Hin Hout].
  apply Z.eqb_eq in Hout. split; [| exact Hout].
  unfold map_values in Hin. apply in_map_iff in Hin.
  destruct Hin as ([k d'] & Hsnd & Hin). simpl in Hsnd. subst d'.
  rewrite (Hkeyed _ _ Hin). now apply In_map_get.
Qed.

Lemma completion_loop_completes :
  let t :=
    fold_left completeStep
      (filter (fun detail => OutputDetail.outputId detail =? id)
         (map_values (entries t0))) t0 in
  map_keys (entries t) = map_keys (entries t0) /\
  (forall k d, map_get k (entries t) = Some d ->
     OutputDetail.outputId d = id ->
     OutputDetail.status d = "completed"%string) /\
  (forall k d0, map_get k (entries t0) = Some d0 ->
     OutputDetail.outputId d0 <> id ->
     map_get k (entries t) = Some d0).
Proof.
  intros t.
  destruct (fold_completeStep_completedSoFar
              (filter (fun detail => OutputDetail.outputId detail =? id)
                 (map_values (entries t0))) [] t0
              details_of_output_are_stored completedSoFar_start)
    as (Hkeys & _ & Hrec & Hdone).
  fold t in Hkeys, Hrec, Hdone. simpl in Hdone.
  split; [exact Hkeys |]. split.
  - intros k d Hd Hout.
    assert (Hk : In k (map_keys (entries t0)))
      by (rewrite <- Hkeys; eapply map_get_keys; exact Hd).
    unfold map_keys in Hk. apply in_map_iff in Hk.
    destruct Hk as ([k' d0] & Hfst & Hin). simpl in Hfst. subst k'.
    pose proof (In_map_get _ _ _ Hnd Hin) as Hd0.
    pose proof (Hkeyed _ _ Hin) as Hid.
    assert (Hout0 : OutputDetail.outputId d0 = id).
    { destruct (Hrec _ _ Hd0) as [H | [H Ho]]; [| exact Ho].
      congruence. }
    assert (Hin0 : In d0 (filter (fun detail =>
                                    OutputDetail.outputId detail =? id)
                            (map_values (entries t0)))).
    { apply filter_In. split.
      - unfold map_values. apply in_map_iff. now exists (k, d0).
      - now apply Z.eqb_eq. }
    rewrite <- Hid in Hd0.
    destruct (Hdone d0 Hin0 Hd0) as (d' & Hd' & Hst).
    rewrite Hid in Hd'. congruence.
  - intros k d0 Hd0 Hout.
    destruct (Hrec _ _ Hd0) as [H | [_ Ho]]; [exact H | contradiction].
Qed.

End CompletionLoop.

(** X12. PUT /api/outputs/:id that sets an existing output, not yet
    'completed', to 'completed' is answered 200, stores the output as
    'completed', and leaves every detail of that output with status
    'completed'; the details of other outputs, and the set of detail ids,
    are as before. *)
Theorem completing_an_output_completes_its_details :
  forall (s : MemStorage) (id : Z) (existingOutput : Output.t)
         (validatedData : PartialOutput.t) (now : Z),
    reachable s ->
    map_get id (entries (outputs s)) = Some existingOutput ->
    PartialOutput.status validatedData = Some "completed"%string ->
    Output.status existingOutput <> "completed"%string ->
    let s' := after (PUT_outputs id (Valid validatedData)) now s in
    fst (runState (serve (PUT_outputs id (Valid validatedData)) now) s) = 200
    /\
    option_map Output.status (map_get id (entries (outputs s')))
      = Some "completed"%string /\
    map_keys (entries (outputDetails s')) = map_keys (entries (outputDetails s))
    /\
    (forall k detail,
       map_get k (entries (outputDetails s')) = Some detail ->
       OutputDetail.outputId detail = id ->
       OutputDetail.status detail = "completed"%string) /\
    (forall k detail,
       map_get k (entries (outputDetails s)) = Some detail ->
       OutputDetail.outputId detail <> id ->
       map_get k (entries (outputDetails s')) = Some detail).
Proof.
  intros s id existingOutput validatedData now Hs Hget Hstatus Hnot s'.
  subst s'. unfold after, serve. rewrite run_answered. cbn [fst snd].
  destruct (put_outputs_existing s id validatedData now existingOutput Hget)
    as (tp & td & tm & mk & _ & E & Hloop).
  rewrite E. cbn [fst snd statusCode].
  split; [reflexivity |].
  split.
  { cbn. rewrite map_get_set_same. cbn. now rewrite Hstatus. }
  assert (Hask : asksCompleted validatedData
                 && negb (String.eqb (Output.status existingOutput)
                            "completed") = true).
  { unfold asksCompleted. rewrite Hstatus. simpl.
    destruct (String.eqb_spec (Output.status existingOutput) "completed");
      [contradiction | reflexivity]. }
  rewrite Hask in Hloop.
  apply (f_equal outputDetails) in Hloop.
  rewrite completion_loop_details in Hloop. cbn in Hloop. cbn.
  rewrite <- Hloop.
  pose proof (reachable_ok s Hs) as Hok.
  pose proof (reachable_keyed s Hs) as Hkeyed.
  apply (completion_loop_completes (outputDetails s)).
  - unfold storeOk, tableOk in Hok. tauto.
  - unfold storeKeyed in Hkeyed. tauto.
Qed.

Lemma completing_an_output_witness :
  let s := storage 0 in
  let validatedData :=
    PartialOutput.mk None None None (Some "completed") None None None in
  let s' := after (PUT_outputs 3 (Valid validatedData)) 5 s in
  reachable s /\
  option_map Output.status (map_get 3 (entries (outputs s)))
    = Some "pending"%string /\
  fst (runState (serve (PUT_outputs 3 (Valid validatedData)) 5) s) = 200 /\
  forall k detail,
    map_get k (entries (outputDetails s')) = Some detail ->
    OutputDetail.outputId detail = 3 ->
    OutputDetail.status detail = "completed"%string.
Proof.
  intros s validatedData s'. split; [apply reachable_start |].
  split; [vm_compute; reflexivity |].
  destruct (map_get 3 (entries (outputs s))) as [existingOutput |] eqn:Hget;
    [| vm_compute in Hget; discriminate Hget].
  assert (Hnot : Output.status existingOutput <> "completed"%string).
  { pose proof Hget as H. vm_compute in H. injection H as <-. discriminate. }
  destruct (completing_an_output_completes_its_details
              s 3 existingOutput validatedData 5 (reachable_start 0) Hget
              eq_refl Hnot)
    as (Hcode & _ & _ & Hall & _).
  split; [exact Hcode | exact Hall].
Defined.
